(** * GREE remote decoder: a shallow embedding of [decode.py]

    The development follows the pipeline of the script, leaves first:
    pulse classification, frame reassembly ([next_frame]), symbolic code
    construction ([next_code]), byte extraction ([next_bytes]), checksum
    ([match_checksum]) and field decoding ([next_data]).

    Python integers are unbounded, so durations and bytes are [Z]; the
    bit operators [&], [|], [<<], [>>] are [Z.land], [Z.lor], [Z.shiftl],
    [Z.shiftr].  Every [print] of the script is recorded as a diagnostic
    event, every uncaught Python exception as a [Raise]. *)

From Stdlib Require Import ZArith List String Ascii Bool Lia QArith.
Import ListNotations.
Close Scope Q_scope.
Open Scope string_scope.
Open Scope list_scope.
Open Scope Z_scope.

(* ------------------------------------------------------------------ *)
(** ** Burst and pause length configuration functions *)

(** Start pulse of a standard frame: 9ms high, 4.5ms low. *)
Definition is_long_start (hi lo : Z) : bool :=
  (8000 <? hi) && (lo <? -4000).

(** Start pulse of a short frame: 6ms high, 3ms low. *)
Definition is_short_start (hi lo : Z) : bool :=
  ((5000 <? hi) && (hi <? 7000)) && ((-3500 <? lo) && (lo <? -2500)).

(** Bit lead burst: around 700us high. *)
Definition is_bit (hi : Z) : bool :=
  (600 <? hi) && (hi <? 800).

Definition is_zero (hi lo : Z) : bool :=
  is_bit hi && ((-600 <? lo) && (lo <? -400)).

Definition is_one (hi lo : Z) : bool :=
  is_bit hi && ((-1700 <? lo) && (lo <? -1500)).

Definition is_space (hi lo : Z) : bool :=
  is_bit hi && (lo <? -19000).

(* ------------------------------------------------------------------ *)
(** ** Code elements

    [next_code] builds a [str] over seven characters only; they are the
    constructors of [Symbol], in the order S, s, 0, 1, _, $, x. *)

Inductive Symbol : Type :=
| StartStandard   (* S *)
| StartShort      (* s *)
| Zero            (* 0 *)
| One             (* 1 *)
| Space           (* _ *)
| Stop            (* $ *)
| Invalid.        (* x *)

Definition Code := list Symbol.

Definition Symbol_eqb (a b : Symbol) : bool :=
  match a, b with
  | StartStandard, StartStandard | StartShort, StartShort
  | Zero, Zero | One, One | Space, Space | Stop, Stop
  | Invalid, Invalid => true
  | _, _ => false
  end.

Definition Symbol_char (a : Symbol) : ascii :=
  match a with
  | StartStandard => "S" | StartShort => "s" | Zero => "0" | One => "1"
  | Space => "_" | Stop => "$" | Invalid => "x"
  end%char.

(* ------------------------------------------------------------------ *)
(** ** Enumerations of the decoded record *)

Inductive Mode := ModeAuto | ModeCool | ModeDry | ModeFan | ModeHeat.
Inductive Fan := FanAuto | FanLow | FanMed | FanHigh.
Inductive HGuide :=
| HClosed | HLeft | HMidLeft | HMid | HMidRight | HRight | HOut
| HSwingLeftRight | HSwingInOut.
Inductive VGuide :=
| VClosed | VUp | VMidUp | VMid | VMidDown | VDown
| VSwingUpDown | VSwingDown | VSwingMid | VSwingUp.
Inductive TempDisplay := TDDefault | TDSet | TDRoom | TDOutdoor.

(** [Mode(n)], [Fan(n)], ...: the member with value [n]; [None] stands for
    the [ValueError] Python raises when no member has that value. *)
Definition Mode_of (n : Z) : option Mode :=
  match n with
  | 0 => Some ModeAuto | 1 => Some ModeCool | 2 => Some ModeDry
  | 3 => Some ModeFan | 4 => Some ModeHeat | _ => None
  end.

Definition Fan_of (n : Z) : option Fan :=
  match n with
  | 0 => Some FanAuto | 1 => Some FanLow | 2 => Some FanMed
  | 3 => Some FanHigh | _ => None
  end.

Definition HGuide_of (n : Z) : option HGuide :=
  match n with
  | 0 => Some HClosed | 2 => Some HLeft | 3 => Some HMidLeft
  | 4 => Some HMid | 5 => Some HMidRight | 6 => Some HRight
  | 12 => Some HOut | 1 => Some HSwingLeftRight | 13 => Some HSwingInOut
  | _ => None
  end.

Definition VGuide_of (n : Z) : option VGuide :=
  match n with
  | 0 => Some VClosed | 2 => Some VUp | 3 => Some VMidUp
  | 4 => Some VMid | 5 => Some VMidDown | 6 => Some VDown
  | 1 => Some VSwingUpDown | 7 => Some VSwingDown | 9 => Some VSwingMid
  | 11 => Some VSwingUp | _ => None
  end.

Definition TempDisplay_of (n : Z) : option TempDisplay :=
  match n with
  | 0 => Some TDDefault | 1 => Some TDSet | 2 => Some TDRoom
  | 3 => Some TDOutdoor | _ => None
  end.

(** The [.name] of the air guide members. *)
Definition HGuide_name (h : HGuide) : string :=
  match h with
  | HClosed => "Closed" | HLeft => "Left" | HMidLeft => "MidLeft"
  | HMid => "Mid" | HMidRight => "MidRight" | HRight => "Right"
  | HOut => "Out" | HSwingLeftRight => "SwingLeftRight"
  | HSwingInOut => "SwingInOut"
  end.

Definition VGuide_name (v : VGuide) : string :=
  match v with
  | VClosed => "Closed" | VUp => "Up" | VMidUp => "MidUp" | VMid => "Mid"
  | VMidDown => "MidDown" | VDown => "Down"
  | VSwingUpDown => "SwingUpDown" | VSwingDown => "SwingDown"
  | VSwingMid => "SwingMid" | VSwingUp => "SwingUp"
  end.

(** [sub in s] on strings. *)
Fixpoint str_in (sub s : string) : bool :=
  match s with
  | EmptyString => String.prefix sub EmptyString
  | String _ s' => String.prefix sub s || str_in sub s'
  end.

(* ------------------------------------------------------------------ *)
(** ** Decoded records: Python dicts, in insertion order *)

Inductive value : Type :=
| VStr (s : string)
| VBool (b : bool)
| VInt (n : Z)
| VFloat (q : Q)
| VMode (m : Mode)
| VFan (f : Fan)
| VHGuide (h : HGuide)
| VVGuide (v : VGuide)
| VTempDisplay (t : TempDisplay).

Definition dict := list (string * value).

Fixpoint dict_get (d : dict) (k : string) : option value :=
  match d with
  | [] => None
  | (k', v) :: d' => if String.eqb k' k then Some v else dict_get d' k
  end.

Definition dict_has (d : dict) (k : string) : bool :=
  match dict_get d k with Some _ => true | None => false end.

(** [d[k] = v]: an existing key keeps its place, a new one goes last. *)
Fixpoint dict_set (d : dict) (k : string) (v : value) : dict :=
  match d with
  | [] => [(k, v)]
  | (k', v') :: d' =>
      if String.eqb k' k then (k', v) :: d' else (k', v') :: dict_set d' k v
  end.

(** [d.update(e)] *)
Definition dict_update (d e : dict) : dict :=
  fold_left (fun acc kv => dict_set acc (fst kv) (snd kv)) e d.

Fixpoint dict_remove (d : dict) (k : string) : dict :=
  match d with
  | [] => []
  | (k', v) :: d' => if String.eqb k' k then d' else (k', v) :: dict_remove d' k
  end.

(* ------------------------------------------------------------------ *)
(** ** Effects: printed diagnostics and uncaught exceptions *)

(** One constructor per [print] of the script, with the values printed. *)
Inductive Diag : Type :=
| ExtraBits (frame : list Z)
| EvenBits (timings : list Z)
| InvalidBit (timings : list Z) (code : Code)
| InvalidCodeStructure (timings : list Z) (code : Code)
| InvalidCodeLength (n : Z) (code : Code)
| NonzeroFunc2Unused (v : Z)
| ZeroFunc3Lead (v : Z)
| NonzeroFunc3Unused (v : Z)
| NonzeroUnused6 (v : Z)
| NonzeroBasicControlUnused (v : Z)
| ZeroOnLead (v : Z)
| NonzeroTimerControlUnused (v : Z)
| NonzeroFooterUnusedBytes (bytes : list Z)
| NonzeroFooterUnusedBits (bytes : list Z)
| InvalidMagicByte (bytes : list Z)
| ChecksumMismatch (orig calc : Z)
| UnknownCodeType (bytes : list Z).

Inductive exn : Type := IndexError | ValueError | KeyError | AttributeError.

Inductive outcome (A : Type) : Type :=
| Return (a : A)
| Raise (e : exn).
Arguments Return {A} a.
Arguments Raise {A} e.

(** A computation prints diagnostics and then returns or raises. *)
Definition Py (A : Type) : Type := (list Diag * outcome A)%type.

Definition ret {A} (a : A) : Py A := ([], Return a).
Definition raise {A} (e : exn) : Py A := ([], Raise e).
Definition print (d : Diag) : Py unit := ([d], Return tt).

Definition bind {A B} (m : Py A) (f : A -> Py B) : Py B :=
  match m with
  | (d, Return a) => let (d', r) := f a in (d ++ d', r)
  | (d, Raise e) => (d, Raise e)
  end.

Notation "x <- m ;; k" := (bind m (fun x => k))
  (at level 61, m at next level, right associativity).
Notation "m ;;; k" := (bind m (fun _ => k))
  (at level 61, right associativity).

Definition when (c : bool) (m : Py unit) : Py unit :=
  if c then m else ret tt.

Definition diags {A} (m : Py A) : list Diag := fst m.
Definition result {A} (m : Py A) : outcome A := snd m.

Definition lift_option {A} (e : exn) (o : option A) : Py A :=
  match o with Some a => ret a | None => raise e end.

(** [l[i]] for a non-negative constant index. *)
Definition getitem (l : list Z) (i : nat) : Py Z :=
  lift_option IndexError (nth_error l i).

Definition len {A} (l : list A) : Z := Z.of_nat (List.length l).

Definition neqb (a b : Z) : bool := negb (a =? b).

Notation "l .[ i ]" := (getitem l i) (at level 1, left associativity).

(** Short-circuit [or] over conditions that may raise. *)
Definition orM (a b : Py bool) : Py bool :=
  x <- a ;; if x then ret true else b.

Fixpoint mapM {A B} (f : A -> Py B) (l : list A) : Py (list B) :=
  match l with
  | [] => ret []
  | a :: l' => b <- f a ;; bs <- mapM f l' ;; ret (b :: bs)
  end.

(* ------------------------------------------------------------------ *)
(** ** Frame reassembly: [next_frame]

    The text handling of [next_frame] (finding the raw dump in the log
    line, splitting it and reading the numbers) is outside the decoder
    proper; the embedding starts where the script has [timings] and knows
    whether the payload starts with "Received".  The module-level variable
    [current_frame] is threaded explicitly: the function returns the
    diagnostics, the new value of [current_frame] and its outcome. *)

(** The value of [current_frame] after the assignment of lines 102-107:
    replaced on a frame start, extended otherwise. *)
Definition collected (received : bool) (timings current_frame : list Z)
  : list Z :=
  if received then timings else current_frame ++ timings.

Definition next_frame (received : bool) (timings current_frame : list Z)
  : list Diag * (list Z * outcome (option (list Z))) :=
  let d := if received && (0 <? len current_frame)
           then [ExtraBits current_frame] else [] in
  let current_frame := collected received timings current_frame in
  match current_frame with
  | hi :: lo :: _ =>
      if is_long_start hi lo && (139 <=? len current_frame)
      then (d, ([], Return (Some current_frame)))
      else if is_short_start hi lo && (35 <=? len current_frame)
      then (d, ([], Return (Some current_frame)))
      else (d, (current_frame, Return None))
  | _ => (d, (current_frame, Raise IndexError))
  end.

(* ------------------------------------------------------------------ *)
(** ** Timings to code: [next_code] *)

(** [range(0, stop, step)] for a positive step. *)
Definition range (stop step : nat) : list nat :=
  map (fun k => k * step)%nat (seq 0 ((stop + step - 1) / step)).

(** [[(timings[i], timings[i+1]) for i in range(0, len(timings) - 1, 2)]] *)
Definition pairs (timings : list Z) : list (Z * Z) :=
  map (fun i => (nth i timings 0, nth (i + 1) timings 0))
      (range (List.length timings - 1) 2).

(** The body of the loop over the pairs. *)
Definition classify (h l : Z) : Symbol :=
  if is_long_start h l then StartStandard
  else if is_short_start h l then StartShort
  else if is_zero h l then Zero
  else if is_one h l then One
  else if is_space h l then Space
  else Invalid.

(** [c in code] *)
Definition contains (c : Symbol) (code : Code) : bool :=
  existsb (Symbol_eqb c) code.

(** The code built from the pairs and the closing high pulse,
    [timings[-1]]. *)
Definition current_code (timings : list Z) : Code :=
  map (fun p => classify (fst p) (snd p)) (pairs timings)
  ++ [if is_bit (last timings 0) then Stop else Invalid].

Definition next_code (timings : list Z) : Py (option Code) :=
  if len timings mod 2 =? 0 then
    print (EvenBits timings) ;;; ret None
  else
    let current_code := current_code timings in
    if contains Invalid current_code then
      print (InvalidBit timings current_code) ;;; ret None
    else if Symbol_eqb (hd Invalid current_code) StartStandard
            && contains Space current_code
            && Symbol_eqb (last current_code Invalid) Stop
            && (len current_code =? 70)
    then ret (Some current_code)
    else if Symbol_eqb (hd Invalid current_code) StartShort
            && negb (contains Space current_code)
            && Symbol_eqb (last current_code Invalid) Stop
            && (len current_code =? 18)
    then ret (Some current_code)
    else print (InvalidCodeStructure timings current_code) ;;; ret None.

(* ------------------------------------------------------------------ *)
(** ** Code to bytes: [next_bytes] *)

(** [s.lstrip(chars)] and [s.rstrip(chars)], the characters given as a
    predicate. *)
Fixpoint lstrip (p : Symbol -> bool) (s : Code) : Code :=
  match s with
  | c :: s' => if p c then lstrip p s' else s
  | [] => []
  end.

Definition rstrip (p : Symbol -> bool) (s : Code) : Code :=
  rev (lstrip p (rev s)).

Definition is_start_char (c : Symbol) : bool :=
  match c with StartStandard | StartShort => true | _ => false end.

Definition is_stop_char (c : Symbol) : bool :=
  match c with Stop => true | _ => false end.

(** [s.replace("010_", "")]: every occurrence, leftmost first, without
    overlap. *)
Fixpoint replace_sync (s : Code) : Code :=
  match s with
  | Zero :: One :: Zero :: Space :: s' => replace_sync s'
  | c :: s' => c :: replace_sync s'
  | [] => []
  end.

(** [int(s, 2)] on the characters of a code: binary digits, where single
    underscores may separate digits; anything else is a [ValueError]. *)
Fixpoint int2_from (acc : Z) (s : Code) : option Z :=
  match s with
  | [] => Some acc
  | Zero :: s' => int2_from (2 * acc) s'
  | One :: s' => int2_from (2 * acc + 1) s'
  | Space :: ((Zero :: _) as s') => int2_from acc s'
  | Space :: ((One :: _) as s') => int2_from acc s'
  | _ => None
  end.

Definition int2 (s : Code) : option Z :=
  match s with
  | Zero :: _ | One :: _ => int2_from 0 s
  | _ => None
  end.

(** [s[i:j]] for [0 <= i <= j]. *)
Definition slice {A} (s : list A) (i j : nat) : list A :=
  firstn (j - i) (skipn i s).

Definition next_bytes (code : Code) : Py (option (list Z)) :=
  let bits := rstrip is_stop_char
                (replace_sync (lstrip is_start_char code)) in
  if neqb (len bits mod 8) 0 then
    print (InvalidCodeLength (len bits) code) ;;; ret None
  else
    bytes <- mapM (fun i => lift_option ValueError
                              (int2 (rev (slice bits i (i + 8)))))
                  (range (List.length bits) 8) ;;
    ret (Some bytes).

(** The first steps of the script's main loop on a complete frame. *)
Definition frame_bytes (frame : list Z) : Py (option (list Z)) :=
  code <- next_code frame ;;
  match code with
  | None => ret None
  | Some code => next_bytes code
  end.

(* ------------------------------------------------------------------ *)
(** ** Decoding the payload *)

(** The flag tests [(b & mask) != 0]. *)
Definition flag (b mask : Z) : bool := neqb (Z.land b mask) 0.

(** The two float fields hold small multiples of one half, on which
    floating point arithmetic is exact; they are kept as rationals. *)
Definition timer_hours (b1 b2 : Z) : Q :=
  (inject_Z (Z.shiftr (Z.land b1 0x60) 5) * 10
   + inject_Z (Z.land b2 0x0F) * 1
   + inject_Z (Z.shiftr (Z.land b1 0x10) 4) * (1 # 2))%Q.

Definition temp (b1 b3 : Z) : Q :=
  (inject_Z (Z.land b1 0x0F)
   + (if flag b3 0x04 then 33 # 2 else 16))%Q.

(** First 4 bytes of the standard frames (Basic and Timer). *)
Definition decode_common_data (bytes : list Z) : Py dict :=
  b3 <- bytes.[3] ;;
  when (flag b3 0x02)
       (print (NonzeroFunc2Unused (Z.shiftr (Z.land b3 0x02) 1))) ;;;
  b0 <- bytes.[0] ;;
  fan <- lift_option ValueError (Fan_of (Z.shiftr (Z.land b0 0x30) 4)) ;;
  mode <- lift_option ValueError (Mode_of (Z.shiftr (Z.land b0 0x07) 0)) ;;
  b1 <- bytes.[1] ;;
  b2 <- bytes.[2] ;;
  ret [ ("sleep", VBool (flag b0 0x80));
        ("swing", VBool (flag b0 0x40));
        ("fan", VFan fan);
        ("on", VBool (flag b0 0x08));
        ("mode", VMode mode);
        ("timer", VBool (flag b1 0x80));
        ("timer_hours", VFloat (timer_hours b1 b2));
        ("temp", VFloat (temp b1 b3));
        ("x_fan", VBool (flag b2 0x80));
        ("health", VBool (flag b2 0x40));
        ("light", VBool (flag b2 0x20));
        ("turbo", VBool (flag b2 0x10));
        ("fahrenheit", VBool (flag b3 0x08));
        ("fresh_air", VBool (flag b3 0x01)) ].

(** [d[k]] on a record. *)
Definition getkey (d : dict) (k : string) : Py value :=
  lift_option KeyError (dict_get d k).

(** [del d[k]] *)
Definition delkey (d : dict) (k : string) : Py dict :=
  if dict_has d k then ret (dict_remove d k) else raise KeyError.

(** [v.name]; only the members of the enumerations have a name. *)
Definition value_name (v : value) : Py string :=
  match v with
  | VHGuide h => ret (HGuide_name h)
  | VVGuide g => ret (VGuide_name g)
  | VMode m =>
      ret match m with
          | ModeAuto => "Auto" | ModeCool => "Cool" | ModeDry => "Dry"
          | ModeFan => "Fan" | ModeHeat => "Heat"
          end
  | VFan f =>
      ret match f with
          | FanAuto => "Auto" | FanLow => "Low" | FanMed => "Med"
          | FanHigh => "High"
          end
  | VTempDisplay t =>
      ret match t with
          | TDDefault => "Default" | TDSet => "Set" | TDRoom => "Room"
          | TDOutdoor => "Outdoor"
          end
  | _ => raise AttributeError
  end.

(** [b == v] for a boolean [b]: among the values of a record only a
    boolean is compared here (the [swing] flag). *)
Definition bool_eq_value (b : bool) (v : value) : bool :=
  match v with
  | VBool b' => Bool.eqb b b'
  | _ => false
  end.

(** Second 4 bytes of the Basic frame. *)
Definition decode_basic_data (bytes : list Z) : Py dict :=
  b5 <- bytes.[5] ;;
  when (Z.land b5 0x80 =? 0)
       (print (ZeroFunc3Lead (Z.shiftr (Z.land b5 0x80) 7))) ;;;
  when (flag b5 0x38)
       (print (NonzeroFunc3Unused (Z.shiftr (Z.land b5 0x38) 3))) ;;;
  b6 <- bytes.[6] ;;
  when (neqb b6 0) (print (NonzeroUnused6 b6)) ;;;
  b7 <- bytes.[7] ;;
  when (flag b7 0x0B)
       (print (NonzeroBasicControlUnused (Z.shiftr (Z.land b5 0x0B) 0))) ;;;
  let res := [("type", VStr "basic")] in
  common <- decode_common_data bytes ;;
  let res := dict_update res common in
  b4 <- bytes.[4] ;;
  h_guide <- lift_option ValueError
               (HGuide_of (Z.shiftr (Z.land b4 0xF0) 4)) ;;
  v_guide <- lift_option ValueError
               (VGuide_of (Z.shiftr (Z.land b4 0x0F) 0)) ;;
  temp_display <- lift_option ValueError
                    (TempDisplay_of (Z.shiftr (Z.land b5 0x03) 0)) ;;
  let res := dict_update res
    [ ("h_guide", VHGuide h_guide);
      ("v_guide", VVGuide v_guide);
      ("wifi", VBool (flag b5 0x40));
      ("ifeel", VBool (flag b5 0x04));
      ("temp_display", VTempDisplay temp_display);
      ("energy_save", VBool (flag b7 0x04)) ] in
  h <- getkey res "h_guide" ;;
  hname <- value_name h ;;
  guide_swing <-
    (if str_in "Swing" hname then ret true
     else v <- getkey res "v_guide" ;;
          vname <- value_name v ;;
          ret (str_in "Swing" vname)) ;;
  swing <- getkey res "swing" ;;
  if bool_eq_value guide_swing swing then delkey res "swing"
  else ret res.

(** Second 4 bytes of the Timer frame. *)
Definition decode_timer_data (bytes : list Z) : Py dict :=
  b5 <- bytes.[5] ;;
  when (Z.land b5 0x08 =? 0)
       (print (ZeroOnLead (Z.shiftr (Z.land b5 0x08) 3))) ;;;
  b7 <- bytes.[7] ;;
  when (flag b7 0x0C)
       (print (NonzeroTimerControlUnused (Z.shiftr (Z.land b7 0x0C) 2))) ;;;
  let res := [("type", VStr "timer")] in
  common <- decode_common_data bytes ;;
  let res := dict_update res common in
  b4 <- bytes.[4] ;;
  b6 <- bytes.[6] ;;
  ret (dict_update res
    [ ("on_mins", VInt (Z.lor (Z.shiftl (Z.land b5 0x07) 8)
                              (Z.shiftl b4 0)));
      ("overlap", VBool (flag b5 0x80));
      ("off_mins", VInt (Z.lor (Z.shiftl b6 4)
                               (Z.shiftr (Z.land b5 0x70) 4)));
      ("on_set", VBool (flag b7 0x02));
      ("off_set", VBool (flag b7 0x01)) ]).

Definition nonzero_at (bytes : list Z) (i : nat) : Py bool :=
  b <- bytes.[i] ;; ret (neqb b 0).

Definition nonzero_bits_at (bytes : list Z) (i : nat) (mask : Z) : Py bool :=
  b <- bytes.[i] ;; ret (flag b mask).

(** The Footer frame. *)
Definition decode_footer_data (bytes : list Z) : Py dict :=
  c <- orM (nonzero_at bytes 0) (orM (nonzero_at bytes 1)
      (orM (nonzero_at bytes 2) (orM (nonzero_at bytes 4)
      (orM (nonzero_at bytes 5) (nonzero_at bytes 6))))) ;;
  when c (print (NonzeroFooterUnusedBytes bytes)) ;;;
  c' <- orM (nonzero_bits_at bytes 3 0x0F) (nonzero_bits_at bytes 7 0x0F) ;;
  when c' (print (NonzeroFooterUnusedBits bytes)) ;;;
  ret [("type", VStr "footer")].

(** The Temp frame. *)
Definition decode_temp_data (bytes : list Z) : Py dict :=
  b1 <- bytes.[1] ;;
  when (neqb b1 0xA5) (print (InvalidMagicByte bytes)) ;;;
  b0 <- bytes.[0] ;;
  ret [("type", VStr "temp"); ("temp", VInt b0)].

(** Checksum of the standard frames. *)
Definition match_checksum (bytes : list Z) : Py bool :=
  b7 <- bytes.[7] ;;
  let orig := Z.shiftr (Z.land b7 0xF0) 4 in
  b0 <- bytes.[0] ;;
  b1 <- bytes.[1] ;;
  b2 <- bytes.[2] ;;
  b3 <- bytes.[3] ;;
  b4 <- bytes.[4] ;;
  b5 <- bytes.[5] ;;
  b6 <- bytes.[6] ;;
  let calc :=
    Z.land (Z.land b0 0x0F + Z.land b1 0x0F + Z.land b2 0x0F
            + Z.land b3 0x0F
            + Z.shiftr (Z.land b4 0xF0) 4 + Z.shiftr (Z.land b5 0xF0) 4
            + Z.shiftr (Z.land b6 0xF0) 4 + 0x0A) 0x0F in
  when (neqb orig calc) (print (ChecksumMismatch orig calc)) ;;;
  ret (orig =? calc).

(** What [next_data] does once no standard frame type matched. *)
Definition next_data_rest (bytes : list Z) : Py (option dict) :=
  if len bytes =? 2 then
    r <- decode_temp_data bytes ;; ret (Some r)
  else
    print (UnknownCodeType bytes) ;;; ret None.

Definition next_data (bytes : list Z) : Py (option dict) :=
  if len bytes =? 8 then
    match_checksum bytes ;;;
    b3 <- bytes.[3] ;;
    if Z.land b3 0xF0 =? 0x50 then
      r <- decode_basic_data bytes ;; ret (Some r)
    else if Z.land b3 0xF0 =? 0x60 then
      r <- decode_timer_data bytes ;; ret (Some r)
    else if Z.land b3 0xF0 =? 0xA0 then
      r <- decode_footer_data bytes ;; ret (Some r)
    else next_data_rest bytes
  else next_data_rest bytes.

(* ------------------------------------------------------------------ *)
(** ** The forward encoding of the round-trip property

    The script only decodes.  The round-trip property of the
    specification speaks of a forward encoding of a payload into timings;
    the definitions below follow its words and the frame layout drawn in
    the comments of the script: start burst and pause, 4 bytes least
    significant bit first, the sync bits 0 1 0 and the long space, 4 more
    bytes, the closing burst.  The widths are parameters. *)

Record Widths : Type := {
  start_hi : Z;   (* start burst *)
  start_lo : Z;   (* start pause, negative *)
  lead : Z;       (* bit lead burst, also the closing burst *)
  zero_lo : Z;    (* pause of a zero bit, negative *)
  one_lo : Z;     (* pause of a one bit, negative *)
  space_lo : Z    (* intra-frame space, negative *)
}.

(** The widths the specification names as protocol-nominal: the NEC
    values of 560us bursts, 9ms + 4.5ms start, 560us and 1690us pauses,
    and the 19.8ms space of the script's timing diagram. *)
Definition nominal_widths : Widths :=
  {| start_hi := 9000; start_lo := -4500; lead := 560;
     zero_lo := -560; one_lo := -1690; space_lo := -19800 |}.

(** The widths of the timing diagram in the script: 0.7ms bursts, 0.5ms
    and 1.6ms pauses. *)
Definition gree_widths : Widths :=
  {| start_hi := 9000; start_lo := -4500; lead := 700;
     zero_lo := -500; one_lo := -1600; space_lo := -19800 |}.

Definition byte_bits (b : Z) : list bool :=
  map (fun i => Z.testbit b (Z.of_nat i)) (seq 0 8).

Definition encode_bit (w : Widths) (b : bool) : list Z :=
  [lead w; if b then one_lo w else zero_lo w].

Definition encode_byte (w : Widths) (b : Z) : list Z :=
  flat_map (encode_bit w) (byte_bits b).

Definition encode_frame (w : Widths) (bytes : list Z) : list Z :=
  [start_hi w; start_lo w]
  ++ flat_map (encode_byte w) (firstn 4 bytes)
  ++ encode_bit w false ++ encode_bit w true ++ encode_bit w false
  ++ [lead w; space_lo w]
  ++ flat_map (encode_byte w) (skipn 4 bytes)
  ++ [lead w].

(** The widths pass the checks of the script for the element they stand
    for. *)
Definition widths_ok (w : Widths) : bool :=
  is_long_start (start_hi w) (start_lo w)
  && is_zero (lead w) (zero_lo w)
  && is_one (lead w) (one_lo w)
  && is_space (lead w) (space_lo w).

(** A byte payload: 8-bit unsigned integers. *)
Definition is_byte (b : Z) : Prop := 0 <= b < 256.

Definition bit_symbol (b : bool) : Symbol := if b then One else Zero.

(** The value of a run of bits read least significant bit first. *)
Definition lsb_value (bits : list bool) : Z :=
  fold_right (fun b a => 2 * a + Z.b2z b) 0 bits.

(** The bytes [next_bytes] returns when only data bits are left. *)
Definition bytes_of_bits (bs : list bool) : list Z :=
  map (fun i => lsb_value (slice bs i (i + 8))) (range (List.length bs) 8).

(** The symbols left once [next_bytes] has stripped a code. *)
Definition payload_bits (code : Code) : Code :=
  rstrip is_stop_char (replace_sync (lstrip is_start_char code)).

(** How often a symbol occurs in a code. *)
Definition count (c : Symbol) (code : Code) : nat :=
  List.length (filter (Symbol_eqb c) code).

(** ** Sample frames

    Timings for a given code, with the widths of the script's diagram (a
    short start is 6ms high and 3ms low). *)
Definition pulses (c : Symbol) : list Z :=
  match c with
  | StartStandard => [9000; -4500]
  | StartShort => [6000; -3000]
  | Zero => encode_bit gree_widths false
  | One => encode_bit gree_widths true
  | Space => [700; -19800]
  | Stop => [700]
  | Invalid => [0; 0]
  end.

Definition frame_of (code : Code) : list Z := flat_map pulses code.

Definition sync : Code := [Zero; One; Zero; Space].

(** A standard frame with a second long space before the closing burst. *)
Definition two_space_code : Code :=
  [StartStandard] ++ repeat Zero 32 ++ sync ++ repeat Zero 31
  ++ [Space] ++ [Stop].

(** A standard frame whose sync bits arrive as 0 1 1 instead of 0 1 0. *)
Definition bad_sync_code : Code :=
  [StartStandard] ++ repeat Zero 32 ++ [Zero; One; One; Space]
  ++ repeat Zero 32 ++ [Stop].

(** Nine start pairs, the sync bits, 56 data bits. *)
Definition nine_start_code : Code :=
  repeat StartStandard 9 ++ sync ++ repeat Zero 56 ++ [Stop].

(** A standard frame in which the eleventh data bit arrives as a start
    pair. *)
Definition stray_start_code : Code :=
  [StartStandard] ++ repeat Zero 10 ++ [StartStandard] ++ repeat Zero 21
  ++ sync ++ repeat Zero 32 ++ [Stop].

(** The flags of a Basic record: field, index of the byte, bit. *)
Definition basic_flag_bits : list (string * (nat * Z)) :=
  [ ("sleep", (0%nat, 7)); ("on", (0%nat, 3)); ("timer", (1%nat, 7));
    ("x_fan", (2%nat, 7)); ("health", (2%nat, 6)); ("light", (2%nat, 5));
    ("turbo", (2%nat, 4)); ("fahrenheit", (3%nat, 3));
    ("fresh_air", (3%nat, 0)); ("wifi", (5%nat, 6)); ("ifeel", (5%nat, 2));
    ("energy_save", (7%nat, 2)) ].

(** A standard frame as the remote sends it. *)
Definition sample_bytes : list Z :=
  [0x29; 0x09; 0x20; 0x50; 0x00; 0x80; 0x00; 0x40].

Definition sample_code : Code :=
  StartStandard :: map bit_symbol (flat_map byte_bits (firstn 4 sample_bytes))
  ++ sync ++ map bit_symbol (flat_map byte_bits (skipn 4 sample_bytes))
  ++ [Stop].

(** The air guide members that stand for continuous swinging. *)
Definition HGuide_is_swing (h : HGuide) : bool :=
  match h with
  | HSwingLeftRight | HSwingInOut => true
  | _ => false
  end.

Definition VGuide_is_swing (v : VGuide) : bool :=
  match v with
  | VSwingUpDown | VSwingDown | VSwingMid | VSwingUp => true
  | _ => false
  end.

(** The fields of a Basic record in the order of the script, before the
    [swing] field is looked at. *)
Definition basic_record (b0 b1 b2 b3 b5 b7 : Z) (f : Fan) (m : Mode)
           (h : HGuide) (v : VGuide) (t : TempDisplay) : dict :=
  [ ("type", VStr "basic");
    ("sleep", VBool (flag b0 0x80));
    ("swing", VBool (flag b0 0x40));
    ("fan", VFan f);
    ("on", VBool (flag b0 0x08));
    ("mode", VMode m);
    ("timer", VBool (flag b1 0x80));
    ("timer_hours", VFloat (timer_hours b1 b2));
    ("temp", VFloat (temp b1 b3));
    ("x_fan", VBool (flag b2 0x80));
    ("health", VBool (flag b2 0x40));
    ("light", VBool (flag b2 0x20));
    ("turbo", VBool (flag b2 0x10));
    ("fahrenheit", VBool (flag b3 0x08));
    ("fresh_air", VBool (flag b3 0x01));
    ("h_guide", VHGuide h);
    ("v_guide", VVGuide v);
    ("wifi", VBool (flag b5 0x40));
    ("ifeel", VBool (flag b5 0x04));
    ("temp_display", VTempDisplay t);
    ("energy_save", VBool (flag b7 0x04)) ].

(** The fields of a Timer record in the order of the script. *)
Definition timer_record (b0 b1 b2 b3 b4 b5 b6 b7 : Z) (f : Fan) (m : Mode)
  : dict :=
  [ ("type", VStr "timer");
    ("sleep", VBool (flag b0 0x80));
    ("swing", VBool (flag b0 0x40));
    ("fan", VFan f);
    ("on", VBool (flag b0 0x08));
    ("mode", VMode m);
    ("timer", VBool (flag b1 0x80));
    ("timer_hours", VFloat (timer_hours b1 b2));
    ("temp", VFloat (temp b1 b3));
    ("x_fan", VBool (flag b2 0x80));
    ("health", VBool (flag b2 0x40));
    ("light", VBool (flag b2 0x20));
    ("turbo", VBool (flag b2 0x10));
    ("fahrenheit", VBool (flag b3 0x08));
    ("fresh_air", VBool (flag b3 0x01));
    ("on_mins", VInt (Z.lor (Z.shiftl (Z.land b5 0x07) 8) (Z.shiftl b4 0)));
    ("overlap", VBool (flag b5 0x80));
    ("off_mins", VInt (Z.lor (Z.shiftl b6 4) (Z.shiftr (Z.land b5 0x70) 4)));
    ("on_set", VBool (flag b7 0x02));
    ("off_set", VBool (flag b7 0x01)) ].

(** The enumerated fields that the decoder of the frame type reads are
    in range: the mode for Basic and Timer, the air guides for Basic (two
    bits always name a fan speed and a display mode). *)
Definition enums_in_range (bytes : list Z) : Prop :=
  let t := Z.shiftr (nth 3 bytes 0) 4 in
  (t = 0x5 \/ t = 0x6 ->
   Mode_of (Z.shiftr (Z.land (nth 0 bytes 0) 0x07) 0) <> None)
  /\ (t = 0x5 ->
      HGuide_of (Z.shiftr (Z.land (nth 4 bytes 0) 0xF0) 4) <> None
      /\ VGuide_of (Z.shiftr (Z.land (nth 4 bytes 0) 0x0F) 0) <> None).

(* ------------------------------------------------------------------ *)
(** ** The main loop

    The loop at the end of the script reads the log line by line and
    sends each line through [next_frame], [next_code], [next_bytes] and
    [next_data]; a record that comes out is printed.  A line is kept as
    what [next_frame] reads from it: whether it holds the raw dump marker
    at all and, if so, whether its payload starts with "Received" and the
    numbers in it.  (A line with the marker but without the "]:" that
    opens the payload is not a line of the log format and has no
    counterpart here.) *)

Inductive Line : Type :=
| Other
| Raw (received : bool) (timings : list Z).

(** What the loop writes: the diagnostics of the functions and the
    records. *)
Inductive Event : Type :=
| Printed (d : Diag)
| Output (r : dict).

(** The body of the loop: the events of the line, the new value of
    [current_frame], and whether an exception ended the run. *)
Definition process_line (line : Line) (current_frame : list Z)
  : list Event * (list Z * outcome unit) :=
  match line with
  | Other => ([], (current_frame, Return tt))
  | Raw received timings =>
      match next_frame received timings current_frame with
      | (d, (cf, Raise e)) => (map Printed d, (cf, Raise e))
      | (d, (cf, Return None)) => (map Printed d, (cf, Return tt))
      | (d, (cf, Return (Some frame))) =>
          match next_code frame with
          | (d1, Raise e) => (map Printed (d ++ d1), (cf, Raise e))
          | (d1, Return None) => (map Printed (d ++ d1), (cf, Return tt))
          | (d1, Return (Some code)) =>
              match next_bytes code with
              | (d2, Raise e) =>
                  (map Printed (d ++ d1 ++ d2), (cf, Raise e))
              | (d2, Return None) =>
                  (map Printed (d ++ d1 ++ d2), (cf, Return tt))
              | (d2, Return (Some bytes)) =>
                  match next_data bytes with
                  | (d3, Raise e) =>
                      (map Printed (d ++ d1 ++ d2 ++ d3), (cf, Raise e))
                  | (d3, Return None) =>
                      (map Printed (d ++ d1 ++ d2 ++ d3), (cf, Return tt))
                  | (d3, Return (Some data)) =>
                      (map Printed (d ++ d1 ++ d2 ++ d3) ++ [Output data],
                       (cf, Return tt))
                  end
              end
          end
      end
  end.

Fixpoint main (lines : list Line) (current_frame : list Z)
  : list Event * (list Z * outcome unit) :=
  match lines with
  | [] => ([], (current_frame, Return tt))
  | line :: lines' =>
      match process_line line current_frame with
      | (e, (cf, Return _)) =>
          let (e', r) := main lines' cf in (e ++ e', r)
      | (e, (cf, Raise x)) => (e, (cf, Raise x))
      end
  end.

Definition is_raw (line : Line) : bool :=
  match line with Raw _ _ => true | Other => false end.

(** What the loop writes for a payload, and how its pass ends: the
    diagnostics of [next_data], then the record if there is one. *)
Definition decoded_events (bytes : list Z) : list Event :=
  map Printed (diags (next_data bytes))
  ++ match result (next_data bytes) with
     | Return (Some data) => [Output data]
     | _ => []
     end.

Definition decoded_outcome (bytes : list Z) : outcome unit :=
  match result (next_data bytes) with
  | Raise e => Raise e
  | Return _ => Return tt
  end.

(** ** Further widths and layouts *)

(** A short frame as drawn in the script: short start, the bits of the
    bytes, the closing burst. *)
Definition encode_short_frame (w : Widths) (short_hi short_lo : Z)
           (bytes : list Z) : list Z :=
  [short_hi; short_lo] ++ flat_map (encode_byte w) bytes ++ [lead w].

(** The four bits of a byte that enter the checksum: the low nibble of
    bytes 0 to 3, the high nibble of bytes 4 to 6. *)
Definition checksum_nibble (i : nat) (b : Z) : Z :=
  if (i <? 4)%nat then Z.land b 0x0F else Z.shiftr (Z.land b 0xF0) 4.

(** [bytes] with the byte at index [i] replaced. *)
Definition set_byte (bytes : list Z) (i : nat) (c : Z) : list Z :=
  firstn i bytes ++ c :: skipn (S i) bytes.

(** The characters [int] accepts in a base 2 numeral. *)
Definition digit_or_space (c : Symbol) : Prop :=
  c = Zero \/ c = One \/ c = Space.

(** The symbols a pulse pair can stand for. *)
Definition is_pair_symbol (c : Symbol) : bool :=
  match c with
  | StartStandard | StartShort | Zero | One | Space => true
  | Stop | Invalid => false
  end.

(** A diagnostic that shows the payload, with [bytes] for the payload
    shown; the other diagnostics are left as they are. *)
Definition with_payload (bytes : list Z) (d : Diag) : Diag :=
  match d with
  | NonzeroFooterUnusedBytes _ => NonzeroFooterUnusedBytes bytes
  | NonzeroFooterUnusedBits _ => NonzeroFooterUnusedBits bytes
  | InvalidMagicByte _ => InvalidMagicByte bytes
  | UnknownCodeType _ => UnknownCodeType bytes
  | _ => d
  end.

(** The diagnostics other than the one of the checksum. *)
Definition is_checksum_diag (d : Diag) : bool :=
  match d with
  | ChecksumMismatch _ _ => true
  | _ => false
  end.

(* ================================================================== *)
(** * Properties *)

(** ** Evaluation of the diagnostics monad *)

Lemma result_print (d : Diag) : result (print d) = Return tt.
Proof. reflexivity. Qed.

Lemma result_when_print (c : bool) (d : Diag) :
  result (when c (print d)) = Return tt.
Proof. destruct c; reflexivity. Qed.

Lemma result_ret {A} (a : A) : result (ret a) = Return a.
Proof. reflexivity. Qed.

Lemma result_bind (A B : Type) (m : Py A) (f : A -> Py B) :
  result (bind m f)
  = match result m with
    | Return a => result (f a)
    | Raise e => Raise e
    end.
Proof.
  destruct m as [d [a|e]]; unfold result; cbn [bind snd]; [|reflexivity].
  destruct (f a); reflexivity.
Qed.

(** Evaluates the outcome of a computation as far as it is determined. *)
Ltac py_result :=
  repeat (first [ rewrite result_bind | rewrite result_ret
                | rewrite result_when_print | rewrite result_print ];
          cbv beta iota).

(** ** Nibbles of a byte *)

Lemma land_15_mod (a : Z) : Z.land a 0x0F = a mod 16.
Proof. change 0x0F with (Z.ones 4). rewrite Z.land_ones by lia. reflexivity. Qed.

Lemma high_nibble_mod (b : Z) :
  Z.shiftr (Z.land b 0xF0) 4 = Z.shiftr b 4 mod 16.
Proof.
  rewrite Z.shiftr_land. change (Z.shiftr 0xF0 4) with 0x0F.
  apply land_15_mod.
Qed.

Lemma high_nibble_byte (b : Z) :
  is_byte b -> Z.shiftr (Z.land b 0xF0) 4 = Z.shiftr b 4.
Proof.
  intros Hb. rewrite high_nibble_mod. apply Z.mod_small.
  rewrite Z.shiftr_div_pow2 by lia. change (2 ^ 4) with 16.
  unfold is_byte in Hb. split.
  - apply Z.div_pos; lia.
  - apply Z.div_lt_upper_bound; lia.
Qed.

(** ** Checksum *)

(** C1: on an 8-byte payload the checksum test passes exactly when the
    high nibble of byte 7 equals the sum of the low nibbles of bytes 0..3,
    the high nibbles of bytes 4..6 and 0x0A, reduced modulo 16. *)
Theorem match_checksum_nibbles (b0 b1 b2 b3 b4 b5 b6 b7 : Z) :
  Forall is_byte [b0; b1; b2; b3; b4; b5; b6; b7] ->
  exists ok : bool,
    result (match_checksum [b0; b1; b2; b3; b4; b5; b6; b7]) = Return ok
    /\ (ok = true <->
        Z.shiftr b7 4 =
        (Z.land b0 0x0F + Z.land b1 0x0F + Z.land b2 0x0F + Z.land b3 0x0F
         + Z.shiftr b4 4 + Z.shiftr b5 4 + Z.shiftr b6 4 + 0x0A) mod 16).
Proof.
  intros Hb.
  repeat match goal with
         | H : Forall _ (_ :: _) |- _ => inversion H; clear H; subst
         end.
  eexists. split.
  - unfold match_checksum, getitem. simpl nth_error. unfold lift_option.
    py_result. reflexivity.
  - rewrite Z.eqb_eq, land_15_mod, !high_nibble_byte by assumption.
    reflexivity.
Qed.

Lemma match_checksum_nibbles_witness :
  Forall is_byte [0x29; 0x09; 0x20; 0x50; 0x00; 0x80; 0x00; 0x40]
  /\ exists ok : bool,
    result (match_checksum [0x29; 0x09; 0x20; 0x50; 0x00; 0x80; 0x00; 0x40])
    = Return ok
    /\ (ok = true <->
        Z.shiftr 0x40 4 =
        (Z.land 0x29 0x0F + Z.land 0x09 0x0F + Z.land 0x20 0x0F
         + Z.land 0x50 0x0F
         + Z.shiftr 0x00 4 + Z.shiftr 0x80 4 + Z.shiftr 0x00 4 + 0x0A)
        mod 16).
Proof.
  assert (H : Forall is_byte [0x29; 0x09; 0x20; 0x50; 0x00; 0x80; 0x00; 0x40])
    by (repeat constructor; unfold is_byte; lia).
  split; [exact H | exact (match_checksum_nibbles _ _ _ _ _ _ _ _ H)].
Defined.

(** ** Frame reassembly *)

Lemma len_cons {A} (a : A) (l : list A) : len (a :: l) = len l + 1.
Proof. unfold len. simpl List.length. lia. Qed.

Lemma len_nonneg {A} (l : list A) : 0 <= len l.
Proof. unfold len. lia. Qed.

(** A buffer with fewer than two durations makes [next_frame] raise,
    whatever was fed. *)
Lemma next_frame_underfull (received : bool) (timings buf : list Z) :
  len (collected received timings buf) < 2 ->
  snd (snd (next_frame received timings buf)) = Raise IndexError.
Proof.
  unfold next_frame. destruct (collected received timings buf) as [|hi [|lo rest]].
  - reflexivity.
  - reflexivity.
  - rewrite !len_cons. pose proof (len_nonneg rest). lia.
Qed.

(** With two durations or more [next_frame] returns. *)
Lemma next_frame_returns (received : bool) (timings buf : list Z) :
  2 <= len (collected received timings buf) ->
  exists r, snd (snd (next_frame received timings buf)) = Return r.
Proof.
  unfold next_frame. destruct (collected received timings buf) as [|hi [|lo rest]].
  - unfold len; simpl; lia.
  - unfold len; simpl; lia.
  - intros _.
    destruct (is_long_start hi lo && _); [eexists; reflexivity|].
    destruct (is_short_start hi lo && _); eexists; reflexivity.
Qed.

(** C3, as the script has it: once the collected durations start with a
    standard start pair and number at least 139 (or start with a short
    start pair and number at least 35), [next_frame] returns all of them as
    the frame and leaves [current_frame] empty; the frame is the first 139
    (35) durations when exactly that many were collected. *)
Theorem next_frame_complete (received : bool) (timings buf : list Z) :
  let cf := collected received timings buf in
  (is_long_start (nth 0 cf 0) (nth 1 cf 0) = true /\ 139 <= len cf)
  \/ (is_short_start (nth 0 cf 0) (nth 1 cf 0) = true /\ 35 <= len cf) ->
  snd (next_frame received timings buf) = ([], Return (Some cf))
  /\ (len cf = 139 -> firstn 139 cf = cf)
  /\ (len cf = 35 -> firstn 35 cf = cf).
Proof.
  intros cf H. split; [|split].
  - unfold next_frame. fold cf.
    destruct cf as [|hi [|lo rest]].
    + unfold len in H; simpl in H; lia.
    + unfold len in H; simpl in H; lia.
    + cbn [nth] in H. destruct H as [[Hs Hl]|[Hs Hl]].
      * rewrite Hs. apply Z.leb_le in Hl. rewrite Hl. reflexivity.
      * rewrite Hs. apply Z.leb_le in Hl. rewrite Hl.
        destruct (is_long_start hi lo && _); reflexivity.
  - intros Hl. apply firstn_all2. unfold len in Hl. lia.
  - intros Hl. apply firstn_all2. unfold len in Hl. lia.
Qed.

(** Two chunks that add up to exactly 139 durations. *)
Lemma next_frame_complete_witness :
  let timings := repeat 700 100 in
  let buf := 9000 :: -4500 :: repeat 700 37 in
  let cf := collected false timings buf in
  ((is_long_start (nth 0 cf 0) (nth 1 cf 0) = true /\ 139 <= len cf)
   \/ (is_short_start (nth 0 cf 0) (nth 1 cf 0) = true /\ 35 <= len cf))
  /\ snd (next_frame false timings buf) = ([], Return (Some cf))
  /\ (len cf = 139 -> firstn 139 cf = cf)
  /\ (len cf = 35 -> firstn 35 cf = cf).
Proof.
  intros timings buf cf.
  assert (H : (is_long_start (nth 0 cf 0) (nth 1 cf 0) = true /\ 139 <= len cf)
              \/ (is_short_start (nth 0 cf 0) (nth 1 cf 0) = true
                  /\ 35 <= len cf)).
  { left. split; [reflexivity | vm_compute; discriminate]. }
  split; [exact H | exact (next_frame_complete false timings buf H)].
Defined.

(** C3, counterexample: 140 collected durations behind a standard start
    pair are returned as a frame of 140 durations, which is not the first
    139 of them. *)
Lemma next_frame_returns_all_collected :
  let timings := 9000 :: -4500 :: repeat 700 138 in
  exists frame,
    snd (next_frame true timings []) = ([], Return (Some frame))
    /\ len frame = 140
    /\ frame <> firstn 139 timings.
Proof.
  intros timings. exists timings. split; [|split].
  - vm_compute. reflexivity.
  - reflexivity.
  - intros H. apply (f_equal (@List.length Z)) in H.
    vm_compute in H. discriminate H.
Qed.

(** C4, failing input: an empty chunk at a frame start leaves the buffer
    empty and [current_frame[0]] raises an [IndexError]. *)
Theorem next_frame_empty_chunk_raises :
  next_frame true [] [] = ([], ([], Raise IndexError)).
Proof. reflexivity. Qed.

(** ** Timings to code *)

(** The comprehension over [range(0, len(timings) - 1, 2)] walks the list
    two durations at a time. *)
Lemma pairs_cons2 (h l : Z) (rest : list Z) :
  pairs (h :: l :: rest) = (h, l) :: pairs rest.
Proof.
  unfold pairs, range. cbn [List.length].
  replace (S (S (List.length rest)) - 1 + 2 - 1)%nat
    with (List.length rest + 1 * 2)%nat by lia.
  rewrite Nat.div_add by lia.
  replace ((List.length rest - 1 + 2 - 1) / 2)%nat
    with (List.length rest / 2)%nat.
  2:{ destruct rest as [|x rest']; [reflexivity|].
      cbn [List.length]. f_equal. lia. }
  rewrite Nat.add_1_r. cbn [seq map]. f_equal.
  rewrite <- seq_shift, !map_map. apply map_ext. intros k.
  replace (S k * 2)%nat with (S (S (k * 2))) by lia. reflexivity.
Qed.

Lemma pairs_single (h : Z) : pairs [h] = [].
Proof. reflexivity. Qed.

Lemma length_pairs (timings : list Z) :
  List.length (pairs timings) = (List.length timings / 2)%nat.
Proof.
  unfold pairs, range. rewrite !length_map, length_seq.
  destruct timings as [|x rest]; [reflexivity|].
  cbn [List.length]. f_equal. lia.
Qed.

Lemma len_current_code (timings : list Z) :
  len (current_code timings) = Z.of_nat (List.length timings / 2) + 1.
Proof.
  unfold current_code, len.
  rewrite length_app, length_map, length_pairs. cbn [List.length]. lia.
Qed.

(** [next_code] prints or not, but always returns. *)
Lemma next_code_returns (timings : list Z) :
  exists r, result (next_code timings) = Return r.
Proof.
  unfold next_code.
  repeat match goal with
         | |- context [if ?c then _ else _] => destruct c
         end; eexists; reflexivity.
Qed.

(** What the script really tests before it returns a code: an odd number
    of durations, no invalid element, and either the standard shape with
    at least one space or the short shape with none. *)
Lemma next_code_accepts (timings : list Z) (code : Code) :
  result (next_code timings) = Return (Some code) <->
  code = current_code timings
  /\ len timings mod 2 <> 0
  /\ contains Invalid code = false
  /\ ((hd Invalid code = StartStandard /\ contains Space code = true
       /\ last code Invalid = Stop /\ len code = 70)
      \/ (hd Invalid code = StartShort /\ contains Space code = false
          /\ last code Invalid = Stop /\ len code = 18)).
Proof.
  unfold next_code.
  destruct (Z.eqb_spec (len timings mod 2) 0) as [He|He].
  { split; [discriminate | intros (_ & H & _); contradiction]. }
  set (cc := current_code timings).
  destruct (contains Invalid cc) eqn:Hx.
  { split; [discriminate|]. intros (-> & _ & H & _). congruence. }
  assert (Hsym : forall a b, Symbol_eqb a b = true <-> a = b)
    by (intros [] []; simpl; split; congruence).
  destruct (Symbol_eqb (hd Invalid cc) StartStandard && contains Space cc
            && Symbol_eqb (last cc Invalid) Stop && (len cc =? 70)) eqn:Hstd.
  { rewrite !andb_true_iff, !Hsym, Z.eqb_eq in Hstd.
    unfold result, ret; simpl. split.
    - intros H; inversion H; subst. tauto.
    - intros (-> & _); reflexivity. }
  destruct (Symbol_eqb (hd Invalid cc) StartShort
            && negb (contains Space cc)
            && Symbol_eqb (last cc Invalid) Stop && (len cc =? 18)) eqn:Hsh.
  { rewrite !andb_true_iff, !Hsym, Z.eqb_eq, negb_true_iff in Hsh.
    unfold result, ret; simpl. split.
    - intros H; inversion H; subst. tauto.
    - intros (-> & _); reflexivity. }
  split; [discriminate|].
  intros (-> & _ & _ & [(H1 & H2 & H3 & H4)|(H1 & H2 & H3 & H4)]).
  - fold cc in H1, H2, H3, H4.
    apply Hsym in H1, H3. apply Z.eqb_eq in H4.
    rewrite H1, H2, H3, H4 in Hstd. discriminate.
  - fold cc in H1, H2, H3, H4.
    apply Hsym in H1, H3. apply Z.eqb_eq in H4.
    rewrite H1, H2, H3, H4 in Hsh. discriminate.
Qed.

(** C2, failing input: a frame of 139 durations whose 70 code elements
    hold two spaces is returned as a valid code; on that code
    [next_bytes] then stops with a [ValueError]. *)
Theorem next_code_accepts_two_spaces :
  result (next_code (frame_of two_space_code)) = Return (Some two_space_code)
  /\ len two_space_code = 70
  /\ hd Invalid two_space_code = StartStandard
  /\ last two_space_code Invalid = Stop
  /\ count Space two_space_code = 2%nat
  /\ result (next_bytes two_space_code) = Raise ValueError.
Proof. repeat split; vm_compute; reflexivity. Qed.

(** ** Code to bytes *)

Lemma mapM_ret {A B} (f : A -> Py B) (g : A -> B) (l : list A) :
  Forall (fun a => f a = ret (g a)) l -> mapM f l = ret (map g l).
Proof.
  induction 1 as [|a l Ha _ IH]; [reflexivity|].
  cbn [mapM map]. rewrite Ha, IH. reflexivity.
Qed.

Lemma int2_from_bits (l : list bool) (acc : Z) :
  int2_from acc (map bit_symbol l)
  = Some (fold_left (fun a b => 2 * a + Z.b2z b) l acc).
Proof.
  revert acc. induction l as [|b l IH]; intros acc; [reflexivity|].
  destruct b; cbn [map bit_symbol int2_from fold_left]; rewrite IH.
  - reflexivity.
  - cbn [Z.b2z]. rewrite Z.add_0_r. reflexivity.
Qed.

(** A run of bits, reversed and read in base 2, has the value of the run
    read least significant bit first. *)
Lemma int2_rev_bits (c : list bool) :
  c <> [] -> int2 (rev (map bit_symbol c)) = Some (lsb_value c).
Proof.
  intros Hc. rewrite <- map_rev.
  assert (Hr : rev c <> []).
  { intros H. apply (f_equal (@rev bool)) in H.
    rewrite rev_involutive in H. exact (Hc H). }
  assert (H0 : int2 (map bit_symbol (rev c))
               = int2_from 0 (map bit_symbol (rev c))).
  { destruct (rev c) as [|[] r]; [contradiction | reflexivity | reflexivity]. }
  rewrite H0, int2_from_bits. unfold lsb_value.
  rewrite <- (rev_involutive c) at 2.
  rewrite fold_left_rev_right. reflexivity.
Qed.

Lemma testbit_lsb_value (c : list bool) (i : nat) :
  Z.testbit (lsb_value c) (Z.of_nat i) = nth i c false.
Proof.
  revert i. induction c as [|b c IH]; intros i.
  - cbn [lsb_value fold_right]. rewrite Z.bits_0. destruct i; reflexivity.
  - change (lsb_value (b :: c)) with (2 * lsb_value c + Z.b2z b).
    destruct i as [|i].
    + apply Z.testbit_0_r.
    + rewrite Nat2Z.inj_succ, Z.testbit_succ_r by lia. apply IH.
Qed.

Lemma lsb_value_bound (c : list bool) :
  0 <= lsb_value c < 2 ^ Z.of_nat (List.length c).
Proof.
  induction c as [|b c IH].
  - cbn. lia.
  - change (lsb_value (b :: c)) with (2 * lsb_value c + Z.b2z b).
    cbn [List.length]. rewrite Nat2Z.inj_succ, Z.pow_succ_r by lia.
    destruct b; cbn [Z.b2z]; lia.
Qed.

(** The elements of [range(0, n, 8)] are multiples of 8 below [n]. *)
Lemma in_range8 (n i : nat) :
  In i (range n 8) -> exists k, (i = k * 8 /\ i < n)%nat.
Proof.
  unfold range. rewrite in_map_iff. intros (k & <- & Hk).
  apply in_seq in Hk. exists k. split; [reflexivity|].
  pose proof (Nat.Div0.mul_div_le (n + 8 - 1) 8). lia.
Qed.

Lemma slice_bits (bs : list bool) (i : nat) :
  slice (map bit_symbol bs) i (i + 8)
  = map bit_symbol (slice bs i (i + 8)).
Proof. unfold slice. rewrite skipn_map, firstn_map. reflexivity. Qed.

Lemma slice_nonempty {A} (l : list A) (i : nat) :
  (i < List.length l)%nat -> slice l i (i + 8) <> [].
Proof.
  intros Hi H. apply (f_equal (@List.length A)) in H.
  unfold slice in H. rewrite length_firstn, length_skipn in H.
  cbn [List.length] in H. lia.
Qed.

Lemma next_bytes_bits (code : Code) (bs : list bool) :
  payload_bits code = map bit_symbol bs ->
  (List.length bs mod 8 = 0)%nat ->
  next_bytes code = ret (Some (bytes_of_bits bs)).
Proof.
  intros Hbits Hlen. unfold next_bytes. fold (payload_bits code).
  rewrite Hbits. unfold len, neqb. rewrite length_map.
  replace (Z.of_nat (List.length bs) mod 8) with 0.
  2:{ change 8 with (Z.of_nat 8). rewrite <- Nat2Z.inj_mod, Hlen.
      reflexivity. }
  cbn [Z.eqb negb].
  rewrite (mapM_ret _ (fun i => lsb_value (slice bs i (i + 8)))).
  - reflexivity.
  - apply Forall_forall. intros i Hi.
    apply in_range8 in Hi. destruct Hi as (k & _ & Hi).
    rewrite slice_bits, int2_rev_bits; [reflexivity|].
    apply slice_nonempty. exact Hi.
Qed.

Lemma lstrip_bits (p : Symbol -> bool) (bs : list bool) :
  p Zero = false -> p One = false ->
  lstrip p (map bit_symbol bs) = map bit_symbol bs.
Proof.
  intros H0 H1. destruct bs as [|[] bs]; cbn [map bit_symbol lstrip].
  - reflexivity.
  - rewrite H1. reflexivity.
  - rewrite H0. reflexivity.
Qed.

Lemma rstrip_bits (bs : list bool) :
  rstrip is_stop_char (map bit_symbol bs) = map bit_symbol bs.
Proof.
  unfold rstrip. rewrite <- map_rev, lstrip_bits by reflexivity.
  rewrite map_rev, rev_involutive. reflexivity.
Qed.

Lemma rstrip_bits_stop (bs : list bool) :
  rstrip is_stop_char (map bit_symbol bs ++ [Stop]) = map bit_symbol bs.
Proof.
  unfold rstrip. rewrite rev_app_distr. cbn [rev app lstrip is_stop_char].
  rewrite <- map_rev, lstrip_bits by reflexivity.
  rewrite map_rev, rev_involutive. reflexivity.
Qed.

(** One step of [replace_sync] where the run 0 1 0 _ does not start. *)
Lemma replace_sync_cons (c : Symbol) (s : Code) :
  (forall s', c :: s <> Zero :: One :: Zero :: Space :: s') ->
  replace_sync (c :: s) = c :: replace_sync s.
Proof.
  intros H.
  destruct c; try reflexivity.
  destruct s as [|c1 s1]; [reflexivity|]. destruct c1; try reflexivity.
  destruct s1 as [|c2 s2]; [reflexivity|]. destruct c2; try reflexivity.
  destruct s2 as [|c3 s3]; [reflexivity|]. destruct c3; try reflexivity.
  exfalso. exact (H s3 eq_refl).
Qed.

(** Data bits in front of the first space stay; the run in front of the
    space goes. *)
Lemma replace_sync_bits_sync (pre : list bool) (rest : Code) :
  replace_sync (map bit_symbol pre ++ sync ++ rest)
  = map bit_symbol pre ++ replace_sync rest.
Proof.
  induction pre as [|b pre IH]; [reflexivity|].
  cbn [map app]. rewrite replace_sync_cons.
  - rewrite IH. reflexivity.
  - intros s' H. unfold sync in H.
    destruct pre as [|b1 [|b2 [|b3 pre]]]; destruct b;
      cbn [map app] in H;
      repeat match type of H with
             | context [bit_symbol ?x] => is_var x; destruct x
             end;
      cbn [map app bit_symbol] in H; discriminate H.
Qed.

Lemma replace_sync_no_space (s : Code) :
  contains Space s = false -> replace_sync s = s.
Proof.
  induction s as [|c s IH]; [reflexivity|].
  cbn [contains existsb]. intros H. apply orb_false_iff in H.
  destruct H as [Hc Hs]. rewrite replace_sync_cons.
  - f_equal. apply IH. exact Hs.
  - intros s' E. inversion E; subst.
    cbn in Hs. discriminate Hs.
Qed.

Lemma contains_bits (c : Symbol) (bs : list bool) :
  c <> Zero -> c <> One -> contains c (map bit_symbol bs) = false.
Proof.
  intros H0 H1. induction bs as [|b bs IH]; [reflexivity|].
  cbn [map contains existsb]. fold (contains c (map bit_symbol bs)).
  rewrite IH, orb_false_r.
  destruct c, b; try reflexivity; congruence.
Qed.

Lemma payload_bits_of_bits (bs : list bool) :
  payload_bits (map bit_symbol bs) = map bit_symbol bs.
Proof.
  unfold payload_bits. rewrite lstrip_bits by reflexivity.
  rewrite replace_sync_no_space by (apply contains_bits; discriminate).
  apply rstrip_bits.
Qed.

(** The payload of a frame as the remote sends it: start, data bits, the
    sync bits with the space, data bits, stop. *)
Lemma payload_bits_standard (pre post : list bool) :
  payload_bits (StartStandard :: map bit_symbol pre ++ sync
                ++ map bit_symbol post ++ [Stop])
  = map bit_symbol (pre ++ post).
Proof.
  unfold payload_bits. cbn [lstrip is_start_char].
  assert (H : lstrip is_start_char
                (map bit_symbol pre ++ sync ++ map bit_symbol post ++ [Stop])
              = map bit_symbol pre ++ sync ++ map bit_symbol post ++ [Stop]).
  { destruct pre as [|[] pre]; reflexivity. }
  rewrite H, replace_sync_bits_sync.
  rewrite replace_sync_no_space.
  2:{ unfold contains. rewrite existsb_app.
      fold (contains Space (map bit_symbol post)).
      rewrite contains_bits by discriminate. reflexivity. }
  rewrite app_assoc, <- map_app. apply rstrip_bits_stop.
Qed.

Lemma length_range8 (n : nat) :
  (n mod 8 = 0)%nat -> List.length (range n 8) = (n / 8)%nat.
Proof.
  intros H. unfold range. rewrite length_map, length_seq.
  apply Nat.Div0.div_exact in H.
  rewrite H at 1. replace (8 * (n / 8) + 8 - 1)%nat
    with (7 + (n / 8) * 8)%nat by lia.
  rewrite Nat.div_add by lia. reflexivity.
Qed.

Lemma nth_bytes_of_bits (bs : list bool) (j : nat) :
  (j < List.length (bytes_of_bits bs))%nat ->
  nth j (bytes_of_bits bs) 0 = lsb_value (slice bs (j * 8) (j * 8 + 8)).
Proof.
  unfold bytes_of_bits, range. rewrite !length_map, length_seq. intros Hj.
  rewrite map_map.
  set (f := fun k : nat => lsb_value (slice bs (k * 8) (k * 8 + 8))).
  rewrite (nth_indep _ 0 (f 0%nat))
    by (rewrite length_map, length_seq; exact Hj).
  rewrite (map_nth f), seq_nth by exact Hj. reflexivity.
Qed.

Lemma nth_slice8 {A} (l : list A) (j i : nat) (d : A) :
  (i < 8)%nat -> nth i (slice l (j * 8) (j * 8 + 8)) d = nth (j * 8 + i) l d.
Proof.
  intros Hi. unfold slice.
  replace (j * 8 + 8 - j * 8)%nat with 8%nat by lia.
  rewrite nth_firstn.
  apply Nat.ltb_lt in Hi. rewrite Hi. apply nth_skipn.
Qed.

Lemma is_byte_bytes_of_bits (bs : list bool) :
  Forall is_byte (bytes_of_bits bs).
Proof.
  unfold bytes_of_bits. apply Forall_forall. intros b Hb.
  apply in_map_iff in Hb. destruct Hb as (i & <- & _).
  pose proof (lsb_value_bound (slice bs i (i + 8))) as H.
  assert (Hl : (List.length (slice bs i (i + 8)) <= 8)%nat).
  { unfold slice. rewrite length_firstn. lia. }
  assert (Hp : 2 ^ Z.of_nat (List.length (slice bs i (i + 8))) <= 2 ^ 8)
    by (apply Z.pow_le_mono_r; lia).
  unfold is_byte. change (2 ^ 8) with 256 in Hp. lia.
Qed.

(** C6: byte extraction is least significant bit first.  When stripping
    the code leaves data bits only, eight at a time, bit [i] of byte [j]
    is the [i]-th bit transmitted in the [j]-th run of eight, and each
    byte is below 256; the bits 0 1 0 1 0 0 1 1 in transmission order give
    the byte 0xCA. *)
Theorem next_bytes_lsb_first (code : Code) (bs : list bool) :
  payload_bits code = map bit_symbol bs ->
  (List.length bs mod 8 = 0)%nat ->
  (exists bytes : list Z,
      next_bytes code = ret (Some bytes)
      /\ List.length bytes = (List.length bs / 8)%nat
      /\ Forall is_byte bytes
      /\ forall j i : nat,
          (j < List.length bytes)%nat -> (i < 8)%nat ->
          Z.testbit (nth j bytes 0) (Z.of_nat i) = nth (j * 8 + i) bs false)
  /\ next_bytes [Zero; One; Zero; One; Zero; Zero; One; One]
     = ret (Some [0xCA]).
Proof.
  intros Hbits Hlen. split; [|reflexivity].
  exists (bytes_of_bits bs). split; [|split; [|split]].
  - apply next_bytes_bits; assumption.
  - unfold bytes_of_bits. rewrite length_map. apply length_range8, Hlen.
  - apply is_byte_bytes_of_bits.
  - intros j i Hj Hi.
    rewrite nth_bytes_of_bits, testbit_lsb_value by exact Hj.
    apply nth_slice8, Hi.
Qed.

(** The short frame of the script's drawing: 0xCA, 0x0F. *)
Lemma next_bytes_lsb_first_witness :
  let bs := [false; true; false; true; false; false; true; true;
             true; true; true; true; false; false; false; false] in
  let code := StartShort :: map bit_symbol bs ++ [Stop] in
  (payload_bits code = map bit_symbol bs
   /\ (List.length bs mod 8 = 0)%nat)
  /\ (exists bytes : list Z,
      next_bytes code = ret (Some bytes)
      /\ List.length bytes = (List.length bs / 8)%nat
      /\ Forall is_byte bytes
      /\ forall j i : nat,
          (j < List.length bytes)%nat -> (i < 8)%nat ->
          Z.testbit (nth j bytes 0) (Z.of_nat i) = nth (j * 8 + i) bs false)
  /\ next_bytes [Zero; One; Zero; One; Zero; Zero; One; One]
     = ret (Some [0xCA]).
Proof.
  intros bs code.
  assert (H1 : payload_bits code = map bit_symbol bs) by reflexivity.
  assert (H2 : (List.length bs mod 8 = 0)%nat) by reflexivity.
  split; [split; [exact H1 | exact H2]|].
  exact (next_bytes_lsb_first code bs H1 H2).
Defined.

Lemma next_bytes_none_iff (code : Code) :
  result (next_bytes code) = Return None
  <-> len (payload_bits code) mod 8 <> 0.
Proof.
  unfold next_bytes. fold (payload_bits code). unfold neqb.
  destruct (Z.eqb_spec (len (payload_bits code) mod 8) 0) as [He|He];
    cbn [negb].
  - split; [|contradiction].
    destruct (mapM _ _) as [d [bytes|e]]; discriminate.
  - split; [intros _; exact He | reflexivity].
Qed.

(** C5, as the script has it: on a code that [next_code] returned for a
    standard frame, [next_bytes] returns nothing exactly when the number
    of symbols left after stripping is not a multiple of 8; when data bits
    alone are left, it returns one byte for every eight of them; and when
    the code is a start symbol, data bits with the run 0 1 0 _ once among
    them, and the stop symbol, the payload has exactly 8 bytes. *)
Theorem next_bytes_standard (timings : list Z) (code : Code) :
  result (next_code timings) = Return (Some code) ->
  hd Invalid code = StartStandard ->
  (result (next_bytes code) = Return None
   <-> len (payload_bits code) mod 8 <> 0)
  /\ (forall bs : list bool,
        payload_bits code = map bit_symbol bs ->
        len (payload_bits code) mod 8 = 0 ->
        exists bytes : list Z,
          result (next_bytes code) = Return (Some bytes)
          /\ len bytes = len (payload_bits code) / 8)
  /\ (forall pre post : list bool,
        code = StartStandard :: map bit_symbol pre ++ sync
                 ++ map bit_symbol post ++ [Stop] ->
        payload_bits code = map bit_symbol (pre ++ post)
        /\ exists bytes : list Z,
            result (next_bytes code) = Return (Some bytes)
            /\ len bytes = 8 /\ Forall is_byte bytes).
Proof.
  intros Hacc Hstd. split; [apply next_bytes_none_iff|]. split.
  - intros bs Hbits Hmod.
    assert (Hn : (List.length bs mod 8 = 0)%nat).
    { rewrite Hbits in Hmod. unfold len in Hmod. rewrite length_map in Hmod.
      change 8 with (Z.of_nat 8) in Hmod.
      rewrite <- Nat2Z.inj_mod in Hmod. lia. }
    exists (bytes_of_bits bs). split.
    + rewrite (next_bytes_bits code bs Hbits Hn). reflexivity.
    + rewrite Hbits. unfold len, bytes_of_bits.
      rewrite !length_map, length_range8 by exact Hn.
      change 8 with (Z.of_nat 8). rewrite Nat2Z.inj_div. reflexivity.
  - intros pre post Hcode.
    assert (Hbits : payload_bits code = map bit_symbol (pre ++ post))
      by (rewrite Hcode; apply payload_bits_standard).
    split; [exact Hbits|].
    apply next_code_accepts in Hacc.
    destruct Hacc as (_ & _ & _ & [(_ & _ & _ & Hlen)|(Hsh & _)]).
    2:{ rewrite Hstd in Hsh. discriminate Hsh. }
    assert (Hl : (List.length (pre ++ post) = 64)%nat).
    { rewrite Hcode in Hlen. unfold len, sync in Hlen.
      cbn [List.length] in Hlen.
      rewrite !length_app, !length_map in Hlen. cbn [List.length] in Hlen.
      rewrite length_app. lia. }
    exists (bytes_of_bits (pre ++ post)). split; [|split].
    + rewrite (next_bytes_bits code (pre ++ post) Hbits)
        by (rewrite Hl; reflexivity).
      reflexivity.
    + unfold len, bytes_of_bits.
      rewrite length_map, length_range8 by (rewrite Hl; reflexivity).
      rewrite Hl. reflexivity.
    + apply is_byte_bytes_of_bits.
Qed.

(** C5, counterexample.  A standard frame whose sync bits arrive as
    0 1 1 _ passes [next_code], and [next_bytes] returns nothing for it;
    a frame of nine start pairs, the sync bits and 56 data bits passes
    [next_code] with a single space, and [next_bytes] returns 7 bytes. *)
Lemma standard_code_without_8_bytes :
  (result (next_code (frame_of bad_sync_code)) = Return (Some bad_sync_code)
   /\ hd Invalid bad_sync_code = StartStandard
   /\ count Space bad_sync_code = 1%nat
   /\ result (next_bytes bad_sync_code) = Return None)
  /\ (result (next_code (frame_of nine_start_code))
      = Return (Some nine_start_code)
      /\ hd Invalid nine_start_code = StartStandard
      /\ count Space nine_start_code = 1%nat
      /\ len (payload_bits nine_start_code) mod 8 = 0
      /\ result (next_bytes nine_start_code)
         = Return (Some [0; 0; 0; 0; 0; 0; 0])).
Proof. repeat split; vm_compute; reflexivity. Qed.

(** ** Round trip *)

Section Classification.

Variable w : Widths.
Hypothesis Hw : widths_ok w = true.

Lemma widths_ok_inv :
  is_long_start (start_hi w) (start_lo w) = true
  /\ is_zero (lead w) (zero_lo w) = true
  /\ is_one (lead w) (one_lo w) = true
  /\ is_space (lead w) (space_lo w) = true.
Proof.
  unfold widths_ok in Hw. rewrite !andb_true_iff in Hw. tauto.
Qed.

Lemma lead_is_bit : is_bit (lead w) = true.
Proof.
  destruct widths_ok_inv as (_ & H & _).
  unfold is_zero in H. apply andb_true_iff in H. tauto.
Qed.

Lemma lead_bounds : 600 < lead w < 800.
Proof.
  pose proof lead_is_bit as H. unfold is_bit in H.
  apply andb_true_iff in H. rewrite !Z.ltb_lt in H. exact H.
Qed.

Lemma lead_not_start (lo : Z) :
  is_long_start (lead w) lo = false /\ is_short_start (lead w) lo = false.
Proof.
  pose proof lead_bounds as H. unfold is_long_start, is_short_start.
  assert (H1 : (8000 <? lead w) = false) by (apply Z.ltb_ge; lia).
  assert (H2 : (5000 <? lead w) = false) by (apply Z.ltb_ge; lia).
  rewrite H1, H2. split; reflexivity.
Qed.

Lemma classify_start : classify (start_hi w) (start_lo w) = StartStandard.
Proof.
  destruct widths_ok_inv as (H & _). unfold classify. rewrite H. reflexivity.
Qed.

Lemma classify_bit (b : bool) :
  classify (lead w) (if b then one_lo w else zero_lo w) = bit_symbol b.
Proof.
  destruct widths_ok_inv as (_ & H0 & H1 & _).
  unfold classify.
  destruct (lead_not_start (if b then one_lo w else zero_lo w)) as [-> ->].
  destruct b; cbn [bit_symbol].
  - rewrite H1.
    assert (Hz : is_zero (lead w) (one_lo w) = false).
    { unfold is_one in H1. unfold is_zero.
      rewrite !andb_true_iff, !Z.ltb_lt in H1.
      assert (E : (-600 <? one_lo w) = false) by (apply Z.ltb_ge; lia).
      rewrite E, andb_false_r. reflexivity. }
    rewrite Hz. reflexivity.
  - rewrite H0. reflexivity.
Qed.

Lemma classify_space : classify (lead w) (space_lo w) = Space.
Proof.
  destruct widths_ok_inv as (_ & _ & _ & Hs).
  unfold classify.
  destruct (lead_not_start (space_lo w)) as [-> ->].
  rewrite Hs.
  unfold is_space in Hs. rewrite andb_true_iff, Z.ltb_lt in Hs.
  assert (Hz : is_zero (lead w) (space_lo w) = false).
  { unfold is_zero.
    assert (E : (-600 <? space_lo w) = false) by (apply Z.ltb_ge; lia).
    rewrite E, andb_false_r. reflexivity. }
  assert (Ho : is_one (lead w) (space_lo w) = false).
  { unfold is_one.
    assert (E : (-1700 <? space_lo w) = false) by (apply Z.ltb_ge; lia).
    rewrite E, andb_false_r. reflexivity. }
  rewrite Hz, Ho. reflexivity.
Qed.

End Classification.

Lemma current_code_cons2 (h l : Z) (rest : list Z) :
  rest <> [] ->
  current_code (h :: l :: rest) = classify h l :: current_code rest.
Proof.
  intros Hr. unfold current_code. rewrite pairs_cons2. cbn [map fst snd app].
  destruct rest as [|x rest]; [contradiction | reflexivity].
Qed.

Lemma current_code_bits (w : Widths) (bs : list bool) (rest : list Z) :
  widths_ok w = true -> rest <> [] ->
  current_code (flat_map (encode_bit w) bs ++ rest)
  = map bit_symbol bs ++ current_code rest.
Proof.
  intros Hw Hr. induction bs as [|b bs IH]; [reflexivity|].
  cbn [flat_map encode_bit app map].
  rewrite current_code_cons2.
  - rewrite (classify_bit w Hw), IH. reflexivity.
  - destruct (flat_map (encode_bit w) bs); [exact Hr | discriminate].
Qed.

Lemma flat_map_encode_byte (w : Widths) (bytes : list Z) :
  flat_map (encode_byte w) bytes
  = flat_map (encode_bit w) (flat_map byte_bits bytes).
Proof.
  induction bytes as [|b bytes IH]; [reflexivity|].
  cbn [flat_map]. rewrite flat_map_app, IH. reflexivity.
Qed.

Lemma length_flat_map_byte_bits (bytes : list Z) :
  List.length (flat_map byte_bits bytes) = (8 * List.length bytes)%nat.
Proof.
  induction bytes as [|b bytes IH]; [reflexivity|].
  cbn [flat_map]. rewrite length_app, IH.
  unfold byte_bits. rewrite length_map, length_seq. cbn [List.length]. lia.
Qed.

Lemma length_flat_map_encode_bit (w : Widths) (bs : list bool) :
  List.length (flat_map (encode_bit w) bs) = (2 * List.length bs)%nat.
Proof.
  induction bs as [|b bs IH]; [reflexivity|].
  cbn [flat_map encode_bit app List.length]. rewrite IH. lia.
Qed.

Lemma encode_frame_bits (w : Widths) (bytes : list Z) :
  encode_frame w bytes
  = start_hi w :: start_lo w
    :: flat_map (encode_bit w) (flat_map byte_bits (firstn 4 bytes))
    ++ flat_map (encode_bit w) [false; true; false]
    ++ lead w :: space_lo w
    :: flat_map (encode_bit w) (flat_map byte_bits (skipn 4 bytes))
    ++ [lead w].
Proof.
  unfold encode_frame. rewrite !flat_map_encode_byte. reflexivity.
Qed.

(** The code of an encoded frame. *)
Lemma current_code_encode_frame (w : Widths) (bytes : list Z) :
  widths_ok w = true ->
  current_code (encode_frame w bytes)
  = StartStandard :: map bit_symbol (flat_map byte_bits (firstn 4 bytes))
      ++ sync ++ map bit_symbol (flat_map byte_bits (skipn 4 bytes))
      ++ [Stop].
Proof.
  intros Hw. rewrite encode_frame_bits.
  rewrite current_code_cons2.
  2:{ destruct (flat_map (encode_bit w) _); discriminate. }
  rewrite (classify_start w Hw). f_equal.
  rewrite (current_code_bits w _ _ Hw) by discriminate.
  f_equal.
  rewrite (current_code_bits w _ _ Hw) by discriminate.
  rewrite current_code_cons2.
  2:{ destruct (flat_map (encode_bit w) _); discriminate. }
  rewrite (classify_space w Hw).
  rewrite (current_code_bits w _ _ Hw) by discriminate.
  unfold current_code at 1. cbn [last].
  rewrite pairs_single, (lead_is_bit w Hw). reflexivity.
Qed.

Lemma length_encode_frame (w : Widths) (bytes : list Z) :
  List.length bytes = 8%nat ->
  List.length (encode_frame w bytes) = 139%nat.
Proof.
  intros Hl. unfold encode_frame.
  rewrite !length_app, !flat_map_encode_byte, !length_flat_map_encode_bit,
    !length_flat_map_byte_bits, length_firstn, length_skipn, Hl.
  reflexivity.
Qed.

Lemma next_code_silent (timings : list Z) (code : Code) :
  result (next_code timings) = Return (Some code) ->
  next_code timings = ret (Some code).
Proof.
  unfold next_code.
  repeat match goal with
         | |- context [if ?c then _ else _] => destruct c
         end; try discriminate; intros H; inversion H; reflexivity.
Qed.

Lemma next_code_encode_frame (w : Widths) (bytes : list Z) :
  widths_ok w = true -> List.length bytes = 8%nat ->
  next_code (encode_frame w bytes)
  = ret (Some (current_code (encode_frame w bytes))).
Proof.
  intros Hw Hl. apply next_code_silent, next_code_accepts.
  split; [reflexivity|]. split.
  { unfold len. rewrite (length_encode_frame w bytes Hl). discriminate. }
  assert (Hlen : len (current_code (encode_frame w bytes)) = 70).
  { rewrite len_current_code, (length_encode_frame w bytes Hl). reflexivity. }
  rewrite (current_code_encode_frame w bytes Hw) in *.
  set (pre := flat_map byte_bits (firstn 4 bytes)) in *.
  set (post := flat_map byte_bits (skipn 4 bytes)) in *.
  split; [|left; split; [reflexivity|split; [|split; [|exact Hlen]]]].
  - unfold contains, sync. cbn [existsb Symbol_eqb orb].
    rewrite !existsb_app.
    fold (contains Invalid (map bit_symbol pre)).
    fold (contains Invalid (map bit_symbol post)).
    rewrite !contains_bits by discriminate. reflexivity.
  - unfold contains, sync. cbn [existsb Symbol_eqb orb].
    rewrite !existsb_app. cbn [existsb Symbol_eqb orb app].
    rewrite !orb_true_r. reflexivity.
  - change (StartStandard :: map bit_symbol pre ++ sync
              ++ map bit_symbol post ++ [Stop])
      with ((StartStandard :: map bit_symbol pre) ++ sync
              ++ map bit_symbol post ++ [Stop]).
    rewrite !app_assoc. apply last_last.
Qed.

Lemma range8_add8 (n : nat) :
  range (8 + n) 8 = 0%nat :: map (fun i => 8 + i)%nat (range n 8).
Proof.
  unfold range.
  replace (8 + n + 8 - 1)%nat with (n + 8 - 1 + 1 * 8)%nat by lia.
  rewrite Nat.div_add by lia. rewrite Nat.add_1_r. cbn [seq map].
  f_equal. rewrite <- seq_shift, !map_map. apply map_ext. intros k. lia.
Qed.

Lemma bytes_of_bits_app8 (c rest : list bool) :
  List.length c = 8%nat ->
  bytes_of_bits (c ++ rest) = lsb_value c :: bytes_of_bits rest.
Proof.
  intros Hc. unfold bytes_of_bits.
  rewrite length_app, Hc, range8_add8. cbn [map]. f_equal.
  - unfold slice. cbn [skipn Nat.add Nat.sub].
    rewrite firstn_app, Hc, firstn_all2 by lia. cbn [Nat.sub firstn].
    rewrite app_nil_r. reflexivity.
  - rewrite map_map. apply map_ext. intros i. f_equal.
    unfold slice.
    replace (8 + i + 8 - (8 + i))%nat with (i + 8 - i)%nat by lia.
    f_equal. rewrite skipn_app, Hc, skipn_all2 by lia.
    cbn [app]. f_equal. lia.
Qed.

Lemma lsb_value_byte_bits_all :
  forallb (fun n => lsb_value (byte_bits (Z.of_nat n)) =? Z.of_nat n)
          (seq 0 256) = true.
Proof. vm_compute. reflexivity. Qed.

(** The bits of a byte, least significant first, have the byte as value. *)
Lemma lsb_value_byte_bits (b : Z) :
  is_byte b -> lsb_value (byte_bits b) = b.
Proof.
  intros Hb. unfold is_byte in Hb.
  pose proof lsb_value_byte_bits_all as H.
  rewrite forallb_forall in H. specialize (H (Z.to_nat b)).
  rewrite Z2Nat.id in H by lia. apply Z.eqb_eq, H, in_seq. lia.
Qed.

Lemma bytes_of_bits_byte_bits (bytes : list Z) :
  Forall is_byte bytes -> bytes_of_bits (flat_map byte_bits bytes) = bytes.
Proof.
  induction 1 as [|b bytes Hb _ IH]; [reflexivity|].
  cbn [flat_map]. rewrite bytes_of_bits_app8 by reflexivity.
  rewrite IH, (lsb_value_byte_bits b Hb). reflexivity.
Qed.

(** C7, as the script has it: a payload of 8 bytes, encoded with widths
    that the script's checks accept for the element they stand for (as
    the 700us bursts with 500us, 1600us and 19800us pauses of its timing
    diagram), comes back unchanged from [next_code] and [next_bytes], and
    nothing is printed. *)
Theorem frame_bytes_encode_frame (w : Widths) (bytes : list Z) :
  widths_ok w = true ->
  List.length bytes = 8%nat ->
  Forall is_byte bytes ->
  frame_bytes (encode_frame w bytes) = ret (Some bytes).
Proof.
  intros Hw Hl Hb. unfold frame_bytes.
  rewrite (next_code_encode_frame w bytes Hw Hl).
  rewrite (current_code_encode_frame w bytes Hw).
  cbn [ret bind].
  rewrite (next_bytes_bits _ (flat_map byte_bits bytes)).
  - rewrite (bytes_of_bits_byte_bits bytes Hb). reflexivity.
  - rewrite payload_bits_standard, <- flat_map_app, firstn_skipn.
    reflexivity.
  - rewrite length_flat_map_byte_bits, Hl. reflexivity.
Qed.

Lemma frame_bytes_encode_frame_witness :
  let bytes := [0x29; 0x09; 0x20; 0x50; 0x00; 0x80; 0x00; 0x40] in
  (widths_ok gree_widths = true
   /\ List.length bytes = 8%nat
   /\ Forall is_byte bytes)
  /\ frame_bytes (encode_frame gree_widths bytes) = ret (Some bytes).
Proof.
  intros bytes.
  assert (Hw : widths_ok gree_widths = true) by reflexivity.
  assert (Hl : List.length bytes = 8%nat) by reflexivity.
  assert (Hb : Forall is_byte bytes)
    by (repeat constructor; unfold is_byte; lia).
  split; [split; [exact Hw | split; [exact Hl | exact Hb]]|].
  exact (frame_bytes_encode_frame gree_widths bytes Hw Hl Hb).
Defined.

(** C7, counterexample: with the nominal 560us bursts no bit passes
    [is_bit], and the encoded frame is rejected. *)
Lemma frame_bytes_nominal_rejected :
  let bytes := [0x29; 0x09; 0x20; 0x50; 0x00; 0x80; 0x00; 0x40] in
  is_bit (lead nominal_widths) = false
  /\ result (next_code (encode_frame nominal_widths bytes)) = Return None
  /\ result (frame_bytes (encode_frame nominal_widths bytes)) = Return None
  /\ result (frame_bytes (encode_frame nominal_widths bytes))
     <> Return (Some bytes).
Proof.
  intros bytes. repeat split; try (vm_compute; reflexivity).
  vm_compute. discriminate.
Qed.

Lemma next_bytes_standard_witness :
  let timings := frame_of sample_code in
  let code := sample_code in
  (result (next_code timings) = Return (Some code)
   /\ hd Invalid code = StartStandard)
  /\ (result (next_bytes code) = Return None
      <-> len (payload_bits code) mod 8 <> 0)
  /\ (forall bs : list bool,
        payload_bits code = map bit_symbol bs ->
        len (payload_bits code) mod 8 = 0 ->
        exists bytes : list Z,
          result (next_bytes code) = Return (Some bytes)
          /\ len bytes = len (payload_bits code) / 8)
  /\ (forall pre post : list bool,
        code = StartStandard :: map bit_symbol pre ++ sync
                 ++ map bit_symbol post ++ [Stop] ->
        payload_bits code = map bit_symbol (pre ++ post)
        /\ exists bytes : list Z,
            result (next_bytes code) = Return (Some bytes)
            /\ len bytes = 8 /\ Forall is_byte bytes).
Proof.
  intros timings code.
  assert (H1 : result (next_code timings) = Return (Some code))
    by (vm_compute; reflexivity).
  assert (H2 : hd Invalid code = StartStandard) by reflexivity.
  split; [split; [exact H1 | exact H2]|].
  exact (next_bytes_standard timings code H1 H2).
Defined.

(** ** Field decoding *)

(** A record that was decoded is never the failure value. *)
Lemma result_some_not_none (A : Type) (m : Py A) :
  result (r <- m ;; ret (Some r)) <> Return None.
Proof.
  rewrite result_bind. destruct (result m); cbn; discriminate.
Qed.

Lemma result_match_checksum (b0 b1 b2 b3 b4 b5 b6 b7 : Z) :
  exists ok,
    result (match_checksum [b0; b1; b2; b3; b4; b5; b6; b7]) = Return ok.
Proof.
  eexists. unfold match_checksum, getitem. simpl nth_error.
  unfold lift_option. py_result. reflexivity.
Qed.

Lemma high_nibble_eqb_all :
  forallb (fun n =>
             forallb (fun t => Bool.eqb (Z.land (Z.of_nat n) 0xF0 =? 16 * t)
                                        (Z.shiftr (Z.of_nat n) 4 =? t))
                     [0x5; 0x6; 0xA])
          (seq 0 256) = true.
Proof. vm_compute. reflexivity. Qed.

(** The test of the frame type on a byte. *)
Lemma high_nibble_eqb (b t : Z) :
  is_byte b -> In t [0x5; 0x6; 0xA] ->
  (Z.land b 0xF0 =? 16 * t) = (Z.shiftr b 4 =? t).
Proof.
  intros Hb Ht. unfold is_byte in Hb.
  pose proof high_nibble_eqb_all as H.
  rewrite forallb_forall in H. specialize (H (Z.to_nat b)).
  rewrite Z2Nat.id in H by lia.
  assert (Hin : In (Z.to_nat b) (seq 0 256)) by (apply in_seq; lia).
  specialize (H Hin). rewrite forallb_forall in H.
  apply eqb_prop, H, Ht.
Qed.

Lemma next_data_rest_result (bytes : list Z) :
  len bytes <> 2 -> result (next_data_rest bytes) = Return None.
Proof.
  intros H. unfold next_data_rest.
  destruct (Z.eqb_spec (len bytes) 2); [contradiction | reflexivity].
Qed.

(** The outcome of [next_data] on 8 bytes, by frame type. *)
Lemma next_data_8 (b0 b1 b2 b3 b4 b5 b6 b7 : Z) :
  let bytes := [b0; b1; b2; b3; b4; b5; b6; b7] in
  result (next_data bytes)
  = if Z.land b3 0xF0 =? 0x50 then
      result (r <- decode_basic_data bytes ;; ret (Some r))
    else if Z.land b3 0xF0 =? 0x60 then
      result (r <- decode_timer_data bytes ;; ret (Some r))
    else if Z.land b3 0xF0 =? 0xA0 then
      result (r <- decode_footer_data bytes ;; ret (Some r))
    else Return None.
Proof.
  cbv zeta. unfold next_data.
  change (len [b0; b1; b2; b3; b4; b5; b6; b7] =? 8) with true.
  cbn iota. rewrite result_bind.
  destruct (result_match_checksum b0 b1 b2 b3 b4 b5 b6 b7) as [ok ->].
  rewrite result_bind. unfold getitem at 1. cbn [nth_error lift_option].
  rewrite result_ret.
  destruct (Z.land b3 0xF0 =? 0x50); [reflexivity|].
  destruct (Z.land b3 0xF0 =? 0x60); [reflexivity|].
  destruct (Z.land b3 0xF0 =? 0xA0); [reflexivity|].
  apply next_data_rest_result. discriminate.
Qed.

(** Two bits always name a member of [Fan] and of [TempDisplay]. *)
Lemma two_bits (x : Z) : 0 <= Z.land x 3 < 4.
Proof.
  change 3 with (Z.ones 2). rewrite Z.land_ones by lia.
  apply Z.mod_pos_bound. reflexivity.
Qed.

Lemma Fan_of_total (b0 : Z) :
  exists f, Fan_of (Z.shiftr (Z.land b0 0x30) 4) = Some f.
Proof.
  rewrite Z.shiftr_land. change (Z.shiftr 0x30 4) with 3.
  pose proof (two_bits (Z.shiftr b0 4)) as H.
  assert (E : Z.land (Z.shiftr b0 4) 3 = 0 \/ Z.land (Z.shiftr b0 4) 3 = 1
              \/ Z.land (Z.shiftr b0 4) 3 = 2
              \/ Z.land (Z.shiftr b0 4) 3 = 3) by lia.
  destruct E as [E|[E|[E|E]]]; rewrite E; eexists; reflexivity.
Qed.

Lemma TempDisplay_of_total (b5 : Z) :
  exists t, TempDisplay_of (Z.shiftr (Z.land b5 0x03) 0) = Some t.
Proof.
  rewrite Z.shiftr_0_r.
  pose proof (two_bits b5) as H.
  assert (E : Z.land b5 3 = 0 \/ Z.land b5 3 = 1 \/ Z.land b5 3 = 2
              \/ Z.land b5 3 = 3) by lia.
  destruct E as [E|[E|[E|E]]]; rewrite E; eexists; reflexivity.
Qed.

Lemma HGuide_name_swing (h : HGuide) :
  str_in "Swing" (HGuide_name h) = HGuide_is_swing h.
Proof. destruct h; reflexivity. Qed.

Lemma VGuide_name_swing (v : VGuide) :
  str_in "Swing" (VGuide_name v) = VGuide_is_swing v.
Proof. destruct v; reflexivity. Qed.

(** The record of a Basic frame. *)
Lemma next_data_basic (b0 b1 b2 b3 b4 b5 b6 b7 : Z)
      (f : Fan) (m : Mode) (h : HGuide) (v : VGuide) (t : TempDisplay) :
  Z.land b3 0xF0 = 0x50 ->
  Fan_of (Z.shiftr (Z.land b0 0x30) 4) = Some f ->
  Mode_of (Z.shiftr (Z.land b0 0x07) 0) = Some m ->
  HGuide_of (Z.shiftr (Z.land b4 0xF0) 4) = Some h ->
  VGuide_of (Z.shiftr (Z.land b4 0x0F) 0) = Some v ->
  TempDisplay_of (Z.shiftr (Z.land b5 0x03) 0) = Some t ->
  result (next_data [b0; b1; b2; b3; b4; b5; b6; b7])
  = Return (Some
      (if Bool.eqb (HGuide_is_swing h || VGuide_is_swing v) (flag b0 0x40)
       then dict_remove (basic_record b0 b1 b2 b3 b5 b7 f m h v t) "swing"
       else basic_record b0 b1 b2 b3 b5 b7 f m h v t)).
Proof.
  intros Ht Hf Hm Hh Hv Htd.
  rewrite next_data_8, Ht. cbn [Z.eqb Pos.eqb].
  unfold decode_basic_data, decode_common_data, getitem.
  cbn [nth_error lift_option].
  repeat (py_result;
          first [rewrite Hf | rewrite Hm | rewrite Hh | rewrite Hv
                | rewrite Htd];
          cbn [lift_option]).
  py_result. unfold basic_record.
  generalize (flag b0 0x40). intros sw.
  cbn -[flag timer_hours temp].
  rewrite HGuide_name_swing, VGuide_name_swing.
  destruct (HGuide_is_swing h), (VGuide_is_swing v), sw; reflexivity.
Qed.

(** The record of a Timer frame. *)
Lemma next_data_timer (b0 b1 b2 b3 b4 b5 b6 b7 : Z) (f : Fan) (m : Mode) :
  Z.land b3 0xF0 = 0x60 ->
  Fan_of (Z.shiftr (Z.land b0 0x30) 4) = Some f ->
  Mode_of (Z.shiftr (Z.land b0 0x07) 0) = Some m ->
  result (next_data [b0; b1; b2; b3; b4; b5; b6; b7])
  = Return (Some (timer_record b0 b1 b2 b3 b4 b5 b6 b7 f m)).
Proof.
  intros Ht Hf Hm.
  rewrite next_data_8, Ht. cbn [Z.eqb Pos.eqb].
  unfold decode_timer_data, decode_common_data, getitem.
  cbn [nth_error lift_option].
  repeat (py_result; first [rewrite Hf | rewrite Hm]; cbn [lift_option]).
  py_result. reflexivity.
Qed.

Lemma next_data_other_length (bytes : list Z) :
  len bytes <> 8 -> next_data bytes = next_data_rest bytes.
Proof.
  intros H. unfold next_data.
  destruct (Z.eqb_spec (len bytes) 8); [contradiction | reflexivity].
Qed.

Lemma next_data_temp (b0 b1 : Z) :
  result (next_data [b0; b1])
  = Return (Some [("type", VStr "temp"); ("temp", VInt b0)]).
Proof.
  unfold next_data, next_data_rest.
  change (len [b0; b1] =? 8) with false. change (len [b0; b1] =? 2) with true.
  cbn iota. unfold decode_temp_data, getitem. cbn [nth_error lift_option].
  py_result. reflexivity.
Qed.

Lemma next_data_footer (b0 b1 b2 b3 b4 b5 b6 b7 : Z) :
  Z.land b3 0xF0 = 0xA0 ->
  result (next_data [b0; b1; b2; b3; b4; b5; b6; b7])
  = Return (Some [("type", VStr "footer")]).
Proof.
  intros H. rewrite next_data_8. rewrite H. cbn [Z.eqb Pos.eqb].
  unfold decode_footer_data, orM, nonzero_at, nonzero_bits_at, getitem.
  cbn [nth_error lift_option].
  repeat (py_result;
          try match goal with
              | |- context [if ?c then _ else _] => destruct c
              end).
  all: reflexivity.
Qed.

(** How the tests of the frame type read on the high nibble of a byte. *)
Lemma frame_type_tests (b3 : Z) :
  is_byte b3 ->
  (Z.land b3 0xF0 =? 0x50) = (Z.shiftr b3 4 =? 0x5)
  /\ (Z.land b3 0xF0 =? 0x60) = (Z.shiftr b3 4 =? 0x6)
  /\ (Z.land b3 0xF0 =? 0xA0) = (Z.shiftr b3 4 =? 0xA).
Proof.
  intros Hb. repeat split.
  - apply (high_nibble_eqb b3 0x5 Hb). cbn; tauto.
  - apply (high_nibble_eqb b3 0x6 Hb). cbn; tauto.
  - apply (high_nibble_eqb b3 0xA Hb). cbn; tauto.
Qed.

(** C8: on a byte payload [next_data] returns the failure value exactly
    when the payload has 8 bytes and the high nibble of byte 3 is none of
    0x5, 0x6, 0xA, or the payload has neither 8 nor 2 bytes; a payload of
    2 bytes decodes as a Temp record; and on a payload of 2 bytes, or of
    8 bytes with one of the three frame types and its enumerated fields in
    range, [next_data] returns a record, whatever it prints. *)
Theorem next_data_failure (bytes : list Z) :
  Forall is_byte bytes ->
  let t := Z.shiftr (nth 3 bytes 0) 4 in
  (result (next_data bytes) = Return None
   <-> (len bytes = 8 /\ t <> 0x5 /\ t <> 0x6 /\ t <> 0xA)
       \/ (len bytes <> 8 /\ len bytes <> 2))
  /\ (len bytes = 2 ->
      result (next_data bytes)
      = Return (Some [("type", VStr "temp"); ("temp", VInt (nth 0 bytes 0))]))
  /\ (len bytes = 2
      \/ (len bytes = 8 /\ (t = 0x5 \/ t = 0x6 \/ t = 0xA)
          /\ enums_in_range bytes) ->
      exists rec : dict, result (next_data bytes) = Return (Some rec)).
Proof.
  intros Hb t.
  assert (Htemp : len bytes = 2 ->
                  result (next_data bytes)
                  = Return (Some [("type", VStr "temp");
                                  ("temp", VInt (nth 0 bytes 0))])).
  { intros H2.
    destruct bytes as [|b0 [|b1 [|b2 r]]];
      try (unfold len in H2; cbn [List.length] in H2; lia).
    apply next_data_temp. }
  split; [|split; [exact Htemp|]].
  - destruct (Z.eq_dec (len bytes) 8) as [H8|H8].
    + destruct bytes as [|b0 [|b1 [|b2 [|b3 [|b4 [|b5 [|b6 [|b7 [|b8 r]]]]]]]]];
        try (unfold len in H8; cbn [List.length] in H8; lia).
      assert (Hb3 : is_byte b3).
      { rewrite Forall_forall in Hb. apply Hb. cbn. tauto. }
      destruct (frame_type_tests b3 Hb3) as (E5 & E6 & EA).
      rewrite next_data_8, E5, E6, EA. subst t. cbn [nth].
      destruct (Z.eqb_spec (Z.shiftr b3 4) 0x5) as [T5|T5].
      { split; [intros H; destruct (result_some_not_none _ _ H)|].
        intros [(_ & H & _)|(H & _)]; contradiction. }
      destruct (Z.eqb_spec (Z.shiftr b3 4) 0x6) as [T6|T6].
      { split; [intros H; destruct (result_some_not_none _ _ H)|].
        intros [(_ & _ & H & _)|(H & _)]; contradiction. }
      destruct (Z.eqb_spec (Z.shiftr b3 4) 0xA) as [TA|TA].
      { split; [intros H; destruct (result_some_not_none _ _ H)|].
        intros [(_ & _ & _ & H)|(H & _)]; contradiction. }
      split; [intros _; left; tauto | reflexivity].
    + rewrite (next_data_other_length bytes H8).
      destruct (Z.eq_dec (len bytes) 2) as [H2|H2].
      * split; [|intros [(H & _)|(_ & H)]; contradiction].
        unfold next_data_rest. rewrite H2. cbn [Z.eqb Pos.eqb].
        intros H. destruct (result_some_not_none _ _ H).
      * rewrite (next_data_rest_result bytes H2).
        split; [intros _; right; tauto | reflexivity].
  - intros [H2|(H8 & Ht & Hr & Hg)].
    { eexists. apply Htemp, H2. }
    destruct bytes as [|b0 [|b1 [|b2 [|b3 [|b4 [|b5 [|b6 [|b7 [|b8 r]]]]]]]]];
      try (unfold len in H8; cbn [List.length] in H8; lia).
    assert (Hb3 : is_byte b3).
    { rewrite Forall_forall in Hb. apply Hb. cbn. tauto. }
    destruct (frame_type_tests b3 Hb3) as (E5 & E6 & EA).
    subst t. cbn [nth] in Ht, Hr, Hg.
    destruct (Fan_of_total b0) as [f Hf].
    destruct (TempDisplay_of_total b5) as [td Htd].
    destruct Ht as [T|[T|T]].
    + specialize (Hr (or_introl T)). destruct (Hg T) as [Hh Hv].
      destruct (Mode_of _) as [m|] eqn:Hm; [|contradiction].
      destruct (HGuide_of _) as [h|] eqn:Hh'; [|contradiction].
      destruct (VGuide_of _) as [v|] eqn:Hv'; [|contradiction].
      rewrite T in E5. apply Z.eqb_eq in E5.
      eexists. exact (next_data_basic b0 b1 b2 b3 b4 b5 b6 b7 f m h v td
                                      E5 Hf Hm Hh' Hv' Htd).
    + specialize (Hr (or_intror T)).
      destruct (Mode_of _) as [m|] eqn:Hm; [|contradiction].
      rewrite T in E6. apply Z.eqb_eq in E6.
      eexists. exact (next_data_timer b0 b1 b2 b3 b4 b5 b6 b7 f m E6 Hf Hm).
    + rewrite T in EA. apply Z.eqb_eq in EA.
      eexists. exact (next_data_footer b0 b1 b2 b3 b4 b5 b6 b7 EA).
Qed.

(** A Basic frame with reserved bits set and a wrong checksum. *)
Lemma next_data_failure_witness :
  let bytes := [0x29; 0x09; 0x22; 0x50; 0x00; 0x38; 0x01; 0x7B] in
  let t := Z.shiftr (nth 3 bytes 0) 4 in
  Forall is_byte bytes
  /\ (result (next_data bytes) = Return None
      <-> (len bytes = 8 /\ t <> 0x5 /\ t <> 0x6 /\ t <> 0xA)
          \/ (len bytes <> 8 /\ len bytes <> 2))
  /\ (len bytes = 2 ->
      result (next_data bytes)
      = Return (Some [("type", VStr "temp"); ("temp", VInt (nth 0 bytes 0))]))
  /\ (len bytes = 2
      \/ (len bytes = 8 /\ (t = 0x5 \/ t = 0x6 \/ t = 0xA)
          /\ enums_in_range bytes) ->
      exists rec : dict, result (next_data bytes) = Return (Some rec)).
Proof.
  intros bytes t.
  assert (Hb : Forall is_byte bytes)
    by (repeat constructor; unfold is_byte; lia).
  split; [exact Hb | exact (next_data_failure bytes Hb)].
Defined.

(** A mask within the low nibble only sees the low nibble. *)
Lemma land_low_nibble (b b' mask : Z) :
  Z.land b 0x0F = Z.land b' 0x0F ->
  Z.land 0x0F mask = mask ->
  Z.land b mask = Z.land b' mask.
Proof.
  intros H Hm. rewrite <- Hm, !Z.land_assoc, H. reflexivity.
Qed.

Lemma decode_common_data_prefix (b0 b1 b2 b3 : Z) (rest : list Z) :
  decode_common_data (b0 :: b1 :: b2 :: b3 :: rest)
  = decode_common_data [b0; b1; b2; b3].
Proof. reflexivity. Qed.

Lemma decode_basic_data_low_nibble (b0 b1 b2 b3 b4 b5 b6 b7 b7' : Z) :
  Z.land b7 0x0F = Z.land b7' 0x0F ->
  decode_basic_data [b0; b1; b2; b3; b4; b5; b6; b7]
  = decode_basic_data [b0; b1; b2; b3; b4; b5; b6; b7'].
Proof.
  intros H. unfold decode_basic_data.
  rewrite !(decode_common_data_prefix b0 b1 b2 b3).
  unfold getitem. cbn [nth_error lift_option].
  cbv beta iota delta [bind ret flag].
  rewrite (land_low_nibble b7 b7' 0x0B H eq_refl).
  rewrite (land_low_nibble b7 b7' 0x04 H eq_refl).
  reflexivity.
Qed.

Lemma decode_timer_data_low_nibble (b0 b1 b2 b3 b4 b5 b6 b7 b7' : Z) :
  Z.land b7 0x0F = Z.land b7' 0x0F ->
  decode_timer_data [b0; b1; b2; b3; b4; b5; b6; b7]
  = decode_timer_data [b0; b1; b2; b3; b4; b5; b6; b7'].
Proof.
  intros H. unfold decode_timer_data.
  rewrite !(decode_common_data_prefix b0 b1 b2 b3).
  unfold getitem. cbn [nth_error lift_option].
  cbv beta iota delta [bind ret flag].
  rewrite (land_low_nibble b7 b7' 0x0C H eq_refl).
  rewrite (land_low_nibble b7 b7' 0x02 H eq_refl).
  rewrite (land_low_nibble b7 b7' 0x01 H eq_refl).
  reflexivity.
Qed.

(** What [match_checksum] prints and returns on 8 bytes. *)
Lemma match_checksum_8 (b0 b1 b2 b3 b4 b5 b6 b7 : Z) :
  let orig := Z.shiftr (Z.land b7 0xF0) 4 in
  let calc :=
    Z.land (Z.land b0 0x0F + Z.land b1 0x0F + Z.land b2 0x0F
            + Z.land b3 0x0F
            + Z.shiftr (Z.land b4 0xF0) 4 + Z.shiftr (Z.land b5 0xF0) 4
            + Z.shiftr (Z.land b6 0xF0) 4 + 0x0A) 0x0F in
  match_checksum [b0; b1; b2; b3; b4; b5; b6; b7]
  = (if orig =? calc then [] else [ChecksumMismatch orig calc],
     Return (orig =? calc)).
Proof.
  cbv zeta. unfold match_checksum, getitem.
  cbn [nth_error lift_option].
  cbv beta iota zeta delta [bind ret when print neqb].
  destruct (Z.shiftr (Z.land b7 0xF0) 4 =? _); reflexivity.
Qed.

Lemma result_raise (A : Type) (e : exn) : result (@raise A e) = Raise e.
Proof. reflexivity. Qed.

(** Evaluates an outcome through lookups of enumeration members that are
    known. *)
Ltac py_enum :=
  repeat (py_result;
          repeat match goal with
                 | H : ?x = _ |- context [lift_option _ ?x] => rewrite H
                 end;
          cbn [lift_option];
          rewrite ?result_raise; cbv beta iota).

Lemma next_data_basic_raises (b0 b1 b2 b3 b4 b5 b6 b7 : Z) :
  Z.land b3 0xF0 = 0x50 ->
  Mode_of (Z.shiftr (Z.land b0 0x07) 0) = None
  \/ HGuide_of (Z.shiftr (Z.land b4 0xF0) 4) = None
  \/ VGuide_of (Z.shiftr (Z.land b4 0x0F) 0) = None ->
  result (next_data [b0; b1; b2; b3; b4; b5; b6; b7]) = Raise ValueError.
Proof.
  intros Ht Hbad.
  destruct (Fan_of_total b0) as [f Hf].
  rewrite next_data_8, Ht. cbn [Z.eqb Pos.eqb].
  unfold decode_basic_data, decode_common_data, getitem.
  cbn [nth_error lift_option].
  destruct (Mode_of (Z.shiftr (Z.land b0 0x07) 0)) as [m|] eqn:Hm.
  2:{ py_enum. reflexivity. }
  destruct (HGuide_of (Z.shiftr (Z.land b4 0xF0) 4)) as [h|] eqn:Hh.
  2:{ py_enum. reflexivity. }
  destruct (VGuide_of (Z.shiftr (Z.land b4 0x0F) 0)) as [v|] eqn:Hv.
  2:{ py_enum. reflexivity. }
  destruct Hbad as [H|[H|H]]; discriminate H.
Qed.

Lemma next_data_timer_raises (b0 b1 b2 b3 b4 b5 b6 b7 : Z) :
  Z.land b3 0xF0 = 0x60 ->
  Mode_of (Z.shiftr (Z.land b0 0x07) 0) = None ->
  result (next_data [b0; b1; b2; b3; b4; b5; b6; b7]) = Raise ValueError.
Proof.
  intros Ht Hm.
  destruct (Fan_of_total b0) as [f Hf].
  rewrite next_data_8, Ht. cbn [Z.eqb Pos.eqb].
  unfold decode_timer_data, decode_common_data, getitem.
  cbn [nth_error lift_option].
  py_enum. reflexivity.
Qed.

Lemma diags_bind (A B : Type) (m : Py A) (f : A -> Py B) :
  diags (bind m f)
  = diags m ++ match result m with
               | Return a => diags (f a)
               | Raise _ => []
               end.
Proof.
  destruct m as [d [a|e]]; unfold diags, result; cbn [bind fst snd].
  - destruct (f a); reflexivity.
  - symmetry. apply app_nil_r.
Qed.

Lemma diags_ret (A : Type) (a : A) : diags (ret a) = [].
Proof. reflexivity. Qed.

Lemma diags_when_print (c : bool) (d : Diag) :
  diags (when c (print d)) = if c then [d] else [].
Proof. destruct c; reflexivity. Qed.

(** Evaluates the diagnostics of a computation as far as they are
    determined. *)
Ltac py_diags :=
  repeat (first [ rewrite diags_bind | rewrite diags_ret
                | rewrite diags_when_print
                | rewrite result_bind | rewrite result_ret
                | rewrite result_when_print | rewrite result_print ];
          repeat match goal with
                 | H : ?x = _ |- context [lift_option _ ?x] => rewrite H
                 end;
          cbn [lift_option]; cbv beta iota).

Lemma diags_match_checksum (b0 b1 b2 b3 b4 b5 b6 b7 : Z) :
  diags (match_checksum [b0; b1; b2; b3; b4; b5; b6; b7]) = []
  <-> result (match_checksum [b0; b1; b2; b3; b4; b5; b6; b7]) = Return true.
Proof.
  rewrite match_checksum_8. cbv zeta. unfold diags, result. cbn [fst snd].
  destruct (_ =? _); split; congruence.
Qed.

(** What [next_data] prints on 8 bytes: the diagnostic of the checksum,
    then those of the decoder of the frame type. *)
Lemma next_data_8_diags (b0 b1 b2 b3 b4 b5 b6 b7 : Z) :
  let bytes := [b0; b1; b2; b3; b4; b5; b6; b7] in
  diags (next_data bytes)
  = diags (match_checksum bytes)
    ++ (if Z.land b3 0xF0 =? 0x50 then diags (decode_basic_data bytes)
        else if Z.land b3 0xF0 =? 0x60 then diags (decode_timer_data bytes)
        else if Z.land b3 0xF0 =? 0xA0 then diags (decode_footer_data bytes)
        else [UnknownCodeType bytes]).
Proof.
  cbv zeta. unfold next_data.
  change (len [b0; b1; b2; b3; b4; b5; b6; b7] =? 8) with true. cbn iota.
  rewrite diags_bind.
  destruct (result_match_checksum b0 b1 b2 b3 b4 b5 b6 b7) as [ok ->].
  f_equal. rewrite diags_bind. unfold getitem at 1 2.
  cbn [nth_error lift_option]. rewrite diags_ret, result_ret. cbn [app].
  destruct (Z.land b3 0xF0 =? 0x50).
  { rewrite diags_bind. destruct (result _); rewrite ?diags_ret;
      rewrite app_nil_r; reflexivity. }
  destruct (Z.land b3 0xF0 =? 0x60).
  { rewrite diags_bind. destruct (result _); rewrite ?diags_ret;
      rewrite app_nil_r; reflexivity. }
  destruct (Z.land b3 0xF0 =? 0xA0).
  { rewrite diags_bind. destruct (result _); rewrite ?diags_ret;
      rewrite app_nil_r; reflexivity. }
  reflexivity.
Qed.

Lemma diags_decode_footer_data (b0 b1 b2 b3 b4 b5 b6 b7 : Z) :
  let bytes := [b0; b1; b2; b3; b4; b5; b6; b7] in
  diags (decode_footer_data bytes)
  = (if neqb b0 0 || neqb b1 0 || neqb b2 0 || neqb b4 0 || neqb b5 0
        || neqb b6 0
     then [NonzeroFooterUnusedBytes bytes] else [])
    ++ (if flag b3 0x0F || flag b7 0x0F
        then [NonzeroFooterUnusedBits bytes] else []).
Proof.
  cbv zeta.
  unfold decode_footer_data, orM, nonzero_at, nonzero_bits_at, getitem.
  cbn [nth_error lift_option].
  cbv beta iota zeta delta [bind ret].
  generalize (neqb b0 0) (neqb b1 0) (neqb b2 0) (neqb b4 0) (neqb b5 0)
             (neqb b6 0) (flag b3 0x0F) (flag b7 0x0F).
  intros x0 x1 x2 x4 x5 x6 y3 y7.
  destruct x0, x1, x2, x4, x5, x6, y3, y7; reflexivity.
Qed.

(** A computation is its diagnostics and its outcome. *)
Lemma py_eta (A : Type) (m : Py A) : m = (diags m, result m).
Proof. destruct m; reflexivity. Qed.

(** A property of every diagnostic is kept by sequencing. *)
Lemma diags_bind_Forall (A B : Type) (P : Diag -> Prop)
      (m : Py A) (f : A -> Py B) :
  Forall P (diags m) -> (forall a, Forall P (diags (f a))) ->
  Forall P (diags (bind m f)).
Proof.
  intros Hm Hf. rewrite diags_bind. apply Forall_app. split; [exact Hm|].
  destruct (result m); [apply Hf | constructor].
Qed.

(** Walks through a computation to show a property of all it prints. *)
Ltac diags_forall :=
  repeat first
    [ apply diags_bind_Forall; [|intros ?]
    | match goal with
      | |- Forall _ (diags (when ?c _)) => destruct c; cbn [when]
      | |- Forall _ (diags (lift_option _ ?o)) =>
          destruct o; cbn [lift_option]
      | |- Forall _ (diags (if ?c then _ else _)) => destruct c
      | |- Forall _ (diags (match ?v with _ => _ end)) => destruct v
      | |- Forall _ (diags (ret _)) => apply Forall_nil
      | |- Forall _ (diags (raise _)) => apply Forall_nil
      | |- Forall _ (diags (print _)) =>
          apply Forall_cons;
            [split; [reflexivity | intros; reflexivity] | apply Forall_nil]
      end ].

(** The decoders print neither a checksum diagnostic nor the payload. *)
Lemma decode_basic_data_no_checksum (bytes : list Z) :
  Forall (fun d => is_checksum_diag d = false
                     /\ forall bs, with_payload bs d = d)
         (diags (decode_basic_data bytes)).
Proof.
  unfold decode_basic_data, decode_common_data, getkey, delkey, value_name,
    getitem.
  diags_forall.
Qed.

Lemma decode_timer_data_no_checksum (bytes : list Z) :
  Forall (fun d => is_checksum_diag d = false
                     /\ forall bs, with_payload bs d = d)
         (diags (decode_timer_data bytes)).
Proof.
  unfold decode_timer_data, decode_common_data, getitem.
  diags_forall.
Qed.


Lemma map_with_payload_id (bs : list Z) (l : list Diag) :
  Forall (fun d => is_checksum_diag d = false
                   /\ forall bs, with_payload bs d = d) l ->
  map (with_payload bs) l = l.
Proof.
  induction 1 as [|d l [_ Hd] _ IH]; [reflexivity|].
  cbn [map]. rewrite Hd, IH. reflexivity.
Qed.

Lemma no_checksum_diag (l : list Diag) (orig c : Z) :
  Forall (fun d => is_checksum_diag d = false) l ->
  ~ In (ChecksumMismatch orig c) l.
Proof.
  intros H Hin. rewrite Forall_forall in H. specialize (H _ Hin).
  discriminate H.
Qed.

Lemma next_data_result_low_nibble (b0 b1 b2 b3 b4 b5 b6 b7 b7' : Z) :
  Z.land b7 0x0F = Z.land b7' 0x0F ->
  result (next_data [b0; b1; b2; b3; b4; b5; b6; b7'])
  = result (next_data [b0; b1; b2; b3; b4; b5; b6; b7]).
Proof.
  intros H. rewrite !next_data_8. cbv zeta.
  rewrite (decode_basic_data_low_nibble b0 b1 b2 b3 b4 b5 b6 b7 b7' H).
  rewrite (decode_timer_data_low_nibble b0 b1 b2 b3 b4 b5 b6 b7 b7' H).
  destruct (Z.land b3 0xF0 =? 0x50); [reflexivity|].
  destruct (Z.land b3 0xF0 =? 0x60); [reflexivity|].
  destruct (Z.eqb_spec (Z.land b3 0xF0) 0xA0) as [E|E]; [|reflexivity].
  pose proof (next_data_footer b0 b1 b2 b3 b4 b5 b6 b7 E) as F.
  pose proof (next_data_footer b0 b1 b2 b3 b4 b5 b6 b7' E) as F'.
  rewrite !next_data_8 in F, F'. cbv zeta in F, F'.
  destruct (Z.land b3 0xF0 =? 0x50) eqn:E5;
    [rewrite E in E5; discriminate E5|].
  destruct (Z.land b3 0xF0 =? 0x60) eqn:E6;
    [rewrite E in E6; discriminate E6|].
  rewrite E in F, F'. cbn [Z.eqb Pos.eqb] in F, F'.
  rewrite F, F'. reflexivity.
Qed.

(** On a recognized frame type a record is returned when the enumerated
    fields are in range, and [ValueError] is raised when they are not. *)
Lemma next_data_recognized (b0 b1 b2 b3 b4 b5 b6 b7 : Z) :
  is_byte b3 ->
  Z.shiftr b3 4 = 0x5 \/ Z.shiftr b3 4 = 0x6 \/ Z.shiftr b3 4 = 0xA ->
  let bytes := [b0; b1; b2; b3; b4; b5; b6; b7] in
  (enums_in_range bytes ->
   exists rec : dict, result (next_data bytes) = Return (Some rec))
  /\ (~ enums_in_range bytes -> result (next_data bytes) = Raise ValueError).
Proof.
  intros Hb3 Ht bytes. subst bytes.
  destruct (frame_type_tests b3 Hb3) as (T5 & T6 & TA).
  destruct (Fan_of_total b0) as [f Hf].
  destruct (TempDisplay_of_total b5) as [td Htd].
  unfold enums_in_range. cbn [nth].
  destruct Ht as [Ht|[Ht|Ht]].
  - rewrite Ht in T5. apply Z.eqb_eq in T5.
    destruct (Mode_of (Z.shiftr (Z.land b0 0x07) 0)) as [m|] eqn:Hm.
    2:{ rewrite (next_data_basic_raises b0 b1 b2 b3 b4 b5 b6 b7 T5)
          by tauto.
        split; [|reflexivity]. intros [H _]. exfalso. apply H; tauto. }
    destruct (HGuide_of (Z.shiftr (Z.land b4 0xF0) 4)) as [h|] eqn:Hh.
    2:{ rewrite (next_data_basic_raises b0 b1 b2 b3 b4 b5 b6 b7 T5)
          by tauto.
        split; [|reflexivity]. intros [_ H]. exfalso.
        destruct (H Ht) as [H1 _]. apply H1. reflexivity. }
    destruct (VGuide_of (Z.shiftr (Z.land b4 0x0F) 0)) as [v|] eqn:Hv.
    2:{ rewrite (next_data_basic_raises b0 b1 b2 b3 b4 b5 b6 b7 T5)
          by tauto.
        split; [|reflexivity]. intros [_ H]. exfalso.
        destruct (H Ht) as [_ H2]. apply H2. reflexivity. }
    rewrite (next_data_basic b0 b1 b2 b3 b4 b5 b6 b7 f m h v td
                             T5 Hf Hm Hh Hv Htd).
    split; [intros _; eexists; reflexivity|].
    intros H. exfalso. apply H. split; [discriminate|].
    intros _. split; discriminate.
  - rewrite Ht in T6. apply Z.eqb_eq in T6.
    destruct (Mode_of (Z.shiftr (Z.land b0 0x07) 0)) as [m|] eqn:Hm.
    2:{ rewrite (next_data_timer_raises b0 b1 b2 b3 b4 b5 b6 b7 T6 Hm).
        split; [|reflexivity]. intros [H _]. exfalso. apply H; tauto. }
    rewrite (next_data_timer b0 b1 b2 b3 b4 b5 b6 b7 f m T6 Hf Hm).
    split; [intros _; eexists; reflexivity|].
    intros H. exfalso. apply H. split; [discriminate|].
    rewrite Ht. discriminate.
  - rewrite Ht in TA. apply Z.eqb_eq in TA.
    rewrite (next_data_footer b0 b1 b2 b3 b4 b5 b6 b7 TA).
    split; [intros _; eexists; reflexivity|].
    intros H. exfalso. apply H. rewrite Ht. split.
    + intros [E|E]; discriminate E.
    + intros E; discriminate E.
Qed.

(** The diagnostic of the checksum on 8 bytes, by nibbles. *)
Lemma diags_match_checksum_bytes (b0 b1 b2 b3 b4 b5 b6 b7 : Z) :
  is_byte b4 -> is_byte b5 -> is_byte b6 -> is_byte b7 ->
  let orig := Z.shiftr b7 4 in
  let calc :=
    (Z.land b0 0x0F + Z.land b1 0x0F + Z.land b2 0x0F + Z.land b3 0x0F
     + Z.shiftr b4 4 + Z.shiftr b5 4 + Z.shiftr b6 4 + 0x0A) mod 16 in
  diags (match_checksum [b0; b1; b2; b3; b4; b5; b6; b7])
  = if orig =? calc then [] else [ChecksumMismatch orig calc].
Proof.
  intros H4 H5 H6 H7. cbv zeta. rewrite match_checksum_8. cbv zeta.
  unfold diags. cbn [fst].
  rewrite land_15_mod, !high_nibble_byte by assumption. reflexivity.
Qed.

(** C9: the checksum does not gate decoding.  Take two payloads of 8
    bytes with a recognized frame type that differ only in the high
    nibble of byte 7, where the received checksum is.  [next_data] ends in
    the same way on both: with the same record when the enumerated fields
    are in range, with [ValueError] when they are not.  What differs is
    the first thing printed: each run prints the checksum diagnostic
    exactly when its own received nibble differs from the computed sum.
    The diagnostics after it hold no checksum diagnostic and are the same
    in both runs, those of a Footer up to the payload they show. *)
Theorem next_data_ignores_checksum (b0 b1 b2 b3 b4 b5 b6 b7 b7' : Z) :
  Forall is_byte [b0; b1; b2; b3; b4; b5; b6; b7] ->
  is_byte b7' ->
  Z.land b7 0x0F = Z.land b7' 0x0F ->
  Z.shiftr b3 4 = 0x5 \/ Z.shiftr b3 4 = 0x6 \/ Z.shiftr b3 4 = 0xA ->
  let bytes := [b0; b1; b2; b3; b4; b5; b6; b7] in
  let bytes' := [b0; b1; b2; b3; b4; b5; b6; b7'] in
  let calc :=
    (Z.land b0 0x0F + Z.land b1 0x0F + Z.land b2 0x0F + Z.land b3 0x0F
     + Z.shiftr b4 4 + Z.shiftr b5 4 + Z.shiftr b6 4 + 0x0A) mod 16 in
  let mismatch := fun orig : Z =>
    if orig =? calc then [] else [ChecksumMismatch orig calc] in
  exists (out : outcome (option dict)) (rest rest' : list Diag),
    next_data bytes = (mismatch (Z.shiftr b7 4) ++ rest, out)
    /\ next_data bytes' = (mismatch (Z.shiftr b7' 4) ++ rest', out)
    /\ rest' = map (with_payload bytes') rest
    /\ (Z.shiftr b3 4 <> 0xA -> rest' = rest)
    /\ (forall orig c : Z, ~ In (ChecksumMismatch orig c) rest)
    /\ (enums_in_range bytes -> exists rec : dict, out = Return (Some rec))
    /\ (~ enums_in_range bytes -> out = Raise ValueError).
Proof.
  intros Hb Hb7' Hlow Ht. cbv zeta.
  assert (Hb3 : is_byte b3) by (rewrite Forall_forall in Hb; apply Hb; cbn; tauto).
  assert (Hb4 : is_byte b4) by (rewrite Forall_forall in Hb; apply Hb; cbn; tauto).
  assert (Hb5 : is_byte b5) by (rewrite Forall_forall in Hb; apply Hb; cbn; tauto).
  assert (Hb6 : is_byte b6) by (rewrite Forall_forall in Hb; apply Hb; cbn; tauto).
  assert (Hb7 : is_byte b7) by (rewrite Forall_forall in Hb; apply Hb; cbn; tauto).
  destruct (frame_type_tests b3 Hb3) as (T5 & T6 & TA).
  destruct (next_data_recognized b0 b1 b2 b3 b4 b5 b6 b7 Hb3 Ht) as [R1 R2].
  cbv zeta in R1, R2.
  pose proof (py_eta _ (next_data [b0; b1; b2; b3; b4; b5; b6; b7])) as E.
  pose proof (py_eta _ (next_data [b0; b1; b2; b3; b4; b5; b6; b7'])) as E'.
  rewrite (next_data_result_low_nibble b0 b1 b2 b3 b4 b5 b6 b7 b7' Hlow)
    in E'.
  rewrite next_data_8_diags in E, E'. cbv zeta in E, E'.
  rewrite (diags_match_checksum_bytes b0 b1 b2 b3 b4 b5 b6 b7) in E
    by assumption.
  rewrite (diags_match_checksum_bytes b0 b1 b2 b3 b4 b5 b6 b7') in E'
    by assumption.
  cbv zeta in E, E'. rewrite T5, T6, TA in E, E'.
  rewrite <- (decode_basic_data_low_nibble b0 b1 b2 b3 b4 b5 b6 b7 b7' Hlow)
    in E'.
  rewrite <- (decode_timer_data_low_nibble b0 b1 b2 b3 b4 b5 b6 b7 b7' Hlow)
    in E'.
  rewrite !diags_decode_footer_data in E, E'. cbv zeta in E, E'.
  assert (F7 : flag b7' 0x0F = flag b7 0x0F)
    by (unfold flag; rewrite Hlow; reflexivity).
  rewrite F7 in E'.
  exists (result (next_data [b0; b1; b2; b3; b4; b5; b6; b7])).
  destruct Ht as [Ht|[Ht|Ht]]; rewrite Ht in E, E'; cbn [Z.eqb Pos.eqb] in E, E'.
  - eexists _, _. split; [exact E|]. split; [exact E'|].
    pose proof (decode_basic_data_no_checksum
                  [b0; b1; b2; b3; b4; b5; b6; b7]) as F.
    split; [symmetry; apply map_with_payload_id; exact F|].
    split; [reflexivity|].
    split; [|split; assumption].
    intros orig c. apply no_checksum_diag.
    eapply Forall_impl; [|exact F]. intros d [H _]. exact H.
  - eexists _, _. split; [exact E|]. split; [exact E'|].
    pose proof (decode_timer_data_no_checksum
                  [b0; b1; b2; b3; b4; b5; b6; b7]) as F.
    split; [symmetry; apply map_with_payload_id; exact F|].
    split; [reflexivity|].
    split; [|split; assumption].
    intros orig c. apply no_checksum_diag.
    eapply Forall_impl; [|exact F]. intros d [H _]. exact H.
  - eexists _, _. split; [exact E|]. split; [exact E'|].
    split; [|split; [intros H; contradiction|split; [|split; assumption]]].
    + destruct (_ || _), (_ || _); reflexivity.
    + intros orig c.
      destruct (_ || _), (_ || _); cbn [app In]; intuition discriminate.
Qed.

(** A Basic frame with a nonzero byte 6, received once with the right
    checksum and once with a wrong one. *)
Lemma next_data_ignores_checksum_witness :
  let bytes := [0x29; 0x09; 0x20; 0x50; 0x00; 0x80; 0x01; 0x40] in
  let bytes' := [0x29; 0x09; 0x20; 0x50; 0x00; 0x80; 0x01; 0x70] in
  (Forall is_byte bytes
   /\ is_byte 0x70
   /\ Z.land 0x40 0x0F = Z.land 0x70 0x0F
   /\ (Z.shiftr 0x50 4 = 0x5 \/ Z.shiftr 0x50 4 = 0x6
       \/ Z.shiftr 0x50 4 = 0xA))
  /\ enums_in_range bytes
  /\ exists (out : outcome (option dict)) (rest rest' : list Diag),
      next_data bytes = (rest, out)
      /\ next_data bytes' = (ChecksumMismatch 7 4 :: rest', out)
      /\ rest' = map (with_payload bytes') rest
      /\ (Z.shiftr 0x50 4 <> 0xA -> rest' = rest)
      /\ (forall orig c : Z, ~ In (ChecksumMismatch orig c) rest)
      /\ (enums_in_range bytes -> exists rec : dict, out = Return (Some rec))
      /\ (~ enums_in_range bytes -> out = Raise ValueError).
Proof.
  intros bytes bytes'.
  assert (H1 : Forall is_byte bytes)
    by (repeat constructor; unfold is_byte; lia).
  assert (H2 : is_byte 0x70) by (unfold is_byte; lia).
  assert (H3 : Z.land 0x40 0x0F = Z.land 0x70 0x0F) by reflexivity.
  assert (H4 : Z.shiftr 0x50 4 = 0x5 \/ Z.shiftr 0x50 4 = 0x6
               \/ Z.shiftr 0x50 4 = 0xA) by (left; reflexivity).
  assert (H5 : enums_in_range bytes).
  { unfold enums_in_range. repeat split; intros; discriminate. }
  split; [exact (conj H1 (conj H2 (conj H3 H4)))|].
  split; [exact H5|].
  exact (next_data_ignores_checksum 0x29 0x09 0x20 0x50 0x00 0x80 0x01
                                    0x40 0x70 H1 H2 H3 H4).
Defined.

(** C10: in the record of a Basic frame whose enumerated fields are in
    range, the [swing] field is absent exactly when "one of the air
    guides swings" equals the swing flag, bit 6 of byte 0; when the two
    differ, the field is there with the value of the flag. *)
Theorem basic_swing_field (b0 b1 b2 b3 b4 b5 b6 b7 : Z)
        (m : Mode) (h : HGuide) (v : VGuide) :
  Z.land b3 0xF0 = 0x50 ->
  Mode_of (Z.shiftr (Z.land b0 0x07) 0) = Some m ->
  HGuide_of (Z.shiftr (Z.land b4 0xF0) 4) = Some h ->
  VGuide_of (Z.shiftr (Z.land b4 0x0F) 0) = Some v ->
  exists rec : dict,
    result (next_data [b0; b1; b2; b3; b4; b5; b6; b7]) = Return (Some rec)
    /\ dict_get rec "type" = Some (VStr "basic")
    /\ dict_get rec "h_guide" = Some (VHGuide h)
    /\ dict_get rec "v_guide" = Some (VVGuide v)
    /\ (dict_get rec "swing" = None
        <-> (HGuide_is_swing h || VGuide_is_swing v) = flag b0 0x40)
    /\ ((HGuide_is_swing h || VGuide_is_swing v) <> flag b0 0x40 ->
        dict_get rec "swing" = Some (VBool (flag b0 0x40))).
Proof.
  intros Ht Hm Hh Hv.
  destruct (Fan_of_total b0) as [f Hf].
  destruct (TempDisplay_of_total b5) as [t Htd].
  rewrite (next_data_basic b0 b1 b2 b3 b4 b5 b6 b7 f m h v t
                           Ht Hf Hm Hh Hv Htd).
  eexists. split; [reflexivity|].
  unfold basic_record. generalize (flag b0 0x40). intros sw.
  destruct (HGuide_is_swing h), (VGuide_is_swing v), sw;
    cbn -[flag timer_hours temp];
    repeat split; try reflexivity; try discriminate; try congruence.
Qed.

Lemma basic_swing_field_witness :
  let b0 := 0x69 in
  let b4 := 0x00 in
  (Z.land 0x50 0xF0 = 0x50
   /\ Mode_of (Z.shiftr (Z.land b0 0x07) 0) = Some ModeCool
   /\ HGuide_of (Z.shiftr (Z.land b4 0xF0) 4) = Some HClosed
   /\ VGuide_of (Z.shiftr (Z.land b4 0x0F) 0) = Some VClosed)
  /\ exists rec : dict,
      result (next_data [b0; 0x09; 0x20; 0x50; b4; 0x80; 0x00; 0x80])
      = Return (Some rec)
      /\ dict_get rec "type" = Some (VStr "basic")
      /\ dict_get rec "h_guide" = Some (VHGuide HClosed)
      /\ dict_get rec "v_guide" = Some (VVGuide VClosed)
      /\ (dict_get rec "swing" = None
          <-> (HGuide_is_swing HClosed || VGuide_is_swing VClosed)
              = flag b0 0x40)
      /\ ((HGuide_is_swing HClosed || VGuide_is_swing VClosed)
          <> flag b0 0x40 ->
          dict_get rec "swing" = Some (VBool (flag b0 0x40))).
Proof.
  intros b0 b4.
  assert (H1 : Z.land 0x50 0xF0 = 0x50) by reflexivity.
  assert (H2 : Mode_of (Z.shiftr (Z.land b0 0x07) 0) = Some ModeCool)
    by reflexivity.
  assert (H3 : HGuide_of (Z.shiftr (Z.land b4 0xF0) 4) = Some HClosed)
    by reflexivity.
  assert (H4 : VGuide_of (Z.shiftr (Z.land b4 0x0F) 0) = Some VClosed)
    by reflexivity.
  split; [repeat split; assumption|].
  exact (basic_swing_field b0 0x09 0x20 0x50 b4 0x80 0x00 0x80
                           ModeCool HClosed VClosed H1 H2 H3 H4).
Defined.

(* ================================================================== *)
(** * Further properties of the script *)

(** ** Pulse classification *)

(** The thresholds behind each test. *)
Lemma is_long_start_spec (hi lo : Z) :
  is_long_start hi lo = true <-> 8000 < hi /\ lo < -4000.
Proof. unfold is_long_start. rewrite andb_true_iff, !Z.ltb_lt. tauto. Qed.

Lemma is_short_start_spec (hi lo : Z) :
  is_short_start hi lo = true
  <-> (5000 < hi < 7000) /\ (-3500 < lo < -2500).
Proof. unfold is_short_start. rewrite !andb_true_iff, !Z.ltb_lt. tauto. Qed.

Lemma is_bit_spec (hi : Z) : is_bit hi = true <-> 600 < hi < 800.
Proof. unfold is_bit. rewrite andb_true_iff, !Z.ltb_lt. tauto. Qed.

Lemma is_zero_spec (hi lo : Z) :
  is_zero hi lo = true <-> (600 < hi < 800) /\ (-600 < lo < -400).
Proof.
  unfold is_zero. rewrite !andb_true_iff, is_bit_spec, !Z.ltb_lt. tauto.
Qed.

Lemma is_one_spec (hi lo : Z) :
  is_one hi lo = true <-> (600 < hi < 800) /\ (-1700 < lo < -1500).
Proof.
  unfold is_one. rewrite !andb_true_iff, is_bit_spec, !Z.ltb_lt. tauto.
Qed.

Lemma is_space_spec (hi lo : Z) :
  is_space hi lo = true <-> (600 < hi < 800) /\ lo < -19000.
Proof.
  unfold is_space. rewrite !andb_true_iff, is_bit_spec, !Z.ltb_lt. tauto.
Qed.

Lemma not_true_false (b : bool) : b <> true -> b = false.
Proof. destruct b; congruence. Qed.

(** X1: the five tests on a pulse pair exclude each other, so the order
    in which [next_code] tries them does not matter: the element of a pair
    is S, s, 0, 1 or _ exactly when the test of that name holds, it is x
    exactly when none holds, and it is never the stop element. *)
Theorem classify_exclusive (h l : Z) :
  (classify h l = StartStandard <-> is_long_start h l = true)
  /\ (classify h l = StartShort <-> is_short_start h l = true)
  /\ (classify h l = Zero <-> is_zero h l = true)
  /\ (classify h l = One <-> is_one h l = true)
  /\ (classify h l = Space <-> is_space h l = true)
  /\ (classify h l = Invalid <->
      is_long_start h l = false /\ is_short_start h l = false
      /\ is_zero h l = false /\ is_one h l = false
      /\ is_space h l = false)
  /\ classify h l <> Stop.
Proof.
  unfold classify.
  destruct (is_long_start h l) eqn:HL.
  { apply is_long_start_spec in HL.
    assert (H1 : is_short_start h l = false)
      by (apply not_true_false; rewrite is_short_start_spec; lia).
    assert (H2 : is_zero h l = false)
      by (apply not_true_false; rewrite is_zero_spec; lia).
    assert (H3 : is_one h l = false)
      by (apply not_true_false; rewrite is_one_spec; lia).
    assert (H4 : is_space h l = false)
      by (apply not_true_false; rewrite is_space_spec; lia).
    rewrite H1, H2, H3, H4. repeat split; intuition congruence. }
  destruct (is_short_start h l) eqn:HS.
  { apply is_short_start_spec in HS.
    assert (H2 : is_zero h l = false)
      by (apply not_true_false; rewrite is_zero_spec; lia).
    assert (H3 : is_one h l = false)
      by (apply not_true_false; rewrite is_one_spec; lia).
    assert (H4 : is_space h l = false)
      by (apply not_true_false; rewrite is_space_spec; lia).
    rewrite H2, H3, H4. repeat split; intuition congruence. }
  destruct (is_zero h l) eqn:HZ.
  { apply is_zero_spec in HZ.
    assert (H3 : is_one h l = false)
      by (apply not_true_false; rewrite is_one_spec; lia).
    assert (H4 : is_space h l = false)
      by (apply not_true_false; rewrite is_space_spec; lia).
    rewrite H3, H4. repeat split; intuition congruence. }
  destruct (is_one h l) eqn:HO.
  { apply is_one_spec in HO.
    assert (H4 : is_space h l = false)
      by (apply not_true_false; rewrite is_space_spec; lia).
    rewrite H4. repeat split; intuition congruence. }
  destruct (is_space h l) eqn:HP; repeat split; intuition congruence.
Qed.

(** ** What an accepted frame looks like *)

Lemma classify_valid_bounds (h l : Z) :
  classify h l <> Invalid -> 600 < h /\ l < -400.
Proof.
  unfold classify.
  destruct (is_long_start h l) eqn:HL.
  { apply is_long_start_spec in HL. lia. }
  destruct (is_short_start h l) eqn:HS.
  { apply is_short_start_spec in HS. lia. }
  destruct (is_zero h l) eqn:HZ.
  { apply is_zero_spec in HZ. lia. }
  destruct (is_one h l) eqn:HO.
  { apply is_one_spec in HO. lia. }
  destruct (is_space h l) eqn:HP.
  { apply is_space_spec in HP. lia. }
  congruence.
Qed.

Lemma classify_start_inv (h l : Z) :
  (classify h l = StartStandard -> is_long_start h l = true)
  /\ (classify h l = StartShort -> is_short_start h l = true).
Proof.
  unfold classify.
  destruct (is_long_start h l); [split; congruence|].
  destruct (is_short_start h l); [split; congruence|].
  destruct (is_zero h l); [split; congruence|].
  destruct (is_one h l); [split; congruence|].
  destruct (is_space h l); split; congruence.
Qed.

Lemma classify_pair_symbol (h l : Z) :
  classify h l <> Invalid -> is_pair_symbol (classify h l) = true.
Proof.
  unfold classify.
  repeat match goal with
         | |- context [if ?c then _ else _] => destruct c
         end; try reflexivity. congruence.
Qed.

Lemma contains_false_forall (c : Symbol) (code : Code) :
  contains c code = false <-> Forall (fun x => x <> c) code.
Proof.
  unfold contains. induction code as [|x code IH]; cbn [existsb].
  - split; [constructor | reflexivity].
  - rewrite orb_false_iff, IH. split.
    + intros [Hx Hc]. constructor; [|exact Hc].
      intros ->. destruct c; discriminate Hx.
    + intros H. inversion H; subst. split; [|assumption].
      destruct c, x; try reflexivity; congruence.
Qed.

(** The parts of an accepted code. *)
Lemma next_code_accepted_parts (timings : list Z) (code : Code) :
  result (next_code timings) = Return (Some code) ->
  code = map (fun p => classify (fst p) (snd p)) (pairs timings) ++ [Stop]
  /\ is_bit (last timings 0) = true
  /\ Forall (fun p => classify (fst p) (snd p) <> Invalid) (pairs timings).
Proof.
  intros H. apply next_code_accepts in H.
  destruct H as (Hc & _ & Hx & _).
  rewrite Hc in Hx. unfold current_code in Hx.
  apply contains_false_forall in Hx. apply Forall_app in Hx.
  destruct Hx as [Hp Hs]. rewrite Forall_map in Hp.
  apply Forall_inv in Hs.
  destruct (is_bit (last timings 0)) eqn:Hb; [|congruence].
  split; [|split; [reflexivity | exact Hp]].
  rewrite Hc. unfold current_code. rewrite Hb. reflexivity.
Qed.

(** X2: a frame that [next_code] accepts has every high duration above
    600us and every low duration below -400us, and its closing burst is
    between 600us and 800us; a capture with the signal inverted or with a
    single short glitch is never decoded. *)
Theorem next_code_accepted_bounds (timings : list Z) (code : Code) :
  result (next_code timings) = Return (Some code) ->
  Forall (fun p => 600 < fst p /\ snd p < -400) (pairs timings)
  /\ 600 < last timings 0 < 800.
Proof.
  intros H. apply next_code_accepted_parts in H.
  destruct H as (_ & Hb & Hp). split.
  - eapply Forall_impl; [|exact Hp].
    intros p Hv. apply classify_valid_bounds, Hv.
  - apply is_bit_spec, Hb.
Qed.

Lemma next_code_accepted_bounds_witness :
  result (next_code (frame_of sample_code)) = Return (Some sample_code)
  /\ Forall (fun p => 600 < fst p /\ snd p < -400)
            (pairs (frame_of sample_code))
  /\ 600 < last (frame_of sample_code) 0 < 800.
Proof.
  assert (H : result (next_code (frame_of sample_code))
              = Return (Some sample_code)) by (vm_compute; reflexivity).
  split; [exact H|].
  exact (next_code_accepted_bounds (frame_of sample_code) sample_code H).
Defined.

(** X3: [next_code] accepts frames of exactly 139 durations that open
    with a standard start pair and frames of exactly 35 durations that
    open with a short start pair, and no others; the accepted code is the
    elements of the pairs, none of them x or $, followed by one $. *)
Theorem next_code_accepted_shape (timings : list Z) (code : Code) :
  result (next_code timings) = Return (Some code) ->
  ((List.length timings = 139%nat
    /\ is_long_start (nth 0 timings 0) (nth 1 timings 0) = true
    /\ hd Invalid code = StartStandard)
   \/ (List.length timings = 35%nat
       /\ is_short_start (nth 0 timings 0) (nth 1 timings 0) = true
       /\ hd Invalid code = StartShort))
  /\ exists body : Code,
      code = body ++ [Stop]
      /\ forallb is_pair_symbol body = true
      /\ List.length timings = (2 * List.length body + 1)%nat.
Proof.
  intros H. pose proof (next_code_accepted_parts timings code H) as P.
  destruct P as (Hc & _ & Hp).
  apply next_code_accepts in H.
  destruct H as (_ & Hodd & _ & Hshape).
  assert (Hlen : len code = Z.of_nat (List.length timings / 2) + 1).
  { rewrite Hc. unfold len.
    rewrite length_app, length_map, length_pairs. cbn [List.length]. lia. }
  assert (Hparity : (List.length timings mod 2 = 1)%nat).
  { unfold len in Hodd. change 2 with (Z.of_nat 2) in Hodd.
    rewrite <- Nat2Z.inj_mod in Hodd.
    pose proof (Nat.mod_upper_bound (List.length timings) 2). lia. }
  pose proof (Nat.div_mod_eq (List.length timings) 2) as Hdm.
  assert (Hhd : forall t0 t1 rest, timings = t0 :: t1 :: rest ->
                                   hd Invalid code = classify t0 t1).
  { intros t0 t1 rest ->. rewrite Hc, pairs_cons2. reflexivity. }
  split.
  - destruct Hshape as [(Hh & _ & _ & Hl)|(Hh & _ & _ & Hl)].
    + left. assert (Hn : List.length timings = 139%nat) by lia.
      destruct timings as [|t0 [|t1 rest]]; try discriminate Hn.
      split; [exact Hn|]. split; [|exact Hh].
      cbn [nth]. apply classify_start_inv.
      rewrite <- (Hhd t0 t1 rest eq_refl). exact Hh.
    + right. assert (Hn : List.length timings = 35%nat) by lia.
      destruct timings as [|t0 [|t1 rest]]; try discriminate Hn.
      split; [exact Hn|]. split; [|exact Hh].
      cbn [nth]. apply classify_start_inv.
      rewrite <- (Hhd t0 t1 rest eq_refl). exact Hh.
  - exists (map (fun p => classify (fst p) (snd p)) (pairs timings)).
    split; [exact Hc|]. split.
    + apply forallb_forall. intros x Hx. apply in_map_iff in Hx.
      destruct Hx as (p & <- & Hin). apply classify_pair_symbol.
      rewrite Forall_forall in Hp. apply Hp, Hin.
    + rewrite length_map, length_pairs. lia.
Qed.

Lemma next_code_accepted_shape_witness :
  result (next_code (frame_of sample_code)) = Return (Some sample_code)
  /\ ((List.length (frame_of sample_code) = 139%nat
       /\ is_long_start (nth 0 (frame_of sample_code) 0)
                        (nth 1 (frame_of sample_code) 0) = true
       /\ hd Invalid sample_code = StartStandard)
      \/ (List.length (frame_of sample_code) = 35%nat
          /\ is_short_start (nth 0 (frame_of sample_code) 0)
                            (nth 1 (frame_of sample_code) 0) = true
          /\ hd Invalid sample_code = StartShort))
  /\ exists body : Code,
      sample_code = body ++ [Stop]
      /\ forallb is_pair_symbol body = true
      /\ List.length (frame_of sample_code)
         = (2 * List.length body + 1)%nat.
Proof.
  assert (H : result (next_code (frame_of sample_code))
              = Return (Some sample_code)) by (vm_compute; reflexivity).
  split; [exact H|].
  exact (next_code_accepted_shape (frame_of sample_code) sample_code H).
Defined.

(** ** Frame reassembly, continued *)

(** The outcome and the new buffer depend on the collected durations
    only. *)
Lemma next_frame_collected (r r' : bool) (t t' b b' : list Z) :
  collected r t b = collected r' t' b' ->
  snd (next_frame r t b) = snd (next_frame r' t' b').
Proof.
  intros H. unfold next_frame. rewrite H.
  destruct (collected r' t' b') as [|hi [|lo rest]]; try reflexivity.
  destruct (is_long_start hi lo && _); [reflexivity|].
  destruct (is_short_start hi lo && _); reflexivity.
Qed.

Lemma next_frame_none_buffer (r : bool) (t b : list Z) :
  snd (snd (next_frame r t b)) = Return None ->
  fst (snd (next_frame r t b)) = collected r t b.
Proof.
  unfold next_frame. destruct (collected r t b) as [|hi [|lo rest]];
    try discriminate.
  destruct (is_long_start hi lo && _); [discriminate|].
  destruct (is_short_start hi lo && _); [discriminate|]. reflexivity.
Qed.

(** X4: [next_frame] returns a frame only when the collected durations
    open with a standard start pair and number at least 139, or open with
    a short start pair and number at least 35, and the frame is then all
    of them; it empties the buffer exactly when it returns a frame, and
    otherwise keeps every collected duration. *)
Theorem next_frame_outcome (received : bool) (timings buf : list Z) :
  let cf := collected received timings buf in
  let complete :=
    (is_long_start (nth 0 cf 0) (nth 1 cf 0) && (139 <=? len cf))
    || (is_short_start (nth 0 cf 0) (nth 1 cf 0) && (35 <=? len cf)) in
  (forall frame,
      snd (snd (next_frame received timings buf)) = Return (Some frame)
      <-> frame = cf /\ complete = true)
  /\ (snd (snd (next_frame received timings buf)) = Return None
      <-> 2 <= len cf /\ complete = false)
  /\ fst (snd (next_frame received timings buf))
     = (if complete then [] else cf).
Proof.
  intros cf complete. subst complete. unfold next_frame. fold cf.
  destruct cf as [|hi [|lo rest]].
  - cbn. repeat split; intros; try discriminate; intuition (try discriminate; try lia).
  - cbn [nth]. change (139 <=? len [hi]) with false.
    change (35 <=? len [hi]) with false. rewrite !andb_false_r. cbn.
    repeat split; intros; try discriminate;
      intuition (try discriminate; try (unfold len in *; cbn in *; lia)).
  - cbn [nth].
    assert (H2 : 2 <= len (hi :: lo :: rest)).
    { rewrite !len_cons. pose proof (len_nonneg rest). lia. }
    destruct (is_long_start hi lo && (139 <=? len (hi :: lo :: rest))).
    { cbn [orb snd fst]. repeat split; intros; try discriminate.
      - inversion H. reflexivity.
      - destruct H as [-> _]. reflexivity.
      - destruct H. discriminate. }
    destruct (is_short_start hi lo && (35 <=? len (hi :: lo :: rest))).
    { cbn [orb snd fst]. repeat split; intros; try discriminate.
      - inversion H. reflexivity.
      - destruct H as [-> _]. reflexivity.
      - destruct H. discriminate. }
    cbn [orb snd fst]. repeat split; intros; try discriminate;
      try assumption.
    destruct H. discriminate.
Qed.

(** X5: reassembly does not depend on how the log splits a frame into
    lines.  When a call returns nothing, feeding the next continuation
    chunk gives the frame and the buffer that the two chunks would have
    given as one. *)
Theorem next_frame_chunks (received : bool) (t1 t2 buf : list Z) :
  snd (snd (next_frame received t1 buf)) = Return None ->
  snd (next_frame false t2 (fst (snd (next_frame received t1 buf))))
  = snd (next_frame received (t1 ++ t2) buf).
Proof.
  intros H. rewrite (next_frame_none_buffer received t1 buf H).
  apply next_frame_collected. unfold collected.
  destruct received; [reflexivity | symmetry; apply app_assoc].
Qed.

Lemma next_frame_chunks_witness :
  let t1 := 9000 :: -4500 :: repeat 700 60 in
  let t2 := repeat 700 77 in
  snd (snd (next_frame true t1 [1; 2; 3])) = Return None
  /\ snd (next_frame false t2 (fst (snd (next_frame true t1 [1; 2; 3]))))
     = snd (next_frame true (t1 ++ t2) [1; 2; 3]).
Proof.
  intros t1 t2.
  assert (H : snd (snd (next_frame true t1 [1; 2; 3])) = Return None)
    by (vm_compute; reflexivity).
  split; [exact H | exact (next_frame_chunks true t1 t2 [1; 2; 3] H)].
Defined.

(** ** Byte extraction, continued *)

Lemma mapM_result {A B} (f : A -> Py B) (l : list A) (bs : list B) :
  result (mapM f l) = Return bs ->
  Forall2 (fun a b => result (f a) = Return b) l bs.
Proof.
  revert bs. induction l as [|a l IH]; intros bs; cbn [mapM].
  - rewrite result_ret. intros H. inversion H. constructor.
  - rewrite result_bind. destruct (result (f a)) as [b|e] eqn:Hb;
      [|discriminate].
    rewrite result_bind. destruct (result (mapM f l)) as [bs'|e] eqn:Hl;
      [|discriminate].
    rewrite result_ret. intros H. inversion H; subst.
    constructor; [exact Hb | apply IH; reflexivity].
Qed.

Lemma int2_from_sound (s : Code) :
  forall acc v, 0 <= acc -> int2_from acc s = Some v ->
    (0 <= v < (acc + 1) * 2 ^ Z.of_nat (List.length s))
    /\ Forall digit_or_space s.
Proof.
  induction s as [|c s IH]; intros acc v Hacc H.
  - cbn in H. inversion H; subst. cbn. split; [lia | constructor].
  - assert (Hp : 0 < 2 ^ Z.of_nat (List.length s))
      by (apply Z.pow_pos_nonneg; lia).
    cbn [List.length]. rewrite Nat2Z.inj_succ, Z.pow_succ_r by lia.
    destruct c; try discriminate H.
    + cbn [int2_from] in H. apply IH in H; [|lia].
      destruct H as [Hv Hs]. split; [nia|].
      constructor; [left; reflexivity | exact Hs].
    + cbn [int2_from] in H. apply IH in H; [|lia].
      destruct H as [Hv Hs]. split; [nia|].
      constructor; [right; left; reflexivity | exact Hs].
    + assert (H' : int2_from acc s = Some v).
      { destruct s as [|[] s']; try discriminate H; exact H. }
      apply IH in H'; [|lia].
      destruct H' as [Hv Hs]. split; [nia|].
      constructor; [right; right; reflexivity | exact Hs].
Qed.

Lemma int2_sound (s : Code) (v : Z) :
  int2 s = Some v ->
  (0 <= v < 2 ^ Z.of_nat (List.length s)) /\ Forall digit_or_space s.
Proof.
  intros H.
  assert (H' : int2_from 0 s = Some v).
  { destruct s as [|[] s']; try discriminate H; exact H. }
  apply int2_from_sound in H'; [|lia].
  destruct H' as [Hv Hs]. split; [lia | exact Hs].
Qed.

(** Every symbol lies in the run of eight that covers its index. *)
Lemma in_some_slice {A} (l : list A) (x : A) :
  In x l ->
  exists i, In i (range (List.length l) 8) /\ In x (slice l i (i + 8)).
Proof.
  intros Hx. destruct (In_nth l x x Hx) as (k & Hk & Hnth).
  exists (k / 8 * 8)%nat.
  pose proof (Nat.div_mod_eq k 8) as Hdm.
  pose proof (Nat.mod_upper_bound k 8) as Hm.
  split.
  - unfold range. apply in_map_iff. exists (k / 8)%nat.
    split; [reflexivity|]. apply in_seq. split; [lia|].
    cbn [Nat.add].
    assert (Hle : (k + 8 <= List.length l + 8 - 1)%nat) by lia.
    apply (Nat.Div0.div_le_mono _ _ 8) in Hle.
    replace (k + 8)%nat with (k + 1 * 8)%nat in Hle by lia.
    rewrite Nat.div_add in Hle by lia. lia.
  - rewrite <- Hnth.
    replace k with (k / 8 * 8 + k mod 8)%nat at 1 by lia.
    rewrite <- (nth_slice8 l (k / 8) (k mod 8) x) by lia.
    apply nth_In. unfold slice. rewrite length_firstn, length_skipn. lia.
Qed.

Lemma next_bytes_returned (code : Code) (bytes : list Z) :
  result (next_bytes code) = Return (Some bytes) ->
  len (payload_bits code) mod 8 = 0
  /\ Forall2 (fun i b => int2 (rev (slice (payload_bits code) i (i + 8)))
                         = Some b)
             (range (List.length (payload_bits code)) 8) bytes.
Proof.
  unfold next_bytes. fold (payload_bits code). unfold neqb.
  destruct (Z.eqb_spec (len (payload_bits code) mod 8) 0) as [He|He];
    cbn [negb]; [|discriminate].
  rewrite result_bind.
  destruct (result (mapM _ _)) as [bs|e] eqn:Hm; [|discriminate].
  rewrite result_ret. intros H. inversion H; subst. split; [exact He|].
  apply mapM_result in Hm. eapply Forall2_impl; [|exact Hm].
  intros i b Hb. cbv beta in Hb.
  destruct (int2 _) as [v|]; [|discriminate Hb].
  cbn in Hb. inversion Hb. reflexivity.
Qed.

(** X6: whatever code [next_bytes] is given, the bytes it returns are
    integers from 0 to 255, one for every eight symbols left after
    stripping, and it returns bytes only when those symbols are data bits
    and spaces: a start symbol left in the payload never turns into data. *)
Theorem next_bytes_returns_bytes (code : Code) (bytes : list Z) :
  result (next_bytes code) = Return (Some bytes) ->
  Forall is_byte bytes
  /\ (8 * List.length bytes = List.length (payload_bits code))%nat
  /\ Forall digit_or_space (payload_bits code).
Proof.
  intros H. apply next_bytes_returned in H. destruct H as [Hmod H2].
  set (bits := payload_bits code) in *.
  assert (Hn : (List.length bits mod 8 = 0)%nat).
  { unfold len in Hmod. change 8 with (Z.of_nat 8) in Hmod.
    rewrite <- Nat2Z.inj_mod in Hmod. lia. }
  split; [|split].
  - clear Hmod Hn. induction H2 as [|i b ixs bs Hi _ IH]; constructor.
    + apply int2_sound in Hi. destruct Hi as [Hv _].
      assert (Hl : (List.length (rev (slice bits i (i + 8))) <= 8)%nat).
      { rewrite length_rev. unfold slice. rewrite length_firstn. lia. }
      assert (Hp : 2 ^ Z.of_nat (List.length (rev (slice bits i (i + 8))))
                   <= 2 ^ 8) by (apply Z.pow_le_mono_r; lia).
      unfold is_byte. change (2 ^ 8) with 256 in Hp. lia.
    + exact IH.
  - apply Forall2_length in H2. rewrite <- H2, length_range8 by exact Hn.
    apply Nat.Div0.div_exact in Hn. lia.
  - apply Forall_forall. intros x Hx.
    destruct (in_some_slice bits x Hx) as (i & Hi & Hin).
    assert (Hc : exists b, int2 (rev (slice bits i (i + 8))) = Some b).
    { clear - H2 Hi. induction H2 as [|j b js bs Hj _ IH].
      - destruct Hi.
      - destruct Hi as [<-|Hi]; [exists b; exact Hj | apply IH, Hi]. }
    destruct Hc as [b Hb]. apply int2_sound in Hb. destruct Hb as [_ Hs].
    rewrite Forall_forall in Hs. apply Hs, in_rev.
    rewrite rev_involutive. exact Hin.
Qed.

Lemma next_bytes_returns_bytes_witness :
  result (next_bytes sample_code) = Return (Some sample_bytes)
  /\ Forall is_byte sample_bytes
  /\ (8 * List.length sample_bytes
      = List.length (payload_bits sample_code))%nat
  /\ Forall digit_or_space (payload_bits sample_code).
Proof.
  assert (H : result (next_bytes sample_code) = Return (Some sample_bytes))
    by (vm_compute; reflexivity).
  split; [exact H | exact (next_bytes_returns_bytes sample_code sample_bytes H)].
Defined.

(** ** Checksum, continued *)

Lemma low_nibble_range (b : Z) : 0 <= Z.land b 0x0F < 16.
Proof. rewrite land_15_mod. apply Z.mod_pos_bound. reflexivity. Qed.

Lemma high_nibble_range (b : Z) : 0 <= Z.shiftr (Z.land b 0xF0) 4 < 16.
Proof. rewrite high_nibble_mod. apply Z.mod_pos_bound. reflexivity. Qed.

Lemma checksum_nibble_range (i : nat) (b : Z) : 0 <= checksum_nibble i b < 16.
Proof.
  unfold checksum_nibble. destruct (i <? 4)%nat;
    [apply low_nibble_range | apply high_nibble_range].
Qed.

(** The sum the script reduces modulo 16, in terms of the nibbles. *)
Lemma match_checksum_sum (b0 b1 b2 b3 b4 b5 b6 b7 : Z) :
  result (match_checksum [b0; b1; b2; b3; b4; b5; b6; b7])
  = Return (Z.shiftr (Z.land b7 0xF0) 4
            =? (checksum_nibble 0 b0 + checksum_nibble 1 b1
                + checksum_nibble 2 b2 + checksum_nibble 3 b3
                + checksum_nibble 4 b4 + checksum_nibble 5 b5
                + checksum_nibble 6 b6 + 0x0A) mod 16).
Proof.
  rewrite match_checksum_8. cbv zeta. unfold result. cbn [snd].
  rewrite land_15_mod. reflexivity.
Qed.

(** X7: the checksum notices every change of a single nibble that
    enters it.  If a payload of 8 bytes passes [match_checksum] and still
    passes after one of the bytes 0 to 6 was replaced, the replaced byte
    has the same checksum nibble (low for bytes 0 to 3, high for bytes 4
    to 6) as the original. *)
Theorem match_checksum_detects_nibble (bytes : list Z) (i : nat) (c : Z) :
  List.length bytes = 8%nat ->
  (i < 7)%nat ->
  result (match_checksum bytes) = Return true ->
  result (match_checksum (set_byte bytes i c)) = Return true ->
  checksum_nibble i c = checksum_nibble i (nth i bytes 0).
Proof.
  intros Hl Hi.
  destruct bytes as [|b0 [|b1 [|b2 [|b3 [|b4 [|b5 [|b6 [|b7 [|b8 r]]]]]]]]];
    try discriminate Hl.
  pose proof (checksum_nibble_range 0 b0).
  pose proof (checksum_nibble_range 1 b1).
  pose proof (checksum_nibble_range 2 b2).
  pose proof (checksum_nibble_range 3 b3).
  pose proof (checksum_nibble_range 4 b4).
  pose proof (checksum_nibble_range 5 b5).
  pose proof (checksum_nibble_range 6 b6).
  pose proof (checksum_nibble_range i c) as Hc.
  rewrite match_checksum_sum. intros E1. injection E1 as E1.
  apply Z.eqb_eq in E1.
  do 7 (destruct i as [|i]; [
    unfold set_byte; cbn [firstn skipn app nth];
    rewrite match_checksum_sum; intros E2; injection E2 as E2;
    apply Z.eqb_eq in E2; rewrite E1 in E2;
    Z.div_mod_to_equations; lia |]).
  lia.
Qed.

Lemma match_checksum_detects_nibble_witness :
  let bytes := [0x29; 0x09; 0x20; 0x50; 0x00; 0x80; 0x00; 0x40] in
  (List.length bytes = 8%nat
   /\ (4 < 7)%nat
   /\ result (match_checksum bytes) = Return true
   /\ result (match_checksum (set_byte bytes 4 0x0F)) = Return true)
  /\ checksum_nibble 4 0x0F = checksum_nibble 4 (nth 4 bytes 0).
Proof.
  intros bytes.
  assert (H1 : List.length bytes = 8%nat) by reflexivity.
  assert (H2 : (4 < 7)%nat) by lia.
  assert (H3 : result (match_checksum bytes) = Return true)
    by (vm_compute; reflexivity).
  assert (H4 : result (match_checksum (set_byte bytes 4 0x0F)) = Return true)
    by (vm_compute; reflexivity).
  split; [repeat split; assumption|].
  exact (match_checksum_detects_nibble bytes 4 0x0F H1 H2 H3 H4).
Defined.

(** X8: for every choice of the bytes 0 to 6 and of the low nibble of
    byte 7 there is exactly one high nibble of byte 7 with which the
    payload passes [match_checksum]. *)
Theorem match_checksum_unique_nibble (b0 b1 b2 b3 b4 b5 b6 low : Z) :
  0 <= low < 16 ->
  exists hi : Z,
    (0 <= hi < 16
     /\ result (match_checksum [b0; b1; b2; b3; b4; b5; b6; 16 * hi + low])
        = Return true)
    /\ forall hi' : Z,
        0 <= hi' < 16 ->
        result (match_checksum [b0; b1; b2; b3; b4; b5; b6; 16 * hi' + low])
        = Return true ->
        hi' = hi.
Proof.
  intros Hlow.
  assert (Horig : forall hi, 0 <= hi < 16 ->
                    Z.shiftr (Z.land (16 * hi + low) 0xF0) 4 = hi).
  { intros hi Hhi. rewrite high_nibble_mod, Z.shiftr_div_pow2 by lia.
    change (2 ^ 4) with 16.
    replace ((16 * hi + low) / 16) with hi
      by (Z.div_mod_to_equations; lia).
    apply Z.mod_small. exact Hhi. }
  set (calc := (checksum_nibble 0 b0 + checksum_nibble 1 b1
                + checksum_nibble 2 b2 + checksum_nibble 3 b3
                + checksum_nibble 4 b4 + checksum_nibble 5 b5
                + checksum_nibble 6 b6 + 0x0A) mod 16).
  assert (Hcalc : 0 <= calc < 16)
    by (apply Z.mod_pos_bound; reflexivity).
  exists calc. split; [split; [exact Hcalc|]|].
  - rewrite match_checksum_sum, (Horig calc Hcalc). fold calc.
    rewrite Z.eqb_refl. reflexivity.
  - intros hi' Hhi'. rewrite match_checksum_sum, (Horig hi' Hhi').
    fold calc. intros E1. injection E1 as E1. apply Z.eqb_eq in E1.
    exact E1.
Qed.

Lemma match_checksum_unique_nibble_witness :
  0 <= 0 < 16
  /\ exists hi : Z,
    (0 <= hi < 16
     /\ result (match_checksum
                  [0x29; 0x09; 0x20; 0x50; 0x00; 0x80; 0x00; 16 * hi + 0])
        = Return true)
    /\ forall hi' : Z,
        0 <= hi' < 16 ->
        result (match_checksum
                  [0x29; 0x09; 0x20; 0x50; 0x00; 0x80; 0x00; 16 * hi' + 0])
        = Return true ->
        hi' = hi.
Proof.
  assert (H : 0 <= 0 < 16) by lia.
  split; [exact H|].
  exact (match_checksum_unique_nibble 0x29 0x09 0x20 0x50 0x00 0x80 0x00 0 H).
Defined.

(** ** Field decoding, continued *)

(** X9: the only exception [next_data] can end with is the [ValueError]
    of an enumeration, and it does so exactly on a payload of 8 bytes
    whose mode bits, for a Basic or a Timer frame, or whose air guide
    nibbles, for a Basic frame, are not the value of a member; no list
    index or record key is ever missing. *)
Theorem next_data_raises (bytes : list Z) (e : exn) :
  result (next_data bytes) = Raise e
  <-> e = ValueError
      /\ len bytes = 8
      /\ ((Z.land (nth 3 bytes 0) 0xF0 = 0x50
           /\ (Mode_of (Z.shiftr (Z.land (nth 0 bytes 0) 0x07) 0) = None
               \/ HGuide_of (Z.shiftr (Z.land (nth 4 bytes 0) 0xF0) 4) = None
               \/ VGuide_of (Z.shiftr (Z.land (nth 4 bytes 0) 0x0F) 0)
                  = None))
          \/ (Z.land (nth 3 bytes 0) 0xF0 = 0x60
              /\ Mode_of (Z.shiftr (Z.land (nth 0 bytes 0) 0x07) 0) = None)).
Proof.
  destruct (Z.eq_dec (len bytes) 8) as [H8|H8].
  2:{ rewrite (next_data_other_length bytes H8).
      split; [|intros (_ & H & _); contradiction].
      destruct (Z.eq_dec (len bytes) 2) as [H2|H2].
      - destruct bytes as [|b0 [|b1 [|b2 r]]];
          try (unfold len in H2; cbn [List.length] in H2; lia).
        pose proof (next_data_temp b0 b1) as T.
        rewrite (next_data_other_length [b0; b1] H8) in T.
        rewrite T. discriminate.
      - rewrite (next_data_rest_result bytes H2). discriminate. }
  destruct bytes as [|b0 [|b1 [|b2 [|b3 [|b4 [|b5 [|b6 [|b7 [|b8 r]]]]]]]]];
    try (unfold len in H8; cbn [List.length] in H8; lia).
  cbn [nth].
  destruct (Fan_of_total b0) as [f Hf].
  destruct (TempDisplay_of_total b5) as [td Htd].
  destruct (Z.eq_dec (Z.land b3 0xF0) 0x50) as [T5|T5].
  { destruct (Mode_of (Z.shiftr (Z.land b0 0x07) 0)) as [m|] eqn:Hm.
    - destruct (HGuide_of (Z.shiftr (Z.land b4 0xF0) 4)) as [h|] eqn:Hh.
      + destruct (VGuide_of (Z.shiftr (Z.land b4 0x0F) 0)) as [v|] eqn:Hv.
        * rewrite (next_data_basic b0 b1 b2 b3 b4 b5 b6 b7 f m h v td
                                   T5 Hf Hm Hh Hv Htd).
          split; [discriminate|].
          intros (_ & _ & [(_ & [H|[H|H]])|(H & _)]);
            try discriminate H. rewrite T5 in H. discriminate H.
        * rewrite (next_data_basic_raises b0 b1 b2 b3 b4 b5 b6 b7 T5)
            by (rewrite Hv; tauto).
          split; [intros H; injection H as <-; tauto|].
          intros (-> & _); reflexivity.
      + rewrite (next_data_basic_raises b0 b1 b2 b3 b4 b5 b6 b7 T5)
          by (rewrite Hh; tauto).
        split; [intros H; injection H as <-; tauto|].
        intros (-> & _); reflexivity.
    - rewrite (next_data_basic_raises b0 b1 b2 b3 b4 b5 b6 b7 T5)
        by (rewrite Hm; tauto).
      split; [intros H; injection H as <-; tauto|].
      intros (-> & _); reflexivity. }
  destruct (Z.eq_dec (Z.land b3 0xF0) 0x60) as [T6|T6].
  { destruct (Mode_of (Z.shiftr (Z.land b0 0x07) 0)) as [m|] eqn:Hm.
    - rewrite (next_data_timer b0 b1 b2 b3 b4 b5 b6 b7 f m T6 Hf Hm).
      split; [discriminate|].
      intros (_ & _ & [(H & _)|(_ & H)]); [contradiction | discriminate H].
    - rewrite (next_data_timer_raises b0 b1 b2 b3 b4 b5 b6 b7 T6 Hm).
      split; [intros H; injection H as <-; tauto|].
      intros (-> & _); reflexivity. }
  split; [|intros (_ & _ & [(H & _)|(H & _)]); contradiction].
  rewrite next_data_8.
  destruct (Z.eqb_spec (Z.land b3 0xF0) 0x50); [contradiction|].
  destruct (Z.eqb_spec (Z.land b3 0xF0) 0x60); [contradiction|].
  destruct (Z.eqb_spec (Z.land b3 0xF0) 0xA0) as [TA|TA]; [|discriminate].
  pose proof (next_data_footer b0 b1 b2 b3 b4 b5 b6 b7 TA) as F.
  rewrite next_data_8 in F.
  destruct (Z.eqb_spec (Z.land b3 0xF0) 0x50); [contradiction|].
  destruct (Z.eqb_spec (Z.land b3 0xF0) 0x60); [contradiction|].
  destruct (Z.eqb_spec (Z.land b3 0xF0) 0xA0); [|contradiction].
  rewrite F. discriminate.
Qed.

(** ** Numbers in the records *)

(** A property checked on the 256 bytes holds of every byte. *)
Lemma forall_byte (P : Z -> bool) :
  forallb P (map Z.of_nat (seq 0 256)) = true ->
  forall b, is_byte b -> P b = true.
Proof.
  intros H b Hb. rewrite forallb_forall in H. apply H.
  apply in_map_iff. exists (Z.to_nat b). unfold is_byte in Hb.
  split; [lia | apply in_seq; lia].
Qed.

Lemma forall_byte2 (P : Z -> Z -> bool) :
  forallb (fun a => forallb (P a) (map Z.of_nat (seq 0 256)))
          (map Z.of_nat (seq 0 256)) = true ->
  forall a b, is_byte a -> is_byte b -> P a b = true.
Proof.
  intros H a b Ha Hb.
  apply (forall_byte (P a)); [|exact Hb].
  apply (forall_byte (fun a => forallb (P a) (map Z.of_nat (seq 0 256))));
    assumption.
Qed.

Lemma on_mins_bytes (b4 b5 : Z) :
  is_byte b4 -> is_byte b5 ->
  Z.lor (Z.shiftl (Z.land b5 0x07) 8) (Z.shiftl b4 0)
  = 256 * (b5 mod 8) + b4.
Proof.
  intros H4 H5. apply Z.eqb_eq.
  apply (forall_byte2
           (fun b4 b5 => Z.lor (Z.shiftl (Z.land b5 0x07) 8) (Z.shiftl b4 0)
                         =? 256 * (b5 mod 8) + b4)); try assumption.
  vm_compute. reflexivity.
Qed.

Lemma off_mins_bytes (b5 b6 : Z) :
  is_byte b5 -> is_byte b6 ->
  Z.lor (Z.shiftl b6 4) (Z.shiftr (Z.land b5 0x70) 4)
  = 16 * b6 + (b5 / 16) mod 8.
Proof.
  intros H5 H6. apply Z.eqb_eq.
  apply (forall_byte2
           (fun b5 b6 => Z.lor (Z.shiftl b6 4) (Z.shiftr (Z.land b5 0x70) 4)
                         =? 16 * b6 + (b5 / 16) mod 8)); try assumption.
  vm_compute. reflexivity.
Qed.

(** X10: in the record of a Timer frame, [on_mins] is byte 4 plus 256
    times the low three bits of byte 5, a number of minutes from 0 to
    2047, and [off_mins] is 16 times byte 6 plus bits 4 to 6 of byte 5, a
    number from 0 to 4087. *)
Theorem next_data_timer_minutes (b0 b1 b2 b3 b4 b5 b6 b7 : Z) (m : Mode) :
  Forall is_byte [b0; b1; b2; b3; b4; b5; b6; b7] ->
  Z.land b3 0xF0 = 0x60 ->
  Mode_of (Z.shiftr (Z.land b0 0x07) 0) = Some m ->
  exists (rec : dict) (on_mins off_mins : Z),
    result (next_data [b0; b1; b2; b3; b4; b5; b6; b7]) = Return (Some rec)
    /\ dict_get rec "type" = Some (VStr "timer")
    /\ dict_get rec "on_mins" = Some (VInt on_mins)
    /\ dict_get rec "off_mins" = Some (VInt off_mins)
    /\ on_mins = 256 * (b5 mod 8) + b4
    /\ off_mins = 16 * b6 + (b5 / 16) mod 8
    /\ 0 <= on_mins <= 2047
    /\ 0 <= off_mins <= 4087.
Proof.
  intros Hb Ht Hm.
  assert (H4 : is_byte b4) by (rewrite Forall_forall in Hb; apply Hb; cbn; tauto).
  assert (H5 : is_byte b5) by (rewrite Forall_forall in Hb; apply Hb; cbn; tauto).
  assert (H6 : is_byte b6) by (rewrite Forall_forall in Hb; apply Hb; cbn; tauto).
  destruct (Fan_of_total b0) as [f Hf].
  rewrite (next_data_timer b0 b1 b2 b3 b4 b5 b6 b7 f m Ht Hf Hm).
  exists (timer_record b0 b1 b2 b3 b4 b5 b6 b7 f m).
  exists (256 * (b5 mod 8) + b4), (16 * b6 + (b5 / 16) mod 8).
  unfold is_byte in H4, H5, H6.
  pose proof (Z.mod_pos_bound b5 8 eq_refl).
  pose proof (Z.mod_pos_bound (b5 / 16) 8 eq_refl).
  repeat split; try reflexivity; try lia.
  - unfold timer_record. cbn -[flag timer_hours temp Z.lor Z.shiftl Z.land].
    rewrite on_mins_bytes by assumption. reflexivity.
  - unfold timer_record.
    cbn -[flag timer_hours temp Z.lor Z.shiftl Z.shiftr Z.land].
    rewrite off_mins_bytes by assumption. reflexivity.
Qed.

Lemma next_data_timer_minutes_witness :
  (Forall is_byte [0x09; 0x89; 0x21; 0x60; 0x2C; 0x19; 0x04; 0x32]
   /\ Z.land 0x60 0xF0 = 0x60
   /\ Mode_of (Z.shiftr (Z.land 0x09 0x07) 0) = Some ModeCool)
  /\ exists (rec : dict) (on_mins off_mins : Z),
    result (next_data [0x09; 0x89; 0x21; 0x60; 0x2C; 0x19; 0x04; 0x32])
    = Return (Some rec)
    /\ dict_get rec "type" = Some (VStr "timer")
    /\ dict_get rec "on_mins" = Some (VInt on_mins)
    /\ dict_get rec "off_mins" = Some (VInt off_mins)
    /\ on_mins = 256 * (0x19 mod 8) + 0x2C
    /\ off_mins = 16 * 0x04 + (0x19 / 16) mod 8
    /\ 0 <= on_mins <= 2047
    /\ 0 <= off_mins <= 4087.
Proof.
  assert (H1 : Forall is_byte [0x09; 0x89; 0x21; 0x60; 0x2C; 0x19; 0x04; 0x32])
    by (repeat constructor; unfold is_byte; lia).
  assert (H2 : Z.land 0x60 0xF0 = 0x60) by reflexivity.
  assert (H3 : Mode_of (Z.shiftr (Z.land 0x09 0x07) 0) = Some ModeCool)
    by reflexivity.
  split; [repeat split; assumption|].
  exact (next_data_timer_minutes 0x09 0x89 0x21 0x60 0x2C 0x19 0x04 0x32
                                 ModeCool H1 H2 H3).
Defined.

Lemma temp_value (b1 b3 : Z) :
  is_byte b3 ->
  (temp b1 b3 == (32 + 2 * (b1 mod 16) + (b3 / 4) mod 2) # 2)%Q.
Proof.
  intros H3. unfold temp. rewrite land_15_mod.
  assert (E : flag b3 4 = ((b3 / 4) mod 2 =? 1)).
  { apply eqb_prop.
    apply (forall_byte
             (fun b => Bool.eqb (flag b 4) ((b / 4) mod 2 =? 1)));
      [vm_compute; reflexivity | exact H3]. }
  rewrite E.
  pose proof (Z.mod_pos_bound (b3 / 4) 2 eq_refl).
  destruct (Z.eqb_spec ((b3 / 4) mod 2) 1) as [->|Hn].
  - unfold Qeq, Qplus, inject_Z. cbn [Qnum Qden]. lia.
  - replace ((b3 / 4) mod 2) with 0 by lia.
    unfold Qeq, Qplus, inject_Z. cbn [Qnum Qden]. lia.
Qed.

Lemma timer_hours_value (b1 b2 : Z) :
  is_byte b1 ->
  (timer_hours b1 b2
   == (20 * ((b1 / 32) mod 4) + 2 * (b2 mod 16) + (b1 / 16) mod 2) # 2)%Q.
Proof.
  intros H1. unfold timer_hours. rewrite land_15_mod.
  assert (E1 : Z.shiftr (Z.land b1 0x60) 5 = (b1 / 32) mod 4).
  { apply Z.eqb_eq.
    apply (forall_byte
             (fun b => Z.shiftr (Z.land b 0x60) 5 =? (b / 32) mod 4));
      [vm_compute; reflexivity | exact H1]. }
  assert (E2 : Z.shiftr (Z.land b1 0x10) 4 = (b1 / 16) mod 2).
  { apply Z.eqb_eq.
    apply (forall_byte
             (fun b => Z.shiftr (Z.land b 0x10) 4 =? (b / 16) mod 2));
      [vm_compute; reflexivity | exact H1]. }
  rewrite E1, E2.
  unfold Qeq, Qplus, Qmult, inject_Z. cbn [Qnum Qden Pos.mul]. lia.
Qed.

(** X11: the common block of a Basic or Timer payload holds a target
    temperature that is a multiple of one half from 16 to 31.5: 16 plus
    the low nibble of byte 1, plus one half when bit 2 of byte 3 is set;
    and a timer offset that is a multiple of one half from 0 to 45.5
    hours: ten times bits 5 and 6 of byte 1, plus the low nibble of byte
    2, plus one half when bit 4 of byte 1 is set. *)
Theorem decode_common_data_numbers (b0 b1 b2 b3 : Z) (rest : list Z)
        (m : Mode) :
  Forall is_byte (b0 :: b1 :: b2 :: b3 :: rest) ->
  Mode_of (Z.shiftr (Z.land b0 0x07) 0) = Some m ->
  let kt := 32 + 2 * (b1 mod 16) + (b3 / 4) mod 2 in
  let kh := 20 * ((b1 / 32) mod 4) + 2 * (b2 mod 16) + (b1 / 16) mod 2 in
  exists (d : dict) (t h : Q),
    result (decode_common_data (b0 :: b1 :: b2 :: b3 :: rest)) = Return d
    /\ dict_get d "temp" = Some (VFloat t)
    /\ dict_get d "timer_hours" = Some (VFloat h)
    /\ (t == kt # 2)%Q /\ 32 <= kt <= 63
    /\ (h == kh # 2)%Q /\ 0 <= kh <= 91.
Proof.
  intros Hb Hm kt kh.
  assert (H1 : is_byte b1) by (rewrite Forall_forall in Hb; apply Hb; cbn; tauto).
  assert (H3 : is_byte b3) by (rewrite Forall_forall in Hb; apply Hb; cbn; tauto).
  destruct (Fan_of_total b0) as [f Hf].
  eexists _, (temp b1 b3), (timer_hours b1 b2).
  split; [|split; [|split; [|split; [|split; [|split]]]]].
  - rewrite decode_common_data_prefix.
    unfold decode_common_data, getitem. cbn [nth_error lift_option].
    py_enum. reflexivity.
  - reflexivity.
  - reflexivity.
  - apply temp_value, H3.
  - subst kt. pose proof (Z.mod_pos_bound b1 16 eq_refl).
    pose proof (Z.mod_pos_bound (b3 / 4) 2 eq_refl). lia.
  - apply timer_hours_value, H1.
  - subst kh. pose proof (Z.mod_pos_bound (b1 / 32) 4 eq_refl).
    pose proof (Z.mod_pos_bound b2 16 eq_refl).
    pose proof (Z.mod_pos_bound (b1 / 16) 2 eq_refl). lia.
Qed.

Lemma decode_common_data_numbers_witness :
  let kt := 32 + 2 * (0x09 mod 16) + (0x54 / 4) mod 2 in
  let kh := 20 * ((0x09 / 32) mod 4) + 2 * (0x20 mod 16) + (0x09 / 16) mod 2 in
  (Forall is_byte [0x29; 0x09; 0x20; 0x54]
   /\ Mode_of (Z.shiftr (Z.land 0x29 0x07) 0) = Some ModeCool)
  /\ exists (d : dict) (t h : Q),
    result (decode_common_data [0x29; 0x09; 0x20; 0x54]) = Return d
    /\ dict_get d "temp" = Some (VFloat t)
    /\ dict_get d "timer_hours" = Some (VFloat h)
    /\ (t == kt # 2)%Q /\ 32 <= kt <= 63
    /\ (h == kh # 2)%Q /\ 0 <= kh <= 91.
Proof.
  intros kt kh.
  assert (H1 : Forall is_byte [0x29; 0x09; 0x20; 0x54])
    by (repeat constructor; unfold is_byte; lia).
  assert (H2 : Mode_of (Z.shiftr (Z.land 0x29 0x07) 0) = Some ModeCool)
    by reflexivity.
  split; [split; assumption|].
  exact (decode_common_data_numbers 0x29 0x09 0x20 0x54 [] ModeCool H1 H2).
Defined.

(** ** What is printed *)

Lemma byte_nibbles (b : Z) :
  is_byte b -> b = Z.land b 0xF0 + Z.land b 0x0F.
Proof.
  intros Hb. apply Z.eqb_eq.
  apply (forall_byte (fun b => b =? Z.land b 0xF0 + Z.land b 0x0F));
    [vm_compute; reflexivity | exact Hb].
Qed.

Lemma high_nibble_shift (b : Z) :
  is_byte b -> Z.land b 0xF0 = 16 * Z.shiftr (Z.land b 0xF0) 4.
Proof.
  intros Hb. apply Z.eqb_eq.
  apply (forall_byte
           (fun b => Z.land b 0xF0 =? 16 * Z.shiftr (Z.land b 0xF0) 4));
    [vm_compute; reflexivity | exact Hb].
Qed.

Lemma neqb_false (a b : Z) : neqb a b = false <-> a = b.
Proof. unfold neqb. rewrite negb_false_iff. apply Z.eqb_eq. Qed.

(** X12: among the payloads of 8 bytes with the frame type of a Footer
    there is exactly one on which [next_data] prints nothing:
    00 00 00 A0 00 00 00 A0.  Any other one draws a diagnostic for the
    checksum, a nonzero byte or a nonzero bit. *)
Theorem next_data_footer_silent (bytes : list Z) :
  Forall is_byte bytes ->
  List.length bytes = 8%nat ->
  Z.land (nth 3 bytes 0) 0xF0 = 0xA0 ->
  (diags (next_data bytes) = []
   <-> bytes = [0x00; 0x00; 0x00; 0xA0; 0x00; 0x00; 0x00; 0xA0]).
Proof.
  intros Hb Hl Ht.
  destruct bytes as [|b0 [|b1 [|b2 [|b3 [|b4 [|b5 [|b6 [|b7 [|b8 r]]]]]]]]];
    try discriminate Hl.
  cbn [nth] in Ht. split.
  - rewrite next_data_8_diags. cbv zeta. rewrite Ht. cbn [Z.eqb Pos.eqb].
    rewrite diags_decode_footer_data. cbv zeta.
    intros H. apply app_eq_nil in H. destruct H as [Hc H].
    apply app_eq_nil in H. destruct H as [H1 H2].
    match type of H1 with (if ?c then _ else _) = _ =>
      destruct c eqn:E1; [discriminate H1|] end.
    match type of H2 with (if ?c then _ else _) = _ =>
      destruct c eqn:E2; [discriminate H2|] end.
    rewrite !orb_false_iff, !neqb_false in E1.
    destruct E1 as (((((Z0 & Z1) & Z2) & Z4) & Z5) & Z6). subst.
    rewrite orb_false_iff in E2. unfold flag in E2.
    rewrite !neqb_false in E2. destruct E2 as [E3 E7].
    assert (Hb3 : is_byte b3) by (rewrite Forall_forall in Hb; apply Hb; cbn; tauto).
    assert (Hb7 : is_byte b7) by (rewrite Forall_forall in Hb; apply Hb; cbn; tauto).
    assert (B3 : b3 = 0xA0) by (rewrite (byte_nibbles b3 Hb3), Ht, E3; reflexivity).
    subst b3.
    apply diags_match_checksum in Hc. rewrite match_checksum_8 in Hc.
    cbv zeta in Hc. unfold result in Hc. cbn [snd] in Hc.
    injection Hc as Hc. apply Z.eqb_eq in Hc.
    change (Z.land _ 0x0F) with 10 in Hc.
    assert (B7 : b7 = 0xA0).
    { rewrite (byte_nibbles b7 Hb7), (high_nibble_shift b7 Hb7), Hc, E7.
      reflexivity. }
    subst b7. reflexivity.
  - intros H. rewrite H. reflexivity.
Qed.

Lemma next_data_footer_silent_witness :
  let bytes := [0x00; 0x00; 0x00; 0xA0; 0x00; 0x00; 0x00; 0xA0] in
  (Forall is_byte bytes
   /\ List.length bytes = 8%nat
   /\ Z.land (nth 3 bytes 0) 0xF0 = 0xA0)
  /\ (diags (next_data bytes) = []
      <-> bytes = [0x00; 0x00; 0x00; 0xA0; 0x00; 0x00; 0x00; 0xA0]).
Proof.
  intros bytes.
  assert (H1 : Forall is_byte bytes)
    by (repeat constructor; unfold is_byte; lia).
  assert (H2 : List.length bytes = 8%nat) by reflexivity.
  assert (H3 : Z.land (nth 3 bytes 0) 0xF0 = 0xA0) by reflexivity.
  split; [repeat split; assumption|].
  exact (next_data_footer_silent bytes H1 H2 H3).
Defined.





(** ** The main loop *)

Lemma next_frame_diags (r : bool) (t b : list Z) :
  fst (next_frame r t b)
  = if r && (0 <? len b) then [ExtraBits b] else [].
Proof.
  unfold next_frame. destruct (collected r t b) as [|hi [|lo rest]];
    try reflexivity.
  destruct (is_long_start hi lo && _); [reflexivity|].
  destruct (is_short_start hi lo && _); reflexivity.
Qed.

(** A standard start pair with fewer than 139 durations behind it: more
    is awaited. *)
Lemma next_frame_long_incomplete (r : bool) (t b : list Z)
      (hi lo : Z) (rest : list Z) :
  collected r t b = hi :: lo :: rest ->
  is_long_start hi lo = true ->
  len (hi :: lo :: rest) < 139 ->
  snd (next_frame r t b) = (hi :: lo :: rest, Return None).
Proof.
  intros Hc Hs Hl. unfold next_frame. rewrite Hc, Hs.
  apply Z.leb_gt in Hl. rewrite Hl. cbn [andb].
  assert (Hn : is_short_start hi lo = false).
  { apply not_true_false. rewrite is_short_start_spec.
    apply is_long_start_spec in Hs. lia. }
  rewrite Hn. reflexivity.
Qed.

Lemma next_frame_long_complete (r : bool) (t b : list Z)
      (hi lo : Z) (rest : list Z) :
  collected r t b = hi :: lo :: rest ->
  is_long_start hi lo = true ->
  139 <= len (hi :: lo :: rest) ->
  snd (next_frame r t b) = ([], Return (Some (hi :: lo :: rest))).
Proof.
  intros Hc Hs Hl. unfold next_frame. rewrite Hc, Hs.
  apply Z.leb_le in Hl. rewrite Hl. reflexivity.
Qed.

Lemma process_line_none (r : bool) (t b cf : list Z) :
  snd (next_frame r t b) = (cf, Return None) ->
  process_line (Raw r t) b
  = (map Printed (fst (next_frame r t b)), (cf, Return tt)).
Proof.
  unfold process_line. destruct (next_frame r t b) as [d [cf' o]].
  cbn [fst snd]. intros H. injection H as -> ->. reflexivity.
Qed.

Lemma process_line_frame (r : bool) (t b cf frame : list Z) (code : Code)
      (bytes : list Z) :
  snd (next_frame r t b) = (cf, Return (Some frame)) ->
  next_code frame = ret (Some code) ->
  next_bytes code = ret (Some bytes) ->
  process_line (Raw r t) b
  = (map Printed (fst (next_frame r t b)) ++ decoded_events bytes,
     (cf, decoded_outcome bytes)).
Proof.
  unfold process_line, decoded_events, decoded_outcome, diags, result.
  destruct (next_frame r t b) as [d [cf' o]].
  cbn [fst snd]. intros H Hc Hb. injection H as -> ->.
  rewrite Hc. unfold ret. rewrite Hb. unfold ret.
  destruct (next_data bytes) as [d3 [[data|]|e]]; cbn [fst snd app];
    rewrite ?app_nil_r, ?map_app, <- ?app_assoc; reflexivity.
Qed.

Lemma next_bytes_encode_frame (w : Widths) (bytes : list Z) :
  widths_ok w = true ->
  List.length bytes = 8%nat ->
  Forall is_byte bytes ->
  next_bytes (current_code (encode_frame w bytes)) = ret (Some bytes).
Proof.
  intros Hw Hl Hb. rewrite (current_code_encode_frame w bytes Hw).
  rewrite (next_bytes_bits _ (flat_map byte_bits bytes)).
  - rewrite (bytes_of_bits_byte_bits bytes Hb). reflexivity.
  - rewrite payload_bits_standard, <- flat_map_app, firstn_skipn.
    reflexivity.
  - rewrite length_flat_map_byte_bits, Hl. reflexivity.
Qed.

(** Continuation lines that leave a standard frame incomplete only
    extend the buffer. *)
Lemma main_incomplete (cs : list (list Z)) :
  forall (hi lo : Z) (rest : list Z),
    is_long_start hi lo = true ->
    len ((hi :: lo :: rest) ++ List.concat cs) < 139 ->
    main (map (Raw false) cs) (hi :: lo :: rest)
    = ([], ((hi :: lo :: rest) ++ List.concat cs, Return tt)).
Proof.
  induction cs as [|c cs IH]; intros hi lo rest Hs Hl.
  - cbn [map main List.concat]. rewrite app_nil_r. reflexivity.
  - cbn [map main List.concat]. cbn [List.concat] in Hl. rewrite app_assoc in Hl.
    assert (Hc : collected false c (hi :: lo :: rest)
                 = hi :: lo :: (rest ++ c)) by reflexivity.
    assert (Hl' : len (hi :: lo :: (rest ++ c)) < 139).
    { unfold len in *. cbn [app List.length] in *.
      rewrite !length_app in *. lia. }
    rewrite (process_line_none false c (hi :: lo :: rest)
               (hi :: lo :: (rest ++ c)))
      by (apply (next_frame_long_incomplete false c (hi :: lo :: rest)
                   hi lo (rest ++ c) Hc Hs Hl')).
    rewrite next_frame_diags. cbn [andb map].
    rewrite (IH hi lo (rest ++ c) Hs).
    + cbn [app]. rewrite <- app_assoc. reflexivity.
    + cbn [app] in *. rewrite <- !app_assoc in *. exact Hl.
Qed.

Lemma main_app (l1 l2 : list Line) (cf cf1 : list Z) (e1 : list Event) :
  main l1 cf = (e1, (cf1, Return tt)) ->
  main (l1 ++ l2) cf
  = (e1 ++ fst (main l2 cf1), snd (main l2 cf1)).
Proof.
  revert cf e1. induction l1 as [|l l1 IH]; intros cf e1 H.
  - cbn in H. injection H as <- <-. cbn [app].
    destruct (main l2 cf); reflexivity.
  - cbn [app main] in *.
    destruct (process_line l cf) as [e [cf' [u|x]]]; [|discriminate H].
    destruct (main l1 cf') as [e' r] eqn:Hm.
    injection H as <- ->.
    rewrite (IH cf' e' Hm).
    rewrite app_assoc. reflexivity.
Qed.

(** X14: a standard frame that the log holds in several lines is decoded
    as one.  When the first line starts the frame with at least two
    numbers, continuation lines follow and the last of them, not empty,
    completes the 139 durations of an encoded payload of 8 bytes, the
    loop writes exactly what [next_data] prints for that payload, then
    the record if there is one, and is left with an empty buffer. *)
Theorem main_decodes_frame (w : Widths) (bytes : list Z)
        (c0 : list Z) (cs : list (list Z)) (c_last : list Z) :
  widths_ok w = true ->
  List.length bytes = 8%nat ->
  Forall is_byte bytes ->
  c0 ++ List.concat cs ++ c_last = encode_frame w bytes ->
  (2 <= List.length c0)%nat ->
  c_last <> [] ->
  main (Raw true c0 :: map (Raw false) cs ++ [Raw false c_last]) []
  = (decoded_events bytes, ([], decoded_outcome bytes)).
Proof.
  intros Hw Hl Hb Hsplit Hc0 Hlast.
  pose proof (length_encode_frame w bytes Hl) as Hlen.
  rewrite <- Hsplit in Hlen. rewrite !length_app in Hlen.
  assert (Hnl : (0 < List.length c_last)%nat)
    by (destruct c_last; [contradiction | cbn; lia]).
  destruct c0 as [|hi [|lo rest]]; try (cbn in Hc0; lia).
  assert (Hstart : is_long_start hi lo = true).
  { rewrite encode_frame_bits in Hsplit. cbn [app] in Hsplit.
    injection Hsplit as -> -> _.
    apply (widths_ok_inv w Hw). }
  change (Raw true (hi :: lo :: rest)
            :: map (Raw false) cs ++ [Raw false c_last])
    with ([Raw true (hi :: lo :: rest)]
            ++ (map (Raw false) cs ++ [Raw false c_last])).
  assert (H0 : main [Raw true (hi :: lo :: rest)] []
               = ([], (hi :: lo :: rest, Return tt))).
  { cbn [main].
    rewrite (process_line_none true (hi :: lo :: rest) []
               (hi :: lo :: rest)).
    - rewrite next_frame_diags. reflexivity.
    - apply (next_frame_long_incomplete true (hi :: lo :: rest) []
               hi lo rest eq_refl Hstart).
      unfold len. cbn [List.length] in *. lia. }
  rewrite (main_app _ _ _ _ _ H0). cbn [app].
  assert (H1 : main (map (Raw false) cs) (hi :: lo :: rest)
               = ([], ((hi :: lo :: rest) ++ List.concat cs, Return tt))).
  { apply main_incomplete; [exact Hstart|].
    unfold len. rewrite length_app. cbn [List.length] in *. lia. }
  rewrite (main_app _ _ _ _ _ H1). cbn [app fst snd].
  cbn [main].
  assert (Hcol : collected false c_last (hi :: lo :: rest ++ List.concat cs)
                 = encode_frame w bytes).
  { unfold collected. rewrite <- Hsplit. cbn [app].
    rewrite <- app_assoc. reflexivity. }
  assert (Hfr : snd (next_frame false c_last (hi :: lo :: rest ++ List.concat cs))
                = ([], Return (Some (encode_frame w bytes)))).
  { pose proof Hcol as Hcol'. rewrite encode_frame_bits in Hcol'.
    rewrite (next_frame_long_complete false c_last _ _ _ _ Hcol').
    - rewrite <- encode_frame_bits. reflexivity.
    - apply (widths_ok_inv w Hw).
    - rewrite <- encode_frame_bits. unfold len.
      rewrite (length_encode_frame w bytes Hl). lia. }
  rewrite (process_line_frame false c_last _ [] _ _ bytes Hfr
             (next_code_encode_frame w bytes Hw Hl)
             (next_bytes_encode_frame w bytes Hw Hl Hb)).
  rewrite next_frame_diags. cbn [andb map app].
  unfold decoded_outcome.
  destruct (result (next_data bytes)); rewrite ?app_nil_r; reflexivity.
Qed.

Lemma main_decodes_frame_witness :
  let frame := encode_frame gree_widths sample_bytes in
  let c0 := firstn 50 frame in
  let cs := [firstn 50 (skipn 50 frame); []] in
  let c_last := skipn 100 frame in
  (widths_ok gree_widths = true
   /\ List.length sample_bytes = 8%nat
   /\ Forall is_byte sample_bytes
   /\ c0 ++ List.concat cs ++ c_last = frame
   /\ (2 <= List.length c0)%nat
   /\ c_last <> [])
  /\ main (Raw true c0 :: map (Raw false) cs ++ [Raw false c_last]) []
     = (decoded_events sample_bytes, ([], decoded_outcome sample_bytes)).
Proof.
  intros frame c0 cs c_last.
  assert (H1 : widths_ok gree_widths = true) by reflexivity.
  assert (H2 : List.length sample_bytes = 8%nat) by reflexivity.
  assert (H3 : Forall is_byte sample_bytes)
    by (repeat constructor; unfold is_byte; lia).
  assert (H4 : c0 ++ List.concat cs ++ c_last
               = encode_frame gree_widths sample_bytes)
    by (vm_compute; reflexivity).
  assert (H5 : (2 <= List.length c0)%nat) by (vm_compute; lia).
  assert (H6 : c_last <> []) by (vm_compute; discriminate).
  split; [repeat split; assumption|].
  exact (main_decodes_frame gree_widths sample_bytes c0 cs c_last
                            H1 H2 H3 H4 H5 H6).
Defined.

(** Lines without the raw dump leave the loop where it was. *)
Lemma main_cons_other (lines : list Line) (cf : list Z) :
  main (Other :: lines) cf = main lines cf.
Proof. cbn [main process_line app]. destruct (main lines cf); reflexivity. Qed.

(** X15: the lines of the log that do not hold a raw dump change
    nothing: the loop writes the same, ends the same and keeps the same
    buffer as on the raw dump lines alone, wherever the other lines stand
    between them. *)
Theorem main_ignores_other_lines (lines : list Line) (cf : list Z) :
  main lines cf = main (filter is_raw lines) cf.
Proof.
  revert cf. induction lines as [|l lines IH]; intros cf; [reflexivity|].
  destruct l as [|r t].
  - rewrite main_cons_other. cbn [filter is_raw]. apply IH.
  - cbn [filter is_raw main].
    destruct (process_line (Raw r t) cf) as [e [cf' [u|x]]];
      [|reflexivity].
    rewrite IH. reflexivity.
Qed.

(** ** Short frames *)

Lemma classify_short_start (sh sl : Z) :
  is_short_start sh sl = true -> classify sh sl = StartShort.
Proof.
  intros H. unfold classify. rewrite H.
  assert (Hn : is_long_start sh sl = false).
  { apply not_true_false. rewrite is_long_start_spec.
    apply is_short_start_spec in H. lia. }
  rewrite Hn. reflexivity.
Qed.

Lemma current_code_encode_short_frame (w : Widths) (sh sl : Z)
      (bytes : list Z) :
  widths_ok w = true ->
  is_short_start sh sl = true ->
  current_code (encode_short_frame w sh sl bytes)
  = StartShort :: map bit_symbol (flat_map byte_bits bytes) ++ [Stop].
Proof.
  intros Hw Hs. unfold encode_short_frame. cbn [app].
  rewrite current_code_cons2.
  2:{ destruct (flat_map (encode_byte w) bytes); discriminate. }
  rewrite (classify_short_start sh sl Hs). f_equal.
  rewrite flat_map_encode_byte.
  rewrite (current_code_bits w _ _ Hw) by discriminate.
  unfold current_code at 1. cbn [last].
  rewrite pairs_single, (lead_is_bit w Hw). reflexivity.
Qed.

Lemma payload_bits_short (bs : list bool) :
  payload_bits (StartShort :: map bit_symbol bs ++ [Stop])
  = map bit_symbol bs.
Proof.
  unfold payload_bits. cbn [lstrip is_start_char].
  assert (H : lstrip is_start_char (map bit_symbol bs ++ [Stop])
              = map bit_symbol bs ++ [Stop]).
  { destruct bs as [|[] bs]; reflexivity. }
  rewrite H, replace_sync_no_space.
  - apply rstrip_bits_stop.
  - unfold contains. rewrite existsb_app.
    fold (contains Space (map bit_symbol bs)).
    rewrite contains_bits by discriminate. reflexivity.
Qed.

Lemma next_code_encode_short_frame (w : Widths) (sh sl : Z)
      (bytes : list Z) :
  widths_ok w = true ->
  is_short_start sh sl = true ->
  List.length bytes = 2%nat ->
  next_code (encode_short_frame w sh sl bytes)
  = ret (Some (StartShort :: map bit_symbol (flat_map byte_bits bytes)
                 ++ [Stop])).
Proof.
  intros Hw Hs Hl.
  assert (Hlen : List.length (encode_short_frame w sh sl bytes) = 35%nat).
  { unfold encode_short_frame.
    rewrite !length_app, flat_map_encode_byte, length_flat_map_encode_bit,
      length_flat_map_byte_bits, Hl. reflexivity. }
  apply next_code_silent, next_code_accepts.
  rewrite (current_code_encode_short_frame w sh sl bytes Hw Hs).
  split; [reflexivity|]. split.
  { unfold len. rewrite Hlen. discriminate. }
  set (bs := flat_map byte_bits bytes).
  assert (Hbs : List.length bs = 16%nat)
    by (unfold bs; rewrite length_flat_map_byte_bits, Hl; reflexivity).
  split; [|right; split; [reflexivity|split; [|split]]].
  - unfold contains. cbn [existsb Symbol_eqb orb]. rewrite existsb_app.
    fold (contains Invalid (map bit_symbol bs)).
    rewrite contains_bits by discriminate. reflexivity.
  - unfold contains. cbn [existsb Symbol_eqb orb]. rewrite existsb_app.
    fold (contains Space (map bit_symbol bs)).
    rewrite contains_bits by discriminate. reflexivity.
  - change (StartShort :: map bit_symbol bs ++ [Stop])
      with ((StartShort :: map bit_symbol bs) ++ [Stop]).
    apply last_last.
  - unfold len. cbn [List.length].
    rewrite length_app, length_map, Hbs. reflexivity.
Qed.

(** X16: a short frame comes through the whole loop.  A line that
    starts a frame and holds a short start pair, the 16 bits of two bytes
    least significant bit first and the closing burst, all of widths the
    tests accept, makes the loop write the Temp record with the first
    byte as temperature, after one diagnostic when the second byte is not
    0xA5, and leaves the buffer empty. *)
Theorem main_decodes_short_frame (w : Widths) (sh sl t magic : Z)
        (buf : list Z) :
  widths_ok w = true ->
  is_short_start sh sl = true ->
  is_byte t -> is_byte magic ->
  main [Raw true (encode_short_frame w sh sl [t; magic])] buf
  = ((if 0 <? len buf then [Printed (ExtraBits buf)] else [])
     ++ (if magic =? 0xA5 then []
         else [Printed (InvalidMagicByte [t; magic])])
     ++ [Output [("type", VStr "temp"); ("temp", VInt t)]],
     ([], Return tt)).
Proof.
  intros Hw Hs Ht Hm.
  assert (Hb : Forall is_byte [t; magic])
    by (constructor; [exact Ht | constructor; [exact Hm | constructor]]).
  assert (Hfr : snd (next_frame true (encode_short_frame w sh sl [t; magic])
                       buf)
                = ([], Return (Some (encode_short_frame w sh sl [t; magic])))).
  { unfold next_frame, collected.
    assert (Hlen : len (encode_short_frame w sh sl [t; magic]) = 35).
    { unfold len, encode_short_frame.
      rewrite !length_app, flat_map_encode_byte, length_flat_map_encode_bit,
        length_flat_map_byte_bits. reflexivity. }
    rewrite Hlen. unfold encode_short_frame. cbn [app].
    rewrite Hs.
    assert (Hn : is_long_start sh sl = false).
    { apply not_true_false. rewrite is_long_start_spec.
      apply is_short_start_spec in Hs. lia. }
    rewrite Hn. reflexivity. }
  assert (Hby : next_bytes (StartShort
                              :: map bit_symbol (flat_map byte_bits [t; magic])
                              ++ [Stop])
                = ret (Some [t; magic])).
  { rewrite (next_bytes_bits _ (flat_map byte_bits [t; magic])).
    - rewrite (bytes_of_bits_byte_bits [t; magic] Hb). reflexivity.
    - apply payload_bits_short.
    - reflexivity. }
  cbn [main].
  rewrite (process_line_frame true _ buf [] _ _ [t; magic] Hfr
             (next_code_encode_short_frame w sh sl [t; magic] Hw Hs eq_refl)
             Hby).
  rewrite next_frame_diags. cbn [andb].
  unfold decoded_events, decoded_outcome.
  rewrite next_data_temp.
  assert (Hd : diags (next_data [t; magic])
               = if magic =? 0xA5 then []
                 else [InvalidMagicByte [t; magic]]).
  { unfold next_data, next_data_rest.
    change (len [t; magic] =? 8) with false.
    change (len [t; magic] =? 2) with true. cbn iota.
    unfold decode_temp_data, getitem. cbn [nth_error lift_option].
    py_diags. unfold neqb.
    destruct (magic =? 0xA5); reflexivity. }
  rewrite Hd.
  destruct (0 <? len buf), (magic =? 0xA5); reflexivity.
Qed.

Lemma main_decodes_short_frame_witness :
  (widths_ok gree_widths = true
   /\ is_short_start 6000 (-3000) = true
   /\ is_byte 25 /\ is_byte 0xA5)
  /\ main [Raw true (encode_short_frame gree_widths 6000 (-3000) [25; 0xA5])]
          [9000; -4500; 700]
     = ((if 0 <? len [9000; -4500; 700]
         then [Printed (ExtraBits [9000; -4500; 700])] else [])
        ++ (if 0xA5 =? 0xA5 then []
            else [Printed (InvalidMagicByte [25; 0xA5])])
        ++ [Output [("type", VStr "temp"); ("temp", VInt 25)]],
        ([], Return tt)).
Proof.
  assert (H1 : widths_ok gree_widths = true) by reflexivity.
  assert (H2 : is_short_start 6000 (-3000) = true) by reflexivity.
  assert (H3 : is_byte 25) by (unfold is_byte; lia).
  assert (H4 : is_byte 0xA5) by (unfold is_byte; lia).
  split; [exact (conj H1 (conj H2 (conj H3 H4)))|].
  exact (main_decodes_short_frame gree_widths 6000 (-3000) 25 0xA5
                                  [9000; -4500; 700] H1 H2 H3 H4).
Defined.

(** ** Rejections and their messages *)

(** X17: [next_code] and [next_bytes] explain every rejection once: when
    either returns nothing it has printed exactly one diagnostic, and
    when it returns a code or bytes it has printed none. *)
Theorem rejection_prints_once (timings : list Z) (code : Code) :
  (result (next_code timings) = Return None
   -> exists d, diags (next_code timings) = [d])
  /\ (forall c, result (next_code timings) = Return (Some c)
                -> diags (next_code timings) = [])
  /\ (result (next_bytes code) = Return None
      -> diags (next_bytes code)
         = [InvalidCodeLength (len (payload_bits code)) code])
  /\ (forall bytes, result (next_bytes code) = Return (Some bytes)
                    -> diags (next_bytes code) = []).
Proof.
  split; [|split; [|split]].
  - unfold next_code.
    repeat match goal with
           | |- context [if ?c then _ else _] => destruct c
           end; try discriminate; intros _; eexists; reflexivity.
  - intros c H. rewrite (next_code_silent timings c H). reflexivity.
  - unfold next_bytes. fold (payload_bits code).
    destruct (neqb (len (payload_bits code) mod 8) 0); [reflexivity|].
    rewrite result_bind. destruct (result (mapM _ _)); discriminate.
  - intros bytes. unfold next_bytes. fold (payload_bits code).
    destruct (neqb (len (payload_bits code) mod 8) 0); [discriminate|].
    rewrite result_bind, diags_bind.
    destruct (result (mapM _ _)) as [bs|e] eqn:Hr; [|discriminate].
    intros _. rewrite diags_ret, app_nil_r.
    clear Hr. generalize (range (List.length (payload_bits code)) 8).
    intros l. induction l as [|i l IH]; [reflexivity|].
    cbn [mapM]. rewrite diags_bind.
    destruct (int2 _) as [v|]; cbn [lift_option].
    + rewrite diags_ret, result_ret. cbn [app]. rewrite diags_bind, IH.
      destruct (result (mapM _ l)); reflexivity.
    + reflexivity.
Qed.

(** ** The shape of the records *)

Ltac nodup_keys :=
  repeat (constructor; [cbn [In]; intuition discriminate|]); constructor.

(** The common block of a frame whose fan and mode bits name a member. *)
Lemma decode_common_data_result (b0 b1 b2 b3 : Z) (rest : list Z)
      (f : Fan) (m : Mode) :
  Fan_of (Z.shiftr (Z.land b0 0x30) 4) = Some f ->
  Mode_of (Z.shiftr (Z.land b0 0x07) 0) = Some m ->
  result (decode_common_data (b0 :: b1 :: b2 :: b3 :: rest))
  = Return [ ("sleep", VBool (flag b0 0x80));
             ("swing", VBool (flag b0 0x40));
             ("fan", VFan f);
             ("on", VBool (flag b0 0x08));
             ("mode", VMode m);
             ("timer", VBool (flag b1 0x80));
             ("timer_hours", VFloat (timer_hours b1 b2));
             ("temp", VFloat (temp b1 b3));
             ("x_fan", VBool (flag b2 0x80));
             ("health", VBool (flag b2 0x40));
             ("light", VBool (flag b2 0x20));
             ("turbo", VBool (flag b2 0x10));
             ("fahrenheit", VBool (flag b3 0x08));
             ("fresh_air", VBool (flag b3 0x01)) ].
Proof.
  intros Hf Hm. rewrite decode_common_data_prefix.
  unfold decode_common_data, getitem. cbn [nth_error lift_option].
  py_enum. reflexivity.
Qed.

(** X18: every record that [next_data] returns starts with the field
    [type], which is temp for a payload of 2 bytes and footer, basic or
    timer for a payload of 8 bytes with 0xA, 0x5 or 0x6 in the high nibble
    of byte 3.  A Basic or Timer record is laid out in three blocks: the
    field [type], the fields of the common block as [decode_common_data]
    returned them, and the fields of the frame itself.  The blocks share
    no key, so that neither update of the record overwrites a field; the
    one change made afterwards is that a Basic record may lose [swing]. *)
Theorem next_data_record_shape (bytes : list Z) (rec : dict) :
  result (next_data bytes) = Return (Some rec) ->
  let t := Z.land (nth 3 bytes 0) 0xF0 in
  exists ty : string,
    hd_error rec = Some ("type", VStr ty)
    /\ ((len bytes = 2 /\ ty = "temp")
        \/ (len bytes = 8 /\ t = 0xA0 /\ ty = "footer")
        \/ (len bytes = 8
            /\ ((t = 0x50 /\ ty = "basic") \/ (t = 0x60 /\ ty = "timer"))
            /\ exists common own : dict,
                result (decode_common_data bytes) = Return common
                /\ map fst own
                   = (if String.eqb ty "basic"
                      then ["h_guide"; "v_guide"; "wifi"; "ifeel";
                            "temp_display"; "energy_save"]
                      else ["on_mins"; "overlap"; "off_mins"; "on_set";
                            "off_set"])
                /\ NoDup ("type" :: map fst common ++ map fst own)
                /\ (rec = ("type", VStr ty) :: common ++ own
                    \/ (ty = "basic"
                        /\ rec = dict_remove
                                   (("type", VStr ty) :: common ++ own)
                                   "swing")))).
Proof.
  intros Hr t. subst t. revert Hr.
  destruct (Z.eq_dec (len bytes) 8) as [H8|H8].
  2:{ rewrite (next_data_other_length bytes H8).
      destruct (Z.eq_dec (len bytes) 2) as [H2|H2].
      - destruct bytes as [|b0 [|b1 [|b2 r]]];
          try (unfold len in H2; cbn [List.length] in H2; lia).
        pose proof (next_data_temp b0 b1) as T.
        rewrite (next_data_other_length [b0; b1] H8) in T.
        rewrite T. intros H. injection H as <-.
        exists "temp". split; [reflexivity|].
        left. split; reflexivity.
      - rewrite (next_data_rest_result bytes H2). discriminate. }
  destruct bytes as [|b0 [|b1 [|b2 [|b3 [|b4 [|b5 [|b6 [|b7 [|b8 r]]]]]]]]];
    try (unfold len in H8; cbn [List.length] in H8; lia).
  cbn [nth].
  destruct (Fan_of_total b0) as [f Hf].
  destruct (TempDisplay_of_total b5) as [td Htd].
  destruct (Z.eq_dec (Z.land b3 0xF0) 0x50) as [T5|T5].
  { destruct (Mode_of (Z.shiftr (Z.land b0 0x07) 0)) as [m|] eqn:Hm.
    2:{ rewrite (next_data_basic_raises b0 b1 b2 b3 b4 b5 b6 b7 T5)
          by tauto. discriminate. }
    destruct (HGuide_of (Z.shiftr (Z.land b4 0xF0) 4)) as [h|] eqn:Hh.
    2:{ rewrite (next_data_basic_raises b0 b1 b2 b3 b4 b5 b6 b7 T5)
          by tauto. discriminate. }
    destruct (VGuide_of (Z.shiftr (Z.land b4 0x0F) 0)) as [v|] eqn:Hv.
    2:{ rewrite (next_data_basic_raises b0 b1 b2 b3 b4 b5 b6 b7 T5)
          by tauto. discriminate. }
    rewrite (next_data_basic b0 b1 b2 b3 b4 b5 b6 b7 f m h v td
                             T5 Hf Hm Hh Hv Htd).
    intros H. injection H as <-.
    exists "basic". split.
    { destruct (Bool.eqb _ _); reflexivity. }
    right. right. split; [reflexivity|]. split; [left; split; [exact T5 | reflexivity]|].
    eexists.
    exists [ ("h_guide", VHGuide h); ("v_guide", VVGuide v);
             ("wifi", VBool (flag b5 0x40)); ("ifeel", VBool (flag b5 0x04));
             ("temp_display", VTempDisplay td);
             ("energy_save", VBool (flag b7 0x04)) ].
    split; [exact (decode_common_data_result b0 b1 b2 b3 _ f m Hf Hm)|].
    split; [reflexivity|].
    split; [cbn [map fst app]; nodup_keys|].
    destruct (Bool.eqb _ _); [right; split; reflexivity | left; reflexivity]. }
  destruct (Z.eq_dec (Z.land b3 0xF0) 0x60) as [T6|T6].
  { destruct (Mode_of (Z.shiftr (Z.land b0 0x07) 0)) as [m|] eqn:Hm.
    2:{ rewrite (next_data_timer_raises b0 b1 b2 b3 b4 b5 b6 b7 T6 Hm).
        discriminate. }
    rewrite (next_data_timer b0 b1 b2 b3 b4 b5 b6 b7 f m T6 Hf Hm).
    intros H. injection H as <-.
    exists "timer". split; [reflexivity|].
    right. right. split; [reflexivity|]. split; [right; split; [exact T6 | reflexivity]|].
    eexists.
    exists [ ("on_mins", VInt (Z.lor (Z.shiftl (Z.land b5 0x07) 8)
                                    (Z.shiftl b4 0)));
             ("overlap", VBool (flag b5 0x80));
             ("off_mins", VInt (Z.lor (Z.shiftl b6 4)
                                     (Z.shiftr (Z.land b5 0x70) 4)));
             ("on_set", VBool (flag b7 0x02));
             ("off_set", VBool (flag b7 0x01)) ].
    split; [exact (decode_common_data_result b0 b1 b2 b3 _ f m Hf Hm)|].
    split; [reflexivity|].
    split; [cbn [map fst app]; nodup_keys|].
    left. reflexivity. }
  destruct (Z.eq_dec (Z.land b3 0xF0) 0xA0) as [TA|TA].
  { rewrite (next_data_footer b0 b1 b2 b3 b4 b5 b6 b7 TA).
    intros H. injection H as <-.
    exists "footer". split; [reflexivity|].
    right. left. repeat split; assumption. }
  rewrite next_data_8.
  destruct (Z.eqb_spec (Z.land b3 0xF0) 0x50); [contradiction|].
  destruct (Z.eqb_spec (Z.land b3 0xF0) 0x60); [contradiction|].
  destruct (Z.eqb_spec (Z.land b3 0xF0) 0xA0); [contradiction|].
  discriminate.
Qed.

Lemma next_data_record_shape_witness :
  exists rec : dict,
    result (next_data sample_bytes) = Return (Some rec)
    /\ let t := Z.land (nth 3 sample_bytes 0) 0xF0 in
       exists ty : string,
         hd_error rec = Some ("type", VStr ty)
         /\ ((len sample_bytes = 2 /\ ty = "temp")
             \/ (len sample_bytes = 8 /\ t = 0xA0 /\ ty = "footer")
             \/ (len sample_bytes = 8
                 /\ ((t = 0x50 /\ ty = "basic")
                     \/ (t = 0x60 /\ ty = "timer"))
                 /\ exists common own : dict,
                     result (decode_common_data sample_bytes)
                     = Return common
                     /\ map fst own
                        = (if String.eqb ty "basic"
                           then ["h_guide"; "v_guide"; "wifi"; "ifeel";
                                 "temp_display"; "energy_save"]
                           else ["on_mins"; "overlap"; "off_mins";
                                 "on_set"; "off_set"])
                     /\ NoDup ("type" :: map fst common ++ map fst own)
                     /\ (rec = ("type", VStr ty) :: common ++ own
                         \/ (ty = "basic"
                             /\ rec = dict_remove
                                        (("type", VStr ty) :: common ++ own)
                                        "swing")))).
Proof.
  eexists.
  assert (H : result (next_data sample_bytes)
              = Return (Some (dict_remove
                 (basic_record 0x29 0x09 0x20 0x50 0x80 0x40
                    FanMed ModeCool HClosed VClosed TDDefault) "swing")))
    by (vm_compute; reflexivity).
  split; [exact H|].
  exact (next_data_record_shape sample_bytes _ H).
Defined.

(** ** Stray symbols in the payload *)

Lemma returned_payload_symbols (code : Code) (bytes : list Z) :
  result (next_bytes code) = Return (Some bytes) ->
  Forall digit_or_space (payload_bits code).
Proof.
  intros H. apply next_bytes_returned in H. destruct H as [_ H2].
  set (bits := payload_bits code) in *.
  apply Forall_forall. intros x Hx.
  destruct (in_some_slice bits x Hx) as (i & Hi & Hin).
  assert (Hc : exists b, int2 (rev (slice bits i (i + 8))) = Some b).
  { clear - H2 Hi. induction H2 as [|j b js bs Hj _ IH].
    - destruct Hi.
    - destruct Hi as [<-|Hi]; [exists b; exact Hj | apply IH, Hi]. }
  destruct Hc as [b Hb]. apply int2_sound in Hb. destruct Hb as [_ Hs].
  rewrite Forall_forall in Hs. apply Hs, in_rev.
  rewrite rev_involutive. exact Hin.
Qed.

Lemma mapM_raise_kind {A B} (f : A -> Py B) (l : list A) (e E : exn) :
  (forall a e', result (f a) = Raise e' -> e' = E) ->
  result (mapM f l) = Raise e -> e = E.
Proof.
  intros Hf. induction l as [|a l IH]; cbn [mapM].
  - rewrite result_ret. discriminate.
  - rewrite result_bind. destruct (result (f a)) as [b|e'] eqn:Ha.
    + rewrite result_bind. destruct (result (mapM f l)) as [bs|e''].
      * rewrite result_ret. discriminate.
      * intros H. injection H as <-. apply IH. reflexivity.
    + intros H. injection H as <-. apply (Hf a e' Ha).
Qed.

Lemma next_bytes_raise_kind (code : Code) (e : exn) :
  result (next_bytes code) = Raise e -> e = ValueError.
Proof.
  unfold next_bytes. fold (payload_bits code).
  destruct (neqb (len (payload_bits code) mod 8) 0); [discriminate|].
  rewrite result_bind.
  destruct (result (mapM _ _)) as [bs|e'] eqn:Hm; [discriminate|].
  intros H. injection H as <-.
  eapply mapM_raise_kind; [|exact Hm].
  intros i e'' Hi. cbv beta in Hi.
  destruct (int2 _); cbn in Hi; [discriminate Hi|].
  injection Hi as <-. reflexivity.
Qed.

(** X19: a symbol other than a data bit or a space that is left in the
    payload after stripping, such as a start pair received in the middle
    of a frame, never yields bytes: [next_bytes] returns nothing when
    the number of symbols left is not a multiple of 8, and otherwise ends
    with an uncaught [ValueError]. *)
Theorem next_bytes_stray_symbol (code : Code) (c : Symbol) :
  In c (payload_bits code) ->
  ~ digit_or_space c ->
  result (next_bytes code)
  = if len (payload_bits code) mod 8 =? 0 then Raise ValueError
    else Return None.
Proof.
  intros Hin Hc.
  destruct (Z.eqb_spec (len (payload_bits code) mod 8) 0) as [He|He].
  - destruct (result (next_bytes code)) as [[bytes|]|e] eqn:Hr.
    + apply returned_payload_symbols in Hr.
      rewrite Forall_forall in Hr. destruct (Hc (Hr c Hin)).
    + apply next_bytes_none_iff in Hr. contradiction.
    + apply next_bytes_raise_kind in Hr. rewrite Hr. reflexivity.
  - apply next_bytes_none_iff, He.
Qed.

Lemma next_bytes_stray_symbol_witness :
  result (next_code (frame_of stray_start_code))
  = Return (Some stray_start_code)
  /\ (In StartStandard (payload_bits stray_start_code)
      /\ ~ digit_or_space StartStandard)
  /\ result (next_bytes stray_start_code)
     = if len (payload_bits stray_start_code) mod 8 =? 0
       then Raise ValueError else Return None.
Proof.
  assert (H1 : In StartStandard (payload_bits stray_start_code))
    by (vm_compute; tauto).
  assert (H2 : ~ digit_or_space StartStandard)
    by (intros [H|[H|H]]; discriminate H).
  split; [vm_compute; reflexivity|].
  split; [split; assumption|].
  exact (next_bytes_stray_symbol stray_start_code StartStandard H1 H2).
Defined.

(** ** The bit layout of a Basic record *)

Lemma flag_testbit (b k : Z) :
  is_byte b -> 0 <= k < 8 -> flag b (2 ^ k) = Z.testbit b k.
Proof.
  intros Hb Hk. apply eqb_prop.
  apply (forall_byte2
           (fun b k => (8 <=? k) || Bool.eqb (flag b (2 ^ k)) (Z.testbit b k)))
    with (a := b) (b := k) in Hb.
  - apply orb_true_iff in Hb. destruct Hb as [Hb|Hb]; [|exact Hb].
    apply Z.leb_le in Hb. lia.
  - vm_compute. reflexivity.
  - unfold is_byte. lia.
Qed.

Lemma enum_fields_bytes (b0 b4 b5 : Z) :
  is_byte b0 -> is_byte b4 -> is_byte b5 ->
  Z.shiftr (Z.land b0 0x30) 4 = (b0 / 16) mod 4
  /\ Z.shiftr (Z.land b0 0x07) 0 = b0 mod 8
  /\ Z.shiftr (Z.land b4 0xF0) 4 = b4 / 16
  /\ Z.shiftr (Z.land b4 0x0F) 0 = b4 mod 16
  /\ Z.shiftr (Z.land b5 0x03) 0 = b5 mod 4.
Proof.
  intros H0 H4 H5. repeat split; apply Z.eqb_eq.
  - apply (forall_byte (fun b => Z.shiftr (Z.land b 0x30) 4 =? (b / 16) mod 4));
      [vm_compute; reflexivity | exact H0].
  - apply (forall_byte (fun b => Z.shiftr (Z.land b 0x07) 0 =? b mod 8));
      [vm_compute; reflexivity | exact H0].
  - apply (forall_byte (fun b => Z.shiftr (Z.land b 0xF0) 4 =? b / 16));
      [vm_compute; reflexivity | exact H4].
  - apply (forall_byte (fun b => Z.shiftr (Z.land b 0x0F) 0 =? b mod 16));
      [vm_compute; reflexivity | exact H4].
  - apply (forall_byte (fun b => Z.shiftr (Z.land b 0x03) 0 =? b mod 4));
      [vm_compute; reflexivity | exact H5].
Qed.

(** X20: the bit layout of a Basic frame.  In the record of a byte
    payload with frame type 0x5 and its enumerations in range, each flag
    is one bit of the payload (sleep is bit 7 of byte 0, on bit 3 of byte
    0, timer bit 7 of byte 1, and so on), the mode is the member for the
    low three bits of byte 0, the fan speed the member for bits 5 and 4
    of byte 0, the air guides the members for the high and the low nibble
    of byte 4 and the display mode the member for the low two bits of
    byte 5. *)
Theorem basic_record_layout (b0 b1 b2 b3 b4 b5 b6 b7 : Z)
        (m : Mode) (h : HGuide) (v : VGuide) :
  Forall is_byte [b0; b1; b2; b3; b4; b5; b6; b7] ->
  Z.shiftr b3 4 = 0x5 ->
  Mode_of (b0 mod 8) = Some m ->
  HGuide_of (b4 / 16) = Some h ->
  VGuide_of (b4 mod 16) = Some v ->
  let bytes := [b0; b1; b2; b3; b4; b5; b6; b7] in
  exists (rec : dict) (f : Fan) (t : TempDisplay),
    result (next_data bytes) = Return (Some rec)
    /\ Forall (fun e => dict_get rec (fst e)
                        = Some (VBool (Z.testbit (nth (fst (snd e)) bytes 0)
                                                 (snd (snd e)))))
              basic_flag_bits
    /\ dict_get rec "mode" = Some (VMode m)
    /\ Fan_of ((b0 / 16) mod 4) = Some f
    /\ dict_get rec "fan" = Some (VFan f)
    /\ dict_get rec "h_guide" = Some (VHGuide h)
    /\ dict_get rec "v_guide" = Some (VVGuide v)
    /\ TempDisplay_of (b5 mod 4) = Some t
    /\ dict_get rec "temp_display" = Some (VTempDisplay t).
Proof.
  intros Hb Ht Hm Hh Hv bytes. subst bytes.
  assert (B : forall i b, nth_error [b0; b1; b2; b3; b4; b5; b6; b7] i = Some b
                          -> is_byte b).
  { intros i b Hi. rewrite Forall_forall in Hb.
    apply Hb. eapply nth_error_In, Hi. }
  pose proof (B 0%nat b0 eq_refl) as H0.
  pose proof (B 1%nat b1 eq_refl) as H1.
  pose proof (B 2%nat b2 eq_refl) as H2.
  pose proof (B 3%nat b3 eq_refl) as H3.
  pose proof (B 4%nat b4 eq_refl) as H4.
  pose proof (B 5%nat b5 eq_refl) as H5.
  pose proof (B 7%nat b7 eq_refl) as H7.
  destruct (enum_fields_bytes b0 b4 b5 H0 H4 H5) as (Ef & Em & Eh & Ev & Et).
  destruct (frame_type_tests b3 H3) as (E5 & _ & _).
  rewrite Ht in E5. cbn in E5. apply Z.eqb_eq in E5.
  destruct (Fan_of_total b0) as [f Hf].
  destruct (TempDisplay_of_total b5) as [t Htd].
  rewrite <- Em in Hm. rewrite <- Eh in Hh. rewrite <- Ev in Hv.
  exists (if Bool.eqb (HGuide_is_swing h || VGuide_is_swing v) (flag b0 0x40)
          then dict_remove (basic_record b0 b1 b2 b3 b5 b7 f m h v t) "swing"
          else basic_record b0 b1 b2 b3 b5 b7 f m h v t), f, t.
  split.
  { apply (next_data_basic b0 b1 b2 b3 b4 b5 b6 b7 f m h v t
                           E5 Hf Hm Hh Hv Htd). }
  rewrite <- Ef, <- Et.
  assert (F : forall b k, is_byte b -> 0 <= k < 8 ->
                          VBool (flag b (2 ^ k)) = VBool (Z.testbit b k))
    by (intros b k Hbb Hk; rewrite (flag_testbit b k Hbb Hk); reflexivity).
  unfold basic_record, basic_flag_bits.
  destruct (Bool.eqb _ _);
    cbn -[flag timer_hours temp Z.testbit];
    (split; [|repeat split; assumption || reflexivity]);
    repeat (constructor;
            [cbn -[flag timer_hours temp Z.testbit]; f_equal;
             first [ apply (F _ 7); [assumption|lia]
                   | apply (F _ 6); [assumption|lia]
                   | apply (F _ 5); [assumption|lia]
                   | apply (F _ 4); [assumption|lia]
                   | apply (F _ 3); [assumption|lia]
                   | apply (F _ 2); [assumption|lia]
                   | apply (F _ 0); [assumption|lia] ] |]);
    constructor.
Qed.

Lemma basic_record_layout_witness :
  let bytes := [0x29; 0x09; 0x20; 0x50; 0x00; 0x80; 0x00; 0x40] in
  (Forall is_byte bytes
   /\ Z.shiftr 0x50 4 = 0x5
   /\ Mode_of (0x29 mod 8) = Some ModeCool
   /\ HGuide_of (0x00 / 16) = Some HClosed
   /\ VGuide_of (0x00 mod 16) = Some VClosed)
  /\ exists (rec : dict) (f : Fan) (t : TempDisplay),
    result (next_data bytes) = Return (Some rec)
    /\ Forall (fun e => dict_get rec (fst e)
                        = Some (VBool (Z.testbit (nth (fst (snd e)) bytes 0)
                                                 (snd (snd e)))))
              basic_flag_bits
    /\ dict_get rec "mode" = Some (VMode ModeCool)
    /\ Fan_of ((0x29 / 16) mod 4) = Some f
    /\ dict_get rec "fan" = Some (VFan f)
    /\ dict_get rec "h_guide" = Some (VHGuide HClosed)
    /\ dict_get rec "v_guide" = Some (VVGuide VClosed)
    /\ TempDisplay_of (0x80 mod 4) = Some t
    /\ dict_get rec "temp_display" = Some (VTempDisplay t).
Proof.
  intros bytes.
  assert (H1 : Forall is_byte bytes)
    by (repeat constructor; unfold is_byte; lia).
  assert (H2 : Z.shiftr 0x50 4 = 0x5) by reflexivity.
  assert (H3 : Mode_of (0x29 mod 8) = Some ModeCool) by reflexivity.
  assert (H4 : HGuide_of (0x00 / 16) = Some HClosed) by reflexivity.
  assert (H5 : VGuide_of (0x00 mod 16) = Some VClosed) by reflexivity.
  split; [exact (conj H1 (conj H2 (conj H3 (conj H4 H5))))|].
  exact (basic_record_layout 0x29 0x09 0x20 0x50 0x00 0x80 0x00 0x40
                             ModeCool HClosed VClosed H1 H2 H3 H4 H5).
Defined.

(** ** Frame after frame *)

Lemma process_line_whole_frame (w : Widths) (bytes : list Z) :
  widths_ok w = true ->
  List.length bytes = 8%nat ->
  Forall is_byte bytes ->
  process_line (Raw true (encode_frame w bytes)) []
  = (decoded_events bytes, ([], decoded_outcome bytes)).
Proof.
  intros Hw Hl Hb.
  assert (Hfr : snd (next_frame true (encode_frame w bytes) [])
                = ([], Return (Some (encode_frame w bytes)))).
  { assert (Hcol : collected true (encode_frame w bytes) []
                   = encode_frame w bytes) by reflexivity.
    rewrite encode_frame_bits in Hcol at 2.
    rewrite (next_frame_long_complete true _ [] _ _ _ Hcol).
    - rewrite <- encode_frame_bits. reflexivity.
    - apply (widths_ok_inv w Hw).
    - rewrite <- encode_frame_bits. unfold len.
      rewrite (length_encode_frame w bytes Hl). lia. }
  rewrite (process_line_frame true _ [] [] _ _ bytes Hfr
             (next_code_encode_frame w bytes Hw Hl)
             (next_bytes_encode_frame w bytes Hw Hl Hb)).
  rewrite next_frame_diags. reflexivity.
Qed.

(** X21: frames are decoded one by one, each as if it stood alone.  On a
    log of frame-start lines that each hold a whole encoded payload of 8
    bytes which [next_data] does not end with an exception, the loop
    writes, payload after payload, what [next_data] prints and the record
    if there is one, and ends with an empty buffer. *)
Theorem main_decodes_frames (w : Widths) (payloads : list (list Z)) :
  widths_ok w = true ->
  Forall (fun bytes => List.length bytes = 8%nat /\ Forall is_byte bytes
                       /\ decoded_outcome bytes = Return tt) payloads ->
  main (map (fun bytes => Raw true (encode_frame w bytes)) payloads) []
  = (flat_map decoded_events payloads, ([], Return tt)).
Proof.
  intros Hw Hp. induction Hp as [|bytes payloads (Hl & Hb & Ho) _ IH];
    [reflexivity|].
  cbn [map main flat_map].
  rewrite (process_line_whole_frame w bytes Hw Hl Hb), Ho, IH. reflexivity.
Qed.

Lemma main_decodes_frames_witness :
  let footer := [0x00; 0x00; 0x00; 0xA0; 0x00; 0x00; 0x00; 0xA0] in
  let payloads := [sample_bytes; footer] in
  (widths_ok gree_widths = true
   /\ Forall (fun bytes => List.length bytes = 8%nat /\ Forall is_byte bytes
                           /\ decoded_outcome bytes = Return tt) payloads)
  /\ main (map (fun bytes => Raw true (encode_frame gree_widths bytes))
               payloads) []
     = (flat_map decoded_events payloads, ([], Return tt)).
Proof.
  intros footer payloads.
  assert (H1 : widths_ok gree_widths = true) by reflexivity.
  assert (H2 : Forall (fun bytes => List.length bytes = 8%nat
                                    /\ Forall is_byte bytes
                                    /\ decoded_outcome bytes = Return tt)
                      payloads).
  { repeat constructor; unfold is_byte; lia. }
  split; [exact (conj H1 H2)|].
  exact (main_decodes_frames gree_widths payloads H1 H2).
Defined.

(** ** What a Timer frame prints *)



